(** * backendcia2025: the credential verifier and the team registration workflow

    A shallow embedding of the Express routes of the competition
    registration backend (tracks CIC, SBC, FCEC and the generic team
    routes), with the relational store, the upload directory and the
    request pipeline as explicit state.

    - tables are lists of rows (insertion order), one Module per table with
      the SQL column names;
    - every [sequelize.query] call is a primitive that also appends the
      statement to the world's list of queries, so the order in which
      statements are issued can be observed;
    - [async] handlers with [try]/[catch] are written in a small state and
      exception monad over the world (store, upload directory, clock);
    - the libraries the routes call ([jsonwebtoken], [bcrypt], [path.extname])
      are parameters of the definitions that use them.

    Embedded handlers: the verifier, the login, [GET /teams], verify and
    reject, list, get by id, create, update and delete of CIC, SBC and FCEC,
    the two participant queries, the events of a user and the upload
    endpoint. The CRAFT routes and the remaining user routes go through the
    Sequelize models models/craft.js and models/user.js, which are not
    among the sources; they appear with the middleware they run only. A
    statement always reaches the store: connection failures and constraint
    violations of the database are not part of the model. *)

From Stdlib Require Import Ascii.
From stdpp Require Import gmap strings list pretty.

#[local] Set Warnings "-clear-no-such-hyp".

Local Open Scope string_scope.
Local Open Scope Z_scope.
Local Open Scope list_scope.

(** ** The relational store *)

Module teams.
Record row := Row {
  team_id : Z;
  team_name : string;
  institution_name : string;
  payment_proof : option string;
  event_id : Z;
  user_id : option Z;
  email : option string;
  voucher : option string;
  isVerified : bool;
  isRejected : bool;
  rejectMessage : option string }.
End teams.

Module members.
Record row := Row {
  member_id : Z;
  team_id : Z;
  full_name : string;
  department : option string;
  batch : string;
  phone_number : string;
  line_id : string;
  email : string;
  ktm : option string;
  active_student_letter : option string;
  photo : option string;
  twibbon_and_poster_link : string;
  is_leader : Z;
  nim : option string }.
End members.

Module dosbim.
Record row := Row {
  advisor_id : Z;
  team_id : Z;
  full_name : string;
  nip : string;
  email : string;
  phone_number : string;
  photo : option string }.
End dosbim.

Module sbc.
Record row := Row {
  sbc_id : Z;
  team_id : Z;
  bridge_name : string }.
End sbc.

Module fcec.
Record row := Row {
  fcec_id : Z;
  team_id : Z;
  originality_statement : option string;
  abstract_title : string;
  abstract_file : option string;
  abstract_video_link : string }.
End fcec.

Module events.
Record row := Row { event_id : Z; event_name : string }.
End events.

Module users.
Record row := Row {
  id : Z;
  username : string;
  email : string;
  password : string }.

(** A user as the login answers it: [user.password = undefined]. *)
Record public := Public {
  public_id : Z;
  public_username : string;
  public_email : string }.

Definition without_password (u : row) : public :=
  Public (id u) (username u) (email u).
End users.

Inductive table := Teams | Members | Dosbim | Sbc | Fcec | Events | Users.

(** A statement as the log records it: its verb, its table and, for the
    statements keyed by a team, the team id bound to the placeholder. *)
Inductive statement :=
  | SELECT (t : table)
  | SELECT_LAST_INSERT_ID
  | INSERT (t : table)
  | UPDATE (t : table)
  | DELETE (t : table) (team_id : Z).

Record database := Database {
  db_teams : list teams.row;
  db_members : list members.row;
  db_dosbim : list dosbim.row;
  db_sbc : list sbc.row;
  db_fcec : list fcec.row;
  db_events : list events.row;
  db_users : list users.row;
  (* AUTO_INCREMENT counters *)
  next_team_id : Z;
  next_member_id : Z;
  next_advisor_id : Z;
  next_sbc_id : Z;
  next_fcec_id : Z;
  last_insert_id : Z }.   (* LAST_INSERT_ID() of the connection *)

(** ** The world a request runs in *)

Record world := World {
  db : database;
  queries : list statement;   (* statements issued so far, oldest first *)
  disk : gset string;         (* paths of the files in the upload directories *)
  clock : Z }.                (* Date.now() *)

Definition with_db (f : database → database) (w : world) : world :=
  World (f (db w)) (queries w) (disk w) (clock w).

Definition logged (s : statement) (w : world) : world :=
  World (db w) (queries w ++ [s]) (disk w) (clock w).

Definition with_disk (f : gset string → gset string) (w : world) : world :=
  World (db w) (queries w) (f (disk w)) (clock w).

(** ** Handler monad: state over the world, with JavaScript exceptions *)

Inductive outcome (A : Type) :=
  | Return (a : A)
  | Throw (message : string).
Arguments Return {A} a.
Arguments Throw {A} message.

Definition js (A : Type) : Type := world → outcome A * world.

Definition ret {A} (a : A) : js A := λ w, (Return a, w).
Definition throw {A} (message : string) : js A := λ w, (Throw message, w).

Definition bind {A B} (m : js A) (k : A → js B) : js B :=
  λ w, match m w with
       | (Return a, w') => k a w'
       | (Throw e, w') => (Throw e, w')
       end.

Definition try_catch {A} (m : js A) (handler : string → js A) : js A :=
  λ w, match m w with
       | (Return a, w') => (Return a, w')
       | (Throw e, w') => handler e w'
       end.

Notation "'let!' x ':=' m 'in' k" := (bind m (λ x, k))
  (at level 10, x name, m at level 200, k at level 200, only parsing).
Notation "'run!' m 'in' k" := (bind m (λ _, k))
  (at level 10, m at level 200, k at level 200, only parsing).

(** [array.forEach(f)] and [await Promise.all(array.map(f))] over effectful
    callbacks: the callbacks run in index order; the first one that throws
    ends the loop. *)
Fixpoint for_each {A} (f : nat → A → js unit) (i : nat) (l : list A) : js unit :=
  match l with
  | [] => ret tt
  | x :: l' => run! f i x in for_each f (S i) l'
  end.

Fixpoint map_m {A B} (f : nat → A → js B) (i : nat) (l : list A) : js (list B) :=
  match l with
  | [] => ret []
  | x :: l' => let! y := f i x in let! ys := map_m f (S i) l' in ret (y :: ys)
  end.

(** ** Primitive queries *)

Definition set_teams (l : list teams.row) (d : database) : database :=
  Database l (db_members d) (db_dosbim d) (db_sbc d) (db_fcec d)
           (db_events d) (db_users d)
           (next_team_id d) (next_member_id d) (next_advisor_id d)
           (next_sbc_id d) (next_fcec_id d) (last_insert_id d).

Definition set_members (l : list members.row) (d : database) : database :=
  Database (db_teams d) l (db_dosbim d) (db_sbc d) (db_fcec d)
           (db_events d) (db_users d)
           (next_team_id d) (next_member_id d) (next_advisor_id d)
           (next_sbc_id d) (next_fcec_id d) (last_insert_id d).

Definition set_dosbim (l : list dosbim.row) (d : database) : database :=
  Database (db_teams d) (db_members d) l (db_sbc d) (db_fcec d)
           (db_events d) (db_users d)
           (next_team_id d) (next_member_id d) (next_advisor_id d)
           (next_sbc_id d) (next_fcec_id d) (last_insert_id d).

Definition set_sbc (l : list sbc.row) (d : database) : database :=
  Database (db_teams d) (db_members d) (db_dosbim d) l (db_fcec d)
           (db_events d) (db_users d)
           (next_team_id d) (next_member_id d) (next_advisor_id d)
           (next_sbc_id d) (next_fcec_id d) (last_insert_id d).

Definition set_fcec (l : list fcec.row) (d : database) : database :=
  Database (db_teams d) (db_members d) (db_dosbim d) (db_sbc d) l
           (db_events d) (db_users d)
           (next_team_id d) (next_member_id d) (next_advisor_id d)
           (next_sbc_id d) (next_fcec_id d) (last_insert_id d).

Definition bump_team_id (d : database) : database :=
  Database (db_teams d) (db_members d) (db_dosbim d) (db_sbc d) (db_fcec d)
           (db_events d) (db_users d)
           (next_team_id d + 1) (next_member_id d) (next_advisor_id d)
           (next_sbc_id d) (next_fcec_id d) (next_team_id d).

Definition bump_member_id (d : database) : database :=
  Database (db_teams d) (db_members d) (db_dosbim d) (db_sbc d) (db_fcec d)
           (db_events d) (db_users d)
           (next_team_id d) (next_member_id d + 1) (next_advisor_id d)
           (next_sbc_id d) (next_fcec_id d) (next_member_id d).

Definition bump_advisor_id (d : database) : database :=
  Database (db_teams d) (db_members d) (db_dosbim d) (db_sbc d) (db_fcec d)
           (db_events d) (db_users d)
           (next_team_id d) (next_member_id d) (next_advisor_id d + 1)
           (next_sbc_id d) (next_fcec_id d) (next_advisor_id d).

Definition bump_sbc_id (d : database) : database :=
  Database (db_teams d) (db_members d) (db_dosbim d) (db_sbc d) (db_fcec d)
           (db_events d) (db_users d)
           (next_team_id d) (next_member_id d) (next_advisor_id d)
           (next_sbc_id d + 1) (next_fcec_id d) (next_sbc_id d).

Definition bump_fcec_id (d : database) : database :=
  Database (db_teams d) (db_members d) (db_dosbim d) (db_sbc d) (db_fcec d)
           (db_events d) (db_users d)
           (next_team_id d) (next_member_id d) (next_advisor_id d)
           (next_sbc_id d) (next_fcec_id d + 1) (next_fcec_id d).

(** A [SELECT]: log the statement, return the rows the predicate keeps. *)
Definition select {R} (t : table) (rows : database → list R) (p : R → bool)
  : js (list R) :=
  λ w, (Return (List.filter p (rows (db w))), logged (SELECT t) w).

(** [ORDER BY is_leader DESC], as a stable insertion sort on the column. *)
Fixpoint insert_by_is_leader (m : members.row) (l : list members.row)
  : list members.row :=
  match l with
  | [] => [m]
  | x :: l' =>
      if members.is_leader x <=? members.is_leader m
      then m :: x :: l'
      else x :: insert_by_is_leader m l'
  end.

Definition order_by_is_leader_desc (l : list members.row) : list members.row :=
  foldr insert_by_is_leader [] l.

Definition member_of_team (teamId : Z) (m : members.row) : bool :=
  members.team_id m =? teamId.

(** [SELECT * FROM members WHERE team_id = :teamId ORDER BY is_leader DESC] *)
Definition select_members_of (teamId : Z) : js (list members.row) :=
  let! ms := select Members db_members (member_of_team teamId) in
  ret (order_by_is_leader_desc ms).

(** An [UPDATE]/[DELETE]/[INSERT]: log the statement, transform the store. *)
Definition execute (s : statement) (f : database → database) : js unit :=
  λ w, (Return tt, with_db f (logged s w)).

(** Sequelize refuses a named replacement whose value is [undefined]: the
    query is never sent. *)
Definition replacement {A} (name : string) (v : option A) : js A :=
  match v with
  | Some a => ret a
  | None =>
      throw ("Named parameter :" +:+ name +:+
             " has no value in the given object.")
  end.

(** ** Requests and responses *)

Module jwt.
(** The claims of a token: [id] is what the login signs, [user_id] is
    what the team routes read from [req.user]. *)
Record claims := Claims { id : option Z; user_id : option Z }.

Inductive error := TokenExpiredError | JsonWebTokenError | NotBeforeError.

Definition name (e : error) : string :=
  match e with
  | TokenExpiredError => "TokenExpiredError"
  | JsonWebTokenError => "JsonWebTokenError"
  | NotBeforeError => "NotBeforeError"
  end.
End jwt.

(** A file part of a multipart request, as it reaches multer, together with
    the values [Date.now()] and [Math.round(Math.random() * 1e9)] take when
    the storage engine names it. *)
Record part := Part {
  part_fieldname : string;
  part_originalname : string;
  part_mimetype : string;
  part_now : Z;
  part_random : Z }.

(** An entry of [req.files] (or [req.file]). *)
Record file := File {
  fieldname : string;
  originalname : string;
  mimetype : string;
  filename : string;
  path : string }.

Module team_input.
Record t := T {
  team_name : string;
  institution_name : string;
  email : option string;
  payment_proof : option string;
  user_id : option Z }.
End team_input.

Module member_input.
Record t := T {
  full_name : string;
  department : string;
  batch : string;
  phone_number : string;
  line_id : string;
  email : string;
  twibbon_and_poster_link : string;
  nim : string;
  teamId : option Z }.   (* a [teamId] key of the object's own, if it has one *)
End member_input.

Module dosbim_input.
Record t := T {
  full_name : string;
  nip : string;
  email : string;
  phone_number : string }.
End dosbim_input.

Module sbc_input.
Record t := T { bridge_name : string }.
End sbc_input.

Module fcec_input.
Record t := T { abstract_title : string; abstract_video_link : string }.
End fcec_input.

(** [JSON.parse(req.body.data)] of the create routes. [team] and [leader]
    may be absent (the CIC route tests them); the other parts follow the
    schema the routes document. The objects of the payload are records of
    the keys the statements read. For the member objects these are the
    columns of the INSERT and [teamId]: routes/cic.js spreads the member
    object after the [teamId] replacement, so that a numeric [teamId] key
    of the object takes its place; routes/sbc.js and routes/fcec.js write
    the team id after the spread, and every route writes the file paths and
    [is_leader] after it. *)
Module data.
Record t := T {
  team : option team_input.t;
  leader : option member_input.t;
  members : list member_input.t;
  dosbim : list dosbim_input.t;
  sbc : list sbc_input.t;
  fcec : fcec_input.t }.
End data.

(** [req.body.data]: absent, not parsable (with the parser's message), or
    parsed. *)
Inductive form_data :=
  | DataMissing
  | DataInvalid (message : string)
  | Data (d : data.t).

Inductive req_body :=
  | EmptyBody
  | JsonReject (rejectMessage : string)
  | JsonLogin (username password : option string)
  | Multipart (data : form_data).

Record request := Request {
  headers_authorization : option string;   (* req.headers['authorization'] *)
  params_id : Z;                           (* the route's :team_id / :teamId *)
  body : req_body;
  parts : list part;                       (* file parts not yet stored *)
  files : list (string * list file);       (* req.files, in insertion order *)
  user : option jwt.claims }.              (* req.user *)

Definition set_user (c : jwt.claims) (req : request) : request :=
  Request (headers_authorization req) (params_id req) (body req) (parts req)
          (files req) (Some c).

Definition set_files (fs : list (string * list file)) (req : request) : request :=
  Request (headers_authorization req) (params_id req) (body req) []
          fs (user req).

(** What each track's list returns next to team, leader and members. *)
Inductive extra :=
  | NoExtra
  | SbcExtra (dosbim : list dosbim.row) (sbc : list sbc.row) (event : string)
  | FcecExtra (fcec : list fcec.row).

Inductive view :=
  | Bare (team_name institution_name : string) (payment_proof : option string)
  | Full (team : teams.row) (leader : option members.row)
         (members : list members.row) (more : extra).

Inductive json :=
  | Message (message : string)                     (* { message } *)
  | MessageError (message error : string)          (* { message, error } *)
  | StatusMessage (status message : string)        (* { status, message } *)
  | Views (result : list view)
  | LoggedIn (message : string) (user : users.public) (token : string)
  | SbcCreated (message : string) (team leader : Z) (members : list Z)
               (dosbim sbc : Z).

Record response := Response { status : Z; payload : json }.

(** ** The Express pipeline *)

Inductive step :=
  | Send (r : response)       (* the middleware answered; the chain stops *)
  | Next (req : request).     (* next() *)

Definition middleware : Type := request → world → step * world.
Definition handler : Type := request → js response.

Record served := Served {
  answer : option response;   (* None: the handler's promise rejected *)
  after : world;
  handler_ran : bool }.

Fixpoint dispatch (chain : list middleware) (h : handler)
                  (req : request) (w : world) : served :=
  match chain with
  | [] =>
      match h req w with
      | (Return r, w') => Served (Some r) w' true
      | (Throw _, w') => Served None w' true
      end
  | m :: chain' =>
      match m req w with
      | (Send r, w') => Served (Some r) w' false
      | (Next req', w') => dispatch chain' h req' w'
      end
  end.

(** ** String helpers of the JavaScript runtime *)

(** [s.split(sep)] for a one-character separator. *)
Fixpoint split (sep : ascii) (s : string) : list string :=
  match s with
  | EmptyString => [EmptyString]
  | String c rest =>
      let r := split sep rest in
      if bool_decide (c = sep) then EmptyString :: r
      else match r with
           | word :: words => String c word :: words
           | [] => [String c EmptyString]
           end
  end.

(** [!v] for a value that is a string or [undefined]. *)
Definition falsy (v : option string) : bool :=
  match v with
  | None => true
  | Some s => bool_decide (s = "")
  end.

(** A string is kept as the bytes of its UTF-8 encoding, the form in which
    the text of a request reaches the server: a character above U+007F is
    the two or three bytes of its encoding, and a byte above 0x7F stands
    for no character by itself. [utf8 c] is the encoding of a code point of
    the Basic Multilingual Plane. *)
Definition utf8 (c : Z) : string :=
  let byte (n : Z) := ascii_of_N (Z.to_N n) in
  if c <? 0x80 then
    String (byte c) ""
  else if c <? 0x800 then
    String (byte (Z.lor 0xC0 (Z.shiftr c 6)))
      (String (byte (Z.lor 0x80 (Z.land c 0x3F))) "")
  else
    String (byte (Z.lor 0xE0 (Z.shiftr c 12)))
      (String (byte (Z.lor 0x80 (Z.land (Z.shiftr c 6) 0x3F)))
         (String (byte (Z.lor 0x80 (Z.land c 0x3F))) "")).

(** The code points [s.trim()] removes: the WhiteSpace of ECMAScript (TAB,
    VT, FF, SP, NBSP, ZWNBSP and the space separators of Unicode) and its
    LineTerminator (LF, CR, LS, PS). *)
Definition white_space : list Z :=
  [ 0x09; 0x0A; 0x0B; 0x0C; 0x0D; 0x20; 0xA0; 0x1680;
    0x2000; 0x2001; 0x2002; 0x2003; 0x2004; 0x2005; 0x2006; 0x2007; 0x2008;
    0x2009; 0x200A; 0x2028; 0x2029; 0x202F; 0x205F; 0x3000; 0xFEFF ].

(** [s] without the prefix [p], when it starts with it. *)
Fixpoint without_prefix (p s : string) : option string :=
  match p, s with
  | EmptyString, _ => Some s
  | String a p', String b s' =>
      if bool_decide (a = b) then without_prefix p' s' else None
  | String _ _, EmptyString => None
  end.

(** [s] without the first of the [blanks] it starts with. *)
Definition without_blank (blanks : list string) (s : string) : option string :=
  head (omap (λ p, without_prefix p s) blanks).

(** At most [n] leading blanks removed; a string has no more of them than
    bytes. *)
Fixpoint without_blanks (blanks : list string) (n : nat) (s : string) : string :=
  match n with
  | O => s
  | S n' =>
      match without_blank blanks s with
      | Some rest => without_blanks blanks n' rest
      | None => s
      end
  end.

(** [s.trimStart()], [s.trimEnd()] (on the reversed bytes, with the
    encodings reversed) and [s.trim()]. *)
Definition trimStart (s : string) : string :=
  without_blanks (map utf8 white_space) (String.length s) s.

Definition trimEnd (s : string) : string :=
  String.rev (without_blanks (map (String.rev ∘ utf8) white_space)
                             (String.length s) (String.rev s)).

Definition trim (s : string) : string := trimEnd (trimStart s).

(** [s.toLowerCase()] on ASCII letters. *)
Definition lower (c : ascii) : ascii :=
  let n := nat_of_ascii c in
  if ((65 <=? n) && (n <=? 90))%nat then ascii_of_nat (n + 32) else c.

Fixpoint toLowerCase (s : string) : string :=
  match s with
  | EmptyString => EmptyString
  | String c rest => String (lower c) (toLowerCase rest)
  end.

(** [s.startsWith(p)] *)
Fixpoint startsWith (p s : string) : bool :=
  match p, s with
  | EmptyString, _ => true
  | String a p', String b s' => bool_decide (a = b) && startsWith p' s'
  | String _ _, EmptyString => false
  end.

(** [s.includes(p)] *)
Fixpoint includes (p s : string) : bool :=
  startsWith p s ||
  match s with
  | EmptyString => false
  | String _ s' => includes p s'
  end.

(** [obj[name]] on an object kept as its list of entries. *)
Fixpoint entry {A} (name : string) (obj : list (string * A)) : option A :=
  match obj with
  | [] => None
  | (k, v) :: obj' => if bool_decide (k = name) then Some v else entry name obj'
  end.

(** ** The upload directory *)

(** [fs.unlinkSync(p)]: throws when the file is not there. *)
Definition unlinkSync (p : string) : js unit :=
  λ w, if bool_decide (p ∈ disk w)
       then (Return tt, with_disk (λ d, d ∖ {[p]}) w)
       else (Throw "ENOENT: no such file or directory", w).

(** [fs.unlink(p, cb)] with a callback that only logs the error. *)
Definition unlink (p : string) : js unit :=
  λ w, (Return tt, with_disk (λ d, d ∖ {[p]}) w).

(** [Object.values(req.files).forEach(a => a.forEach(f => rm(f.path)))] *)
Definition remove_uploads (rm : string → js unit) (req : request) : js unit :=
  for_each (λ _ fileArray,
              for_each (λ _ f, rm (path f)) 0%nat (fileArray.2))
           0%nat (files req).

(** [req.files[name] ? req.files[name][0].path : null] *)
Definition path_of (name : string) (req : request) : js (option string) :=
  match entry name (files req) with
  | None => ret None
  | Some (f :: _) => ret (Some (path f))
  | Some [] => throw "Cannot read properties of undefined (reading 'path')"
  end.

(** [req.user.user_id] *)
Definition req_user_id (req : request) : js (option Z) :=
  match user req with
  | Some c => ret (jwt.user_id c)
  | None => throw "Cannot read properties of undefined (reading 'user_id')"
  end.

(** The paths of the files listed in [req.files]. *)
Definition paths_of (fs : list (string * list file)) : list string :=
  (fs.*2) ≫= fmap path.

(** What multer is configured with on a route (size limits left out). *)
Record upload_config := Upload {
  destination : string;
  name_file : part → string;       (* the storage engine's filename callback *)
  fileFilter : part → bool;
  fields : option (list string) }. (* upload.fields([...]); None: upload.single('file') *)

Definition accepted (cfg : upload_config) (seen : list (string * list file))
                    (p : part) : bool :=
  fileFilter cfg p &&
  match fields cfg with
  | Some names =>
      bool_decide (part_fieldname p ∈ names)
      && bool_decide (entry (part_fieldname p) seen = None)       (* maxCount: 1 *)
  | None =>
      bool_decide (part_fieldname p = "file") && bool_decide (seen = [])
  end.

Definition stored (cfg : upload_config) (p : part) : file :=
  let name := name_file cfg p in
  File (part_fieldname p) (part_originalname p) (part_mimetype p) name
       (destination cfg +:+ "/" +:+ name).

(** multer stores the parts one after the other; a part it refuses (file
    filter, unexpected field, a second file for a field) ends the request
    there, and multer removes the files it stored for the request. *)
Fixpoint store_parts (cfg : upload_config) (ps : list part)
                     (seen : list (string * list file)) (d : gset string)
  : option (list (string * list file)) * gset string :=
  match ps with
  | [] => (Some seen, d)
  | p :: ps' =>
      if accepted cfg seen p
      then let f := stored cfg p in
           store_parts cfg ps' (seen ++ [(fieldname f, [f])]) ({[path f]} ∪ d)
      else (None, d ∖ list_to_set (paths_of seen))
  end.

(** The multer middleware; its error goes to Express's default error
    handler, which answers 500 without running the route's handler. *)
Definition upload (cfg : upload_config) : middleware :=
  λ req w,
    match store_parts cfg (parts req) [] (disk w) with
    | (Some fs, d) => (Next (set_files fs req), with_disk (λ _, d) w)
    | (None, d) =>
        (Send (Response 500 (Message "Internal Server Error")),
         with_disk (λ _, d) w)
    end.

(** ** Statements of the routes *)

(** Modelled from the spec: the defaults of the columns isVerified,
    isRejected and rejectMessage of the teams table (models/team.js is not
    among the sources; no INSERT of the routes names these columns). A team
    is created unverified, not rejected and without a rejection message. *)
Definition created_state : bool * bool * option string := (false, false, None).

(** [INSERT INTO teams ...]: the row gets the next id, and the columns the
    statement does not name take their defaults. Returns the insert id. *)
Definition insert_team (team_name institution_name : string)
    (payment_proof : option string) (event_id : Z) (user_id : option Z)
    (email voucher : option string) : js Z :=
  λ w, let id := next_team_id (db w) in
       let r := teams.Row id team_name institution_name payment_proof event_id
                          user_id email voucher
                          created_state.1.1 created_state.1.2 created_state.2 in
       (Return id,
        with_db (λ d, bump_team_id (set_teams (db_teams d ++ [r]) d))
                (logged (INSERT Teams) w)).

(** [SELECT LAST_INSERT_ID() as team_id] *)
Definition select_last_insert_id : js Z :=
  λ w, (Return (last_insert_id (db w)),
        logged SELECT_LAST_INSERT_ID w).

Definition insert_member (r : Z → members.row) : js Z :=
  λ w, let id := next_member_id (db w) in
       (Return id,
        with_db (λ d, bump_member_id (set_members (db_members d ++ [r id]) d))
                (logged (INSERT Members) w)).

Definition insert_dosbim (r : Z → dosbim.row) : js Z :=
  λ w, let id := next_advisor_id (db w) in
       (Return id,
        with_db (λ d, bump_advisor_id (set_dosbim (db_dosbim d ++ [r id]) d))
                (logged (INSERT Dosbim) w)).

Definition insert_sbc (r : Z → sbc.row) : js Z :=
  λ w, let id := next_sbc_id (db w) in
       (Return id,
        with_db (λ d, bump_sbc_id (set_sbc (db_sbc d ++ [r id]) d))
                (logged (INSERT Sbc) w)).

Definition insert_fcec (r : Z → fcec.row) : js Z :=
  λ w, let id := next_fcec_id (db w) in
       (Return id,
        with_db (λ d, bump_fcec_id (set_fcec (db_fcec d ++ [r id]) d))
                (logged (INSERT Fcec) w)).

(** The member row of the CIC and FCEC inserts (no [nim] column). *)
Definition member_row_department (teamId : Z) (m : member_input.t)
    (ktm active_student_letter photo : option string) (is_leader : Z)
    (id : Z) : members.row :=
  members.Row id teamId (member_input.full_name m)
              (Some (member_input.department m)) (member_input.batch m)
              (member_input.phone_number m) (member_input.line_id m)
              (member_input.email m) ktm active_student_letter photo
              (member_input.twibbon_and_poster_link m) is_leader None.

(** The member row of the SBC inserts (no [department] column). *)
Definition member_row_nim (teamId : Z) (m : member_input.t)
    (ktm active_student_letter photo : option string) (is_leader : Z)
    (id : Z) : members.row :=
  members.Row id teamId (member_input.full_name m) None
              (member_input.batch m)
              (member_input.phone_number m) (member_input.line_id m)
              (member_input.email m) ktm active_student_letter photo
              (member_input.twibbon_and_poster_link m) is_leader
              (Some (member_input.nim m)).

(** [DELETE FROM <table> WHERE team_id = :team_id] *)
Definition delete_members (teamId : Z) : js unit :=
  execute (DELETE Members teamId)
    (λ d, set_members
            (List.filter (λ m, negb (members.team_id m =? teamId)) (db_members d)) d).

Definition delete_teams (teamId : Z) : js unit :=
  execute (DELETE Teams teamId)
    (λ d, set_teams
            (List.filter (λ t, negb (teams.team_id t =? teamId)) (db_teams d)) d).

Definition delete_dosbim (teamId : Z) : js unit :=
  execute (DELETE Dosbim teamId)
    (λ d, set_dosbim
            (List.filter (λ r, negb (dosbim.team_id r =? teamId)) (db_dosbim d)) d).

Definition delete_sbc (teamId : Z) : js unit :=
  execute (DELETE Sbc teamId)
    (λ d, set_sbc
            (List.filter (λ r, negb (sbc.team_id r =? teamId)) (db_sbc d)) d).

Definition delete_fcec (teamId : Z) : js unit :=
  execute (DELETE Fcec teamId)
    (λ d, set_fcec
            (List.filter (λ r, negb (fcec.team_id r =? teamId)) (db_fcec d)) d).

(** [UPDATE teams SET isVerified = true WHERE team_id = :team_id] *)
Definition set_isVerified (t : teams.row) : teams.row :=
  teams.Row (teams.team_id t) (teams.team_name t) (teams.institution_name t)
            (teams.payment_proof t) (teams.event_id t) (teams.user_id t)
            (teams.email t) (teams.voucher t)
            true (teams.isRejected t) (teams.rejectMessage t).

Definition update_isVerified (team_id : Z) : js unit :=
  execute (UPDATE Teams)
    (λ d, set_teams
            (map (λ t, if teams.team_id t =? team_id then set_isVerified t else t)
                 (db_teams d)) d).

(** [UPDATE teams SET isRejected = :isRejected, rejectMessage = :rejectMessage
     WHERE team_id = :team_id] *)
Definition set_isRejected (isRejected : bool) (rejectMessage : string)
                          (t : teams.row) : teams.row :=
  teams.Row (teams.team_id t) (teams.team_name t) (teams.institution_name t)
            (teams.payment_proof t) (teams.event_id t) (teams.user_id t)
            (teams.email t) (teams.voucher t)
            (teams.isVerified t) isRejected (Some rejectMessage).

Definition update_isRejected (team_id : Z) (isRejected : bool)
                             (rejectMessage : string) : js unit :=
  execute (UPDATE Teams)
    (λ d, set_teams
            (map (λ t, if teams.team_id t =? team_id
                       then set_isRejected isRejected rejectMessage t else t)
                 (db_teams d)) d).

(** [members.find(m => m.is_leader === 1)] and
    [members.filter(m => m.is_leader === 0)] *)
Definition find_leader (ms : list members.row) : option members.row :=
  List.find (λ m, members.is_leader m =? 1) ms.

Definition filter_members (ms : list members.row) : list members.row :=
  List.filter (λ m, members.is_leader m =? 0) ms.

Definition error_500 (e : string) : js response :=
  ret (Response 500 (MessageError "An error occurred" e)).

(** ** middleware/authenticateToken.js *)

Section middleware.
(** [jwt.verify(token, secret)] at a wall-clock time: the decoded claims,
    or the error it throws. *)
Variable jwt_verify : string → string → Z → jwt.error + jwt.claims.
(** [process.env.JWT_SECRET] *)
Variable env_JWT_SECRET : option string.

(** [process.env.JWT_SECRET || 'backendCIA'] *)
Definition JWT_SECRET : string :=
  if falsy env_JWT_SECRET then "backendCIA" else default "" env_JWT_SECRET.

(** [authHeader && authHeader.split(' ')[1]] *)
Definition bearer (authHeader : option string) : option string :=
  match authHeader with
  | None => None
  | Some h => if falsy (Some h) then Some h else split " " h !! 1%nat
  end.

Definition authenticateToken : middleware :=
  λ req w,
    let authHeader := headers_authorization req in
    let token := bearer authHeader in
    if falsy token then
      (Send (Response 401 (Message "Authentication token is required")), w)
    else
      match jwt_verify (default "" token) JWT_SECRET (clock w) with
      | inr decoded => (Next (set_user decoded req), w)
      | inl err =>
          if bool_decide (jwt.name err = "TokenExpiredError") then
            (Send (Response 401 (Message "Token has expired")), w)
          else
            (Send (Response 403 (Message "Invalid token")), w)
      end.
End middleware.

(** ** routes/users.js: login *)

Section users.
(** [jwt.sign(payload, secret, { expiresIn })] at a wall-clock time, with
    the lifetime in seconds. *)
Variable jwt_sign : jwt.claims → string → Z → Z → string.
(** [bcrypt.compare(password, hash)] *)
Variable bcrypt_compare : string → string → bool.

Definition sixty_days : Z := 60 * 24 * 60 * 60.

(** [User.findOne({ where: { [Op.or]: [{ username }, { email: username }] } })] *)
Definition find_user (username : string) : js (option users.row) :=
  let! rows := select Users db_users
                 (λ u, bool_decide (users.username u = username)
                       || bool_decide (users.email u = username)) in
  ret (head rows).

Definition post_user_login : handler :=
  λ req,
    try_catch
      (let (username, password) :=
         match body req with
         | JsonLogin u p => (u, p)
         | _ => (None, None)
         end in
       if falsy username || falsy password then
         ret (Response 400 (Message "Username/email and password are required"))
       else
         let! found := find_user (default "" username) in
         match found with
         | None =>
             ret (Response 404
                    (Message "No user found with the provided username/email"))
         | Some u =>
             if negb (bcrypt_compare (default "" password) (users.password u))
             then ret (Response 401 (Message "Password is incorrect"))
             else
               λ w,
                 let token :=
                   jwt_sign (jwt.Claims (Some (users.id u)) None)
                            "your-secret-key" sixty_days (clock w) in
                 (Return (Response 200
                            (LoggedIn "User logged in successfully"
                                      (users.without_password u) token)),
                  w)
         end)
      (λ _, ret (Response 500 (Message "An error occurred"))).
End users.

(** ** routes/teams.js *)

(** [GET /teams] *)
Definition get_teams : handler :=
  λ req,
    try_catch
      (let! teams := select Teams db_teams (λ _, true) in
       if bool_decide (teams = []) then
         ret (Response 404 (Message "Tidak ada tim ditemukan"))
       else
         let! result :=
           map_m (λ _ team,
                    let! members := select_members_of (teams.team_id team) in
                    let leader := find_leader members in
                    let memberList := filter_members members in
                    ret (Full team leader memberList NoExtra))
                 0%nat teams in
         ret (Response 200 (Views result)))
      error_500.

(** [PUT /teams/:team_id/verify] *)
Definition put_teams_verify : handler :=
  λ req,
    try_catch
      (let! team := select Teams db_teams
                      (λ t, teams.team_id t =? params_id req) in
       if bool_decide (team = []) then
         ret (Response 404 (StatusMessage "error" "Tim tidak ditemukan"))
       else
         run! update_isVerified (params_id req) in
         ret (Response 200 (StatusMessage "success" "Tim Berhasil Diverifikasi")))
      (λ _, ret (Response 500
                   (StatusMessage "error" "Kesalahan saat memverifikasi tim"))).

(** [PUT /teams/:team_id/reject] *)
Definition put_teams_reject : handler :=
  λ req,
    try_catch
      (let rejectMessage :=
         match body req with
         | JsonReject m => Some m
         | _ => None
         end in
       let team_id := params_id req in
       let! message := replacement "rejectMessage" rejectMessage in
       run! update_isRejected team_id true message in
       ret (Response 200 (Message "Team rejection status updated successfully")))
      error_500.

(** ** multer storage of the routes *)

Section storage.
(** [path.extname] *)
Variable extname : string → string.

(** The [filename] callback of routes/cic.js, routes/sbc.js, routes/fcec.js
    and routes/craft.js. *)
Definition unique_filename (p : part) : string :=
  let uniqueSuffix := pretty (part_now p) +:+ "-" +:+ pretty (part_random p) in
  part_fieldname p +:+ "-" +:+ uniqueSuffix +:+ extname (part_originalname p).

(** The [filename] callback of the [/upload] endpoint of server.js. *)
Definition timestamp_filename (p : part) : string :=
  pretty (part_now p) +:+ "-" +:+ part_originalname p.

(** [/jpeg|jpg|png|pdf/.test(path.extname(file.originalname).toLowerCase())] *)
Definition extension_filter (p : part) : bool :=
  let e := toLowerCase (extname (part_originalname p)) in
  includes "jpeg" e || includes "jpg" e || includes "png" e || includes "pdf" e.

Definition mimetype_filter (p : part) : bool :=
  startsWith "image/" (part_mimetype p)
  || bool_decide (part_mimetype p = "application/pdf").

Definition cic_fields : list string :=
  [ "payment_proof"; "voucher";
    "leader_ktm"; "leader_active_student_letter"; "leader_photo";
    "member1_ktm"; "member1_active_student_letter"; "member1_photo";
    "member2_ktm"; "member2_active_student_letter"; "member2_photo";
    "member3_ktm"; "member3_active_student_letter"; "member3_photo" ].

Definition sbc_fields : list string :=
  [ "payment_proof"; "voucher";
    "leader_ktm"; "leader_active_student_letter"; "leader_photo";
    "member1_ktm"; "member1_active_student_letter"; "member1_photo";
    "member2_ktm"; "member2_active_student_letter"; "member2_photo";
    "dosbim_photo" ].

Definition fcec_fields : list string :=
  [ "abstract_file"; "originality_statement";
    "leader_ktm"; "leader_active_student_letter"; "leader_photo";
    "member1_ktm"; "member1_active_student_letter"; "member1_photo";
    "member2_ktm"; "member2_active_student_letter"; "member2_photo" ].

Definition craft_register_fields : list string :=
  [ "bukti_follow_cia"; "bukti_follow_pktsl"; "bukti_story"; "ktm";
    "payment_proof"; "bundle" ].

Definition craft_edit_fields : list string :=
  [ "bukti_follow_cia"; "bukti_follow_pktsl"; "bukti_story"; "ktm";
    "payment_proof" ].

Definition cic_upload : upload_config :=
  Upload "uploads/cic" unique_filename extension_filter (Some cic_fields).
Definition sbc_upload : upload_config :=
  Upload "uploads/sbc" unique_filename mimetype_filter (Some sbc_fields).
Definition fcec_upload : upload_config :=
  Upload "uploads/fcec" unique_filename extension_filter (Some fcec_fields).
Definition craft_register_upload : upload_config :=
  Upload "uploads/craft" unique_filename extension_filter
         (Some craft_register_fields).
Definition craft_edit_upload : upload_config :=
  Upload "uploads/craft" unique_filename extension_filter
         (Some craft_edit_fields).
Definition server_upload : upload_config :=
  Upload "uploads" timestamp_filename (λ _, true) None.
End storage.

(** [`member${memberIndex}_${suffix}`] *)
Definition member_field (memberIndex : nat) (suffix : string) : string :=
  "member" +:+ pretty memberIndex +:+ "_" +:+ suffix.

(** ** routes/cic.js *)

(** [GET /teams/cic] *)
Definition get_teams_cic : handler :=
  λ req,
    try_catch
      (let eventId := 4 in
       let! teams := select Teams db_teams (λ t, teams.event_id t =? eventId) in
       if bool_decide (teams = []) then
         ret (Response 404 (Message "No teams found for CIC"))
       else
         let! result :=
           map_m (λ _ team,
                    let! members := select_members_of (teams.team_id team) in
                    if bool_decide (members = []) then
                      ret (Bare (teams.team_name team)
                                (teams.institution_name team)
                                (teams.payment_proof team))
                    else
                      let leader := find_leader members in
                      let memberList := filter_members members in
                      ret (Full team leader memberList NoExtra))
                 0%nat teams in
         ret (Response 200 (Views result)))
      error_500.

(** [SELECT team_id FROM teams WHERE team_name = :team_name AND event_id = :event_id] *)
Definition select_team_named (team_name : string) (event_id : Z) : js (list Z) :=
  let! rows := select Teams db_teams
                 (λ t, bool_decide (teams.team_name t = team_name)
                       && (teams.event_id t =? event_id)) in
  ret (map teams.team_id rows).

(** [{ teamId: teamResult.team_id, ...member, ... }]: what [:teamId] is
    bound to in the member INSERTs of routes/cic.js. *)
Definition cic_teamId (teamResult : Z) (member : member_input.t) : Z :=
  default teamResult (member_input.teamId member).

(** The member loop of [POST /teams/cic/new]. *)
Definition cic_insert_member (req : request) (teamResult : Z)
                             (index : nat) (member : member_input.t) : js unit :=
  if bool_decide (index = 2%nat)
     && bool_decide (trim (member_input.full_name member) = "")
  then ret tt
  else
    let memberIndex := (index + 1)%nat in
    let! ktm := path_of (member_field memberIndex "ktm") req in
    let! active_student_letter :=
      path_of (member_field memberIndex "active_student_letter") req in
    let! photo := path_of (member_field memberIndex "photo") req in
    let! _ := insert_member
                (member_row_department (cic_teamId teamResult member) member
                                       ktm active_student_letter photo 0) in
    ret tt.

(** [POST /teams/cic/new] *)
Definition post_teams_cic_new : handler :=
  λ req,
    try_catch
      (let data := match body req with Multipart d => d | _ => DataMissing end in
       match data with
       | DataMissing =>
           ret (Response 400 (MessageError "Missing team data" "DATA_MISSING"))
       | DataInvalid message =>
           let! userId := req_user_id req in
           ret (Response 400 (MessageError "Invalid JSON data format" message))
       | Data parsedData =>
       let! userId := req_user_id req in
       match data.team parsedData, data.leader parsedData with
       | Some teamData, Some leaderData =>
           let membersData := data.members parsedData in
           let! existingTeam :=
             select_team_named (team_input.team_name teamData) 4 in
           if bool_decide (existingTeam ≠ []) then
             run! remove_uploads unlinkSync req in
             ret (Response 400
                    (MessageError "Team name already exists" "TEAM_NAME_EXISTS"))
           else
             let! payment_proof := path_of "payment_proof" req in
             let! voucher := path_of "voucher" req in
             let! user_id := replacement "user_id" userId in
             let! email := replacement "email" (team_input.email teamData) in
             let! _ := insert_team (team_input.team_name teamData)
                         (team_input.institution_name teamData)
                         payment_proof 4 (Some user_id) (Some email) voucher in
             let! teamResult := select_last_insert_id in
             let! ktm := path_of "leader_ktm" req in
             let! active_student_letter :=
               path_of "leader_active_student_letter" req in
             let! photo := path_of "leader_photo" req in
             let! _ := insert_member
                         (member_row_department
                            (cic_teamId teamResult leaderData) leaderData
                            ktm active_student_letter photo 1) in
             run! for_each (cic_insert_member req teamResult) 0%nat membersData in
             ret (Response 201 (Message "Team and members created successfully"))
       | _, _ =>
           ret (Response 400
                  (MessageError "Missing required team or leader data"
                                "REQUIRED_FIELDS_MISSING"))
       end end)
      error_500.

(** [DELETE /teams/cic/delete/:teamId] *)
Definition delete_teams_cic : handler :=
  λ req,
    let teamId := params_id req in
    try_catch
      (run! delete_members teamId in
       run! delete_teams teamId in
       ret (Response 200 (Message "Team and members have been deleted.")))
      (λ _, ret (Response 500 (Message "Internal Server Error"))).

(** ** routes/sbc.js *)

(** [event[0].event_name] *)
Definition first_event_name (event : list events.row) : js string :=
  match event with
  | e :: _ => ret (events.event_name e)
  | [] => throw "Cannot read properties of undefined (reading 'event_name')"
  end.

(** [GET /teams/sbc] *)
Definition get_teams_sbc : handler :=
  λ req,
    try_catch
      (let eventId := 3 in
       let! event := select Events db_events (λ e, events.event_id e =? eventId) in
       let! teams := select Teams db_teams (λ t, teams.event_id t =? eventId) in
       if bool_decide (teams = []) then
         ret (Response 404 (Message "No teams found for SBC"))
       else
         let! result :=
           map_m (λ _ team,
                    let! members := select_members_of (teams.team_id team) in
                    let! dosbim := select Dosbim db_dosbim
                                     (λ r, dosbim.team_id r =? teams.team_id team) in
                    let! sbc := select Sbc db_sbc
                                  (λ r, sbc.team_id r =? teams.team_id team) in
                    let leader := find_leader members in
                    let memberList := filter_members members in
                    let! event_name := first_event_name event in
                    ret (Full team leader memberList
                              (SbcExtra dosbim sbc event_name)))
                 0%nat teams in
         ret (Response 200 (Views result)))
      error_500.

(** [JSON.parse(req.body.data)] where the route does not test the field. *)
Definition parse_data (req : request) : js data.t :=
  match body req with
  | Multipart (Data d) => ret d
  | Multipart (DataInvalid message) => throw message
  | _ => throw "Unexpected token u in JSON at position 0"
  end.

(** A payload part the route reads without testing it. *)
Definition defined {A} (what : string) (v : option A) : js A :=
  match v with
  | Some a => ret a
  | None => throw ("Cannot read properties of undefined: " +:+ what)
  end.

(** The member loop of [POST /teams/sbc/new]. *)
Definition sbc_insert_member (req : request) (teamId : Z)
                             (index : nat) (member : member_input.t) : js Z :=
  let! ktm := path_of (member_field (index + 1) "ktm") req in
  let! active_student_letter :=
    path_of (member_field (index + 1) "active_student_letter") req in
  let! photo := path_of (member_field (index + 1) "photo") req in
  insert_member (member_row_nim teamId member ktm active_student_letter photo 0).

(** [POST /teams/sbc/new] *)
Definition post_teams_sbc_new : handler :=
  λ req,
    try_catch
      (let! d := parse_data req in
       let! userId := req_user_id req in
       let! payment_proof := path_of "payment_proof" req in
       let! voucher := path_of "voucher" req in
       let! team := defined "team" (data.team d) in
       let! user_id := replacement "user_id" userId in
       let! teamId := insert_team (team_input.team_name team)
                        (team_input.institution_name team)
                        payment_proof 3 (Some user_id) None voucher in
       let! ktm := path_of "leader_ktm" req in
       let! active_student_letter := path_of "leader_active_student_letter" req in
       let! photo := path_of "leader_photo" req in
       let! leader := replacement "full_name" (data.leader d) in
       let! createdLeader :=
         insert_member (member_row_nim teamId leader
                                       ktm active_student_letter photo 1) in
       let! createdmembers :=
         map_m (sbc_insert_member req teamId) 0%nat (data.members d) in
       let! dosbimPhoto := path_of "dosbim_photo" req in
       let! dosbim0 := replacement "full_name" (head (data.dosbim d)) in
       let! createdDosbim :=
         insert_dosbim (λ id, dosbim.Row id teamId
                                (dosbim_input.full_name dosbim0)
                                (dosbim_input.nip dosbim0)
                                (dosbim_input.email dosbim0)
                                (dosbim_input.phone_number dosbim0)
                                dosbimPhoto) in
       let! sbc0 := replacement "bridge_name" (head (data.sbc d)) in
       let! createdSbc :=
         insert_sbc (λ id, sbc.Row id teamId (sbc_input.bridge_name sbc0)) in
       ret (Response 201
              (SbcCreated "Team created successfully" teamId createdLeader
                          createdmembers createdDosbim createdSbc)))
      (λ e,
         run! remove_uploads unlink req in
         error_500 e).

(** [DELETE /teams/sbc/delete/:teamId] *)
Definition delete_teams_sbc : handler :=
  λ req,
    try_catch
      (let teamId := params_id req in
       run! delete_dosbim teamId in
       run! delete_sbc teamId in
       run! delete_members teamId in
       run! delete_teams teamId in
       ret (Response 200 (Message "All related data has been deleted.")))
      error_500.

(** ** routes/fcec.js *)

(** [GET /teams/fcec] *)
Definition get_teams_fcec : handler :=
  λ req,
    try_catch
      (let eventId := 1 in
       let! teams := select Teams db_teams (λ t, teams.event_id t =? eventId) in
       if bool_decide (teams = []) then
         ret (Response 404 (Message "No teams found for FCEC"))
       else
         let! result :=
           map_m (λ _ team,
                    let! members := select_members_of (teams.team_id team) in
                    let! fcec := select Fcec db_fcec
                                   (λ r, fcec.team_id r =? teams.team_id team) in
                    let leader := find_leader members in
                    let memberList := filter_members members in
                    ret (Full team leader memberList (FcecExtra fcec)))
                 0%nat teams in
         ret (Response 200 (Views result)))
      error_500.

(** The member loop of [POST /teams/fcec/new]. *)
Definition fcec_insert_member (req : request) (teamId : Z)
                              (index : nat) (member : member_input.t) : js unit :=
  let memberIndex := (index + 1)%nat in
  let! ktm := path_of (member_field memberIndex "ktm") req in
  let! active_student_letter :=
    path_of (member_field memberIndex "active_student_letter") req in
  let! photo := path_of (member_field memberIndex "photo") req in
  let! _ := insert_member
              (member_row_department teamId member
                                     ktm active_student_letter photo 0) in
  ret tt.

(** [POST /teams/fcec/new] *)
Definition post_teams_fcec_new : handler :=
  λ req,
    try_catch
      (let! d := parse_data req in
       let! team := defined "team" (data.team d) in
       let! existingTeam := select_team_named (team_input.team_name team) 1 in
       if bool_decide (existingTeam ≠ []) then
         run! remove_uploads unlinkSync req in
         ret (Response 400
                (MessageError "Team name already exists" "TEAM_NAME_EXISTS"))
       else
         let! abstractFile := path_of "abstract_file" req in
         let! originalityStatement := path_of "originality_statement" req in
         let! payment_proof := replacement "payment_proof"
                                 (team_input.payment_proof team) in
         let! user_id := replacement "user_id" (team_input.user_id team) in
         let! email := replacement "email" (team_input.email team) in
         let! teamId := insert_team (team_input.team_name team)
                          (team_input.institution_name team)
                          (Some payment_proof) 1 (Some user_id) (Some email)
                          None in
         let! ktm := path_of "leader_ktm" req in
         let! active_student_letter :=
           path_of "leader_active_student_letter" req in
         let! photo := path_of "leader_photo" req in
         let! leader := replacement "full_name" (data.leader d) in
         let! _ := insert_member
                     (member_row_department teamId leader
                        ktm active_student_letter photo 1) in
         run! for_each (fcec_insert_member req teamId) 0%nat (data.members d) in
         let fcec := data.fcec d in
         let! _ := insert_fcec
                     (λ id, fcec.Row id teamId originalityStatement
                              (fcec_input.abstract_title fcec) abstractFile
                              (fcec_input.abstract_video_link fcec)) in
         ret (Response 201 (Message "Team created successfully")))
      (λ e,
         run! remove_uploads unlinkSync req in
         error_500 e).

(** [DELETE /teams/fcec/delete/:teamId] *)
Definition delete_teams_fcec : handler :=
  λ req,
    let teamId := params_id req in
    try_catch
      (run! delete_fcec teamId in
       run! delete_members teamId in
       run! delete_teams teamId in
       ret (Response 200 (Message "Team and related data have been deleted.")))
      error_500.

(** ** The routers and server.js: which middleware each route runs *)

Inductive route :=
  (* routes/teams.js *)
  | GET_teams | PUT_teams_verify | PUT_teams_update | PUT_teams_reject
  (* routes/cic.js *)
  | GET_teams_cic | GET_teams_cic_id | POST_teams_cic_new
  | PUT_teams_cic_update | DELETE_teams_cic_delete
  (* routes/sbc.js *)
  | GET_teams_sbc | GET_teams_sbc_id | POST_teams_sbc_new
  | DELETE_teams_sbc_delete | GET_sbc_participant
  (* routes/fcec.js *)
  | GET_teams_fcec | GET_teams_fcec_id | POST_teams_fcec_new
  | DELETE_teams_fcec_delete | GET_fcec_participant
  (* routes/craft.js *)
  | GET_crafts | GET_crafts_participant | GET_crafts_user
  | POST_crafts_register | PUT_crafts_verify | PUT_crafts_reject
  | PUT_crafts_edit | DELETE_crafts_delete
  (* routes/users.js *)
  | GET_user | GET_user_id | POST_user_register | POST_user_login
  | GET_user_events
  (* server.js *)
  | POST_upload.

Inductive component :=
  | RegistrationWorkflow
  | ParticipantQueryService
  | UserCollaborator
  | FileIntake.

Definition component_of (r : route) : component :=
  match r with
  | GET_sbc_participant | GET_fcec_participant => ParticipantQueryService
  | GET_user | GET_user_id | POST_user_register | POST_user_login
  | GET_user_events => UserCollaborator
  | POST_upload => FileIntake
  | _ => RegistrationWorkflow
  end.

Section router.
Variable jwt_verify : string → string → Z → jwt.error + jwt.claims.
Variable env_JWT_SECRET : option string.
Variable extname : string → string.

Let auth : middleware := authenticateToken jwt_verify env_JWT_SECRET.

(** The middleware between the path and the handler, as each
    [router.<method>(path, ...)] call lists it. *)
Definition chain (r : route) : list middleware :=
  match r with
  | PUT_teams_verify => []
  | POST_user_register | POST_user_login => []
  | POST_teams_cic_new => [auth; upload (cic_upload extname)]
  | POST_teams_sbc_new => [auth; upload (sbc_upload extname)]
  | POST_teams_fcec_new => [auth; upload (fcec_upload extname)]
  | POST_crafts_register => [auth; upload (craft_register_upload extname)]
  | PUT_crafts_edit => [auth; upload (craft_edit_upload extname)]
  | POST_upload => [auth; upload server_upload]
  | _ => [auth]
  end.
End router.

(** The tracks whose registrations are a team with members. *)
Inductive track := CIC | SBC | FCEC.

Definition event_of (t : track) : Z :=
  match t with CIC => 4 | SBC => 3 | FCEC => 1 end.

Definition list_of (t : track) : handler :=
  match t with
  | CIC => get_teams_cic
  | SBC => get_teams_sbc
  | FCEC => get_teams_fcec
  end.

Definition create_of (t : track) : handler :=
  match t with
  | CIC => post_teams_cic_new
  | SBC => post_teams_sbc_new
  | FCEC => post_teams_fcec_new
  end.

Definition delete_of (t : track) : handler :=
  match t with
  | CIC => delete_teams_cic
  | SBC => delete_teams_sbc
  | FCEC => delete_teams_fcec
  end.

(** The tables that hold a track's own record of a team. *)
Definition track_tables (t : track) : list table :=
  match t with
  | CIC => []
  | SBC => [Dosbim; Sbc]
  | FCEC => [Fcec]
  end.

(** [SELECT * FROM <table> WHERE team_id = :teamId], as a count of rows. *)
Definition rows_of_team (t : table) (teamId : Z) (d : database) : nat :=
  match t with
  | Teams => length (List.filter (λ r, teams.team_id r =? teamId) (db_teams d))
  | Members => length (List.filter (λ r, members.team_id r =? teamId) (db_members d))
  | Dosbim => length (List.filter (λ r, dosbim.team_id r =? teamId) (db_dosbim d))
  | Sbc => length (List.filter (λ r, sbc.team_id r =? teamId) (db_sbc d))
  | Fcec => length (List.filter (λ r, fcec.team_id r =? teamId) (db_fcec d))
  | Events | Users => 0%nat
  end.

(** ** The contract of the token library, and two instances of it *)

(** A compact token: not empty, and no blank in it. *)
Fixpoint no_space (s : string) : bool :=
  match s with
  | EmptyString => true
  | String c rest => negb (bool_decide (c = " "%char)) && no_space rest
  end.

Definition compact (t : string) : Prop := t ≠ "" ∧ no_space t = true.

(** What the routes rely on from [jsonwebtoken]: a signed token is compact,
    and verifying it against another secret throws [JsonWebTokenError]
    (invalid signature) whatever the time is. *)
Record jsonwebtoken
    (jwt_sign : jwt.claims → string → Z → Z → string)
    (jwt_verify : string → string → Z → jwt.error + jwt.claims) : Prop := {
  sign_compact : ∀ c k lifetime now, compact (jwt_sign c k lifetime now);
  verify_other_secret :
    ∀ c k k' lifetime now now',
      k ≠ k' →
      jwt_verify (jwt_sign c k lifetime now) k' now' = inl jwt.JsonWebTokenError }.

Module symbolic.
(** Tokens that name the key they were signed with: each character of the
    key becomes two, so that no blank is left. *)
Fixpoint enc (k : string) : string :=
  match k with
  | EmptyString => EmptyString
  | String c rest =>
      if bool_decide (c = " "%char) then String "s" (String "_" (enc rest))
      else String "c" (String c (enc rest))
  end.

Fixpoint dec (t : string) : string :=
  match t with
  | String a (String b rest) =>
      String (if bool_decide (a = "s"%char) then " "%char else b) (dec rest)
  | _ => EmptyString
  end.

Definition sign (c : jwt.claims) (k : string) (lifetime now : Z) : string :=
  String "J" (enc k).

Definition verify (t k : string) (now : Z) : jwt.error + jwt.claims :=
  match t with
  | String "J" body =>
      if bool_decide (dec body = k) then inr (jwt.Claims None (Some 1))
      else inl jwt.JsonWebTokenError
  | _ => inl jwt.JsonWebTokenError
  end.

(** A verifier that knows three tokens by name. *)
Definition named (t k : string) (now : Z) : jwt.error + jwt.claims :=
  if bool_decide (t = "expired") then inl jwt.TokenExpiredError
  else if bool_decide (t = "valid") then inr (jwt.Claims None (Some 1))
  else inl jwt.JsonWebTokenError.
End symbolic.

(** ** Worlds and requests used as examples *)

Module example.
Definition empty_db : database :=
  Database [] [] [] [] [] [] [] 1 1 1 1 1 0.

Definition team_row (id : Z) (name : string) (event : Z) : teams.row :=
  teams.Row id name "X University" None event (Some 1) None None
            false false None.

(** One team, "Alpha", registered in each of the events 4 (CIC) and 3 (SBC). *)
Definition alpha_db : database :=
  Database [team_row 1 "Alpha" 4; team_row 2 "Alpha" 3] [] [] [] []
           [events.Row 3 "SBC"] [users.Row 7 "ani" "ani@example.org" "hash"]
           3 1 1 1 1 2.

Definition world_of (d : database) : world := World d [] ∅ 1700000000000.

Definition get (authorization : option string) (id : Z) (b : req_body) : request :=
  Request authorization id b [] [] None.

Definition member (name : string) : member_input.t :=
  member_input.T name "Civil Engineering" "2023" "0800" "line" "m@example.org"
                 "link" "23/1" None.

Definition registration (team_name : string) (members : list member_input.t)
  : data.t :=
  data.T (Some (team_input.T team_name "X University" (Some "t@example.org")
                             (Some "uploads/fcec/p.png") (Some 1)))
         (Some (member "Leader")) members
         [dosbim_input.T "Advisor" "197" "a@example.org" "0811"]
         [sbc_input.T "Bridge"]
         (fcec_input.T "Abstract" "video").

(** A create request as the handler sees it, after the verifier and multer. *)
Definition create (team_name : string) (members : list member_input.t)
                  (fs : list (string * list file)) : request :=
  Request (Some "Bearer valid") 0 (Multipart (Data (registration team_name members)))
          [] fs (Some (jwt.Claims None (Some 1))).
End example.

(** ** What the properties observe *)

(** The verification state of the team(s) with an id: verified flag,
    rejected flag, rejection message. *)
Definition verification_state (team_id : Z) (d : database)
  : list (bool * bool * option string) :=
  map (λ t, (teams.isVerified t, teams.isRejected t, teams.rejectMessage t))
      (List.filter (λ t, teams.team_id t =? team_id) (db_teams d)).

(** The rows of the other teams. *)
Definition other_teams (team_id : Z) (d : database) : list teams.row :=
  List.filter (λ t, negb (teams.team_id t =? team_id)) (db_teams d).

(** The member rows of a team, in insertion order. *)
Definition members_of (team_id : Z) (d : database) : list members.row :=
  List.filter (member_of_team team_id) (db_members d).

(** No member row refers to a team id the store has not handed out yet. *)
Definition consistent (d : database) : Prop :=
  Forall (λ m, members.team_id m < next_team_id d) (db_members d).

(** The test of the CIC member loop: the member at index 2 is skipped when
    its name is blank. *)
Definition cic_skips (index : nat) (member : member_input.t) : bool :=
  bool_decide (index = 2%nat)
  && bool_decide (trim (member_input.full_name member) = "").

(** The members of a payload that get a row, from a start index. *)
Fixpoint kept_from (skips : nat → member_input.t → bool) (index : nat)
                   (members : list member_input.t) : list member_input.t :=
  match members with
  | [] => []
  | m :: members' =>
      if skips index m then kept_from skips (S index) members'
      else m :: kept_from skips (S index) members'
  end.

Definition skips_of (t : track) : nat → member_input.t → bool :=
  match t with
  | CIC => cic_skips
  | SBC | FCEC => λ _ _, false
  end.

Definition kept (t : track) (members : list member_input.t)
  : list member_input.t :=
  kept_from (skips_of t) 0 members.

(** What identifies a member row in the properties: team, name, leader flag. *)
Definition key (m : members.row) : Z * string * Z :=
  (members.team_id m, members.full_name m, members.is_leader m).

(** The team a track's create stores the row of a member object under: the
    new team, except that on the CIC route a [teamId] key of the object
    takes its place. *)
Definition bound_team (t : track) (teamId : Z) (m : member_input.t) : Z :=
  match t with
  | CIC => cic_teamId teamId m
  | SBC | FCEC => teamId
  end.

(** The team names an event has. *)
Definition names_of_event (event_id : Z) (d : database) : list string :=
  map teams.team_name
      (List.filter (λ r, teams.event_id r =? event_id) (db_teams d)).

(** The requests a track's create carries through to its 201: the payload
    has a team and a leader, [req.files] is as multer leaves it (no field
    with an empty array), and what the track's statements bind without a
    test of the route is there: the [user_id] claim of the token (CIC,
    SBC), the team's e-mail (CIC, FCEC), payment proof and user id (FCEC),
    a first advisor and a first bridge (SBC); on the routes that look for
    it (CIC, FCEC), the event has no team of the name yet. *)
Definition complete (t : track) (req : request) (w : world) (d : data.t)
    (teamData : team_input.t) (leaderData : member_input.t) : Prop :=
  body req = Multipart (Data d)
  ∧ data.team d = Some teamData
  ∧ data.leader d = Some leaderData
  ∧ Forall (λ e, e.2 ≠ []) (files req)
  ∧ match t with
    | CIC =>
        (∃ c, user req = Some c ∧ is_Some (jwt.user_id c))
        ∧ is_Some (team_input.email teamData)
        ∧ team_input.team_name teamData ∉ names_of_event 4 (db w)
    | SBC =>
        (∃ c, user req = Some c ∧ is_Some (jwt.user_id c))
        ∧ data.dosbim d ≠ []
        ∧ data.sbc d ≠ []
    | FCEC =>
        is_Some (team_input.payment_proof teamData)
        ∧ is_Some (team_input.user_id teamData)
        ∧ is_Some (team_input.email teamData)
        ∧ team_input.team_name teamData ∉ names_of_event 1 (db w)
    end.

(** The stored name the track routes generate. *)
Definition generated_name (extname : string → string) (p : part) : string :=
  part_fieldname p +:+ "-" +:+ pretty (part_now p) +:+ "-"
  +:+ pretty (part_random p) +:+ extname (part_originalname p).

(** The multer configurations of the track routes, and all of them. *)
Definition track_uploads (extname : string → string) : list upload_config :=
  [ cic_upload extname; sbc_upload extname; fcec_upload extname;
    craft_register_upload extname; craft_edit_upload extname ].

Definition all_uploads (extname : string → string) : list upload_config :=
  track_uploads extname ++ [server_upload].

(** What a step of a create adds: member rows with the given keys, and
    nothing else the lists read. *)
Definition grows (ks : list (Z * string * Z)) (w w' : world) : Prop :=
  db_teams (db w') = db_teams (db w)
  ∧ db_events (db w') = db_events (db w)
  ∧ disk w' = disk w
  ∧ ∃ rows, db_members (db w') = db_members (db w) ++ rows ∧ map key rows = ks.

(** What a successful create leaves: the payload it read, one more team row
    with the next id in the track's event, and behind the member rows that
    were there a leader row followed by the kept members' rows, each under
    the team its object is bound to. *)
Definition created (t : track) (req : request) (w w' : world) : Prop :=
  ∃ d teamData leaderData team_row,
    body req = Multipart (Data d)
    ∧ data.team d = Some teamData
    ∧ data.leader d = Some leaderData
    ∧ db_teams (db w') = db_teams (db w) ++ [team_row]
    ∧ teams.team_id team_row = next_team_id (db w)
    ∧ teams.team_name team_row = team_input.team_name teamData
    ∧ teams.event_id team_row = event_of t
    ∧ db_events (db w') = db_events (db w)
    ∧ disk w' = disk w
    ∧ ∃ rows,
        db_members (db w') = db_members (db w) ++ rows
        ∧ map key rows
          = (bound_team t (next_team_id (db w)) leaderData,
             member_input.full_name leaderData, 1)
            :: map (λ m, (bound_team t (next_team_id (db w)) m,
                          member_input.full_name m, 0))
                   (kept t (data.members d)).

(** What a track's list shows of a team, as a function of the store. *)
Definition extra_of (t : track) (d : database) (team : teams.row) : extra :=
  match t with
  | CIC => NoExtra
  | SBC =>
      SbcExtra
        (List.filter (λ r, dosbim.team_id r =? teams.team_id team) (db_dosbim d))
        (List.filter (λ r, sbc.team_id r =? teams.team_id team) (db_sbc d))
        (default "" (events.event_name
                       <$> head (List.filter (λ e, events.event_id e =? 3)
                                             (db_events d))))
  | FCEC =>
      FcecExtra
        (List.filter (λ r, fcec.team_id r =? teams.team_id team) (db_fcec d))
  end.

Definition view_of (t : track) (d : database) (team : teams.row) : view :=
  let members := order_by_is_leader_desc (members_of (teams.team_id team) d) in
  match t with
  | CIC =>
      if bool_decide (members = []) then
        Bare (teams.team_name team) (teams.institution_name team)
             (teams.payment_proof team)
      else Full team (find_leader members) (filter_members members) NoExtra
  | _ => Full team (find_leader members) (filter_members members)
              (extra_of t d team)
  end.

(** The same for [GET /teams]. *)
Definition team_view (d : database) (team : teams.row) : view :=
  let members := order_by_is_leader_desc (members_of (teams.team_id team) d) in
  Full team (find_leader members) (filter_members members) NoExtra.

(** * The other routes *)

(** ** Answers with a payload of the route's own *)

(** The routes below answer with one of the payloads above (left) or with
    a payload of their own (right). *)
Record reply (J : Type) := Reply {
  reply_status : Z;
  reply_payload : json + J }.
Arguments Reply {J} _ _.
Arguments reply_status {J} _.
Arguments reply_payload {J} _.

(** [res.status(500).json({ message: 'An error occurred', error: error.message })] *)
Definition reply_500 {J} (e : string) : js (reply J) :=
  ret (Reply 500 (inl (MessageError "An error occurred" e))).

(** What a request reaches: a middleware that answered, or the handler. *)
Inductive reached (R : Type) :=
  | Stopped (r : response)
  | Handled (o : outcome R).
Arguments Stopped {R} r.
Arguments Handled {R} o.

Fixpoint pipeline {R} (chain : list middleware) (h : request → js R)
                  (req : request) (w : world) : reached R * world :=
  match chain with
  | [] => let (o, w') := h req w in (Handled o, w')
  | m :: chain' =>
      match m req w with
      | (Send r, w') => (Stopped r, w')
      | (Next req', w') => pipeline chain' h req' w'
      end
  end.

(** ** Get by id: routes/cic.js, routes/sbc.js, routes/fcec.js *)

Inductive detail_extra :=
  | NoDetail
  | SbcDetail (dosbim : list dosbim.row) (sbc : list sbc.row)
  | FcecDetail (fcec : list fcec.row).

(** [{ team, leader, members, ... }]: [team] is the array the SELECT
    returned. *)
Record detail := Detail {
  detail_team : list teams.row;
  detail_leader : option members.row;
  detail_members : list members.row;
  detail_more : detail_extra }.

(** [SELECT * FROM teams WHERE team_id = :teamId AND event_id = :eventId] *)
Definition select_team_of_event (teamId eventId : Z) : js (list teams.row) :=
  select Teams db_teams
         (λ t, (teams.team_id t =? teamId) && (teams.event_id t =? eventId)).

(** [GET /teams/cic/:teamId] *)
Definition get_teams_cic_id : request → js (reply detail) :=
  λ req,
    try_catch
      (let teamId := params_id req in
       let eventId := 4 in
       let! team := select_team_of_event teamId eventId in
       if bool_decide (team = []) then
         ret (Reply 404 (inl (Message "No team found for this id and event")))
       else
         let! members := select_members_of teamId in
         if bool_decide (members = []) then
           ret (Reply 404 (inl (Message "No members found for this team")))
         else
           let leader := find_leader members in
           let memberList := filter_members members in
           ret (Reply 200 (inr (Detail team leader memberList NoDetail))))
      reply_500.

(** [GET /teams/sbc/:teamId] *)
Definition get_teams_sbc_id : request → js (reply detail) :=
  λ req,
    try_catch
      (let teamId := params_id req in
       let eventId := 3 in
       let! team := select_team_of_event teamId eventId in
       if bool_decide (team = []) then
         ret (Reply 404 (inl (Message "No team found for this id and event")))
       else
         let! members := select_members_of teamId in
         let! dosbim := select Dosbim db_dosbim (λ r, dosbim.team_id r =? teamId) in
         let! sbc := select Sbc db_sbc (λ r, sbc.team_id r =? teamId) in
         let leader := find_leader members in
         let memberList := filter_members members in
         ret (Reply 200 (inr (Detail team leader memberList
                                     (SbcDetail dosbim sbc)))))
      reply_500.

(** [GET /teams/fcec/:teamId] *)
Definition get_teams_fcec_id : request → js (reply detail) :=
  λ req,
    try_catch
      (let teamId := params_id req in
       let eventId := 1 in
       let! team := select_team_of_event teamId eventId in
       if bool_decide (team = []) then
         ret (Reply 404 (inl (Message "No team found for this id and event")))
       else
         let! members := select_members_of teamId in
         let! fcec := select Fcec db_fcec (λ r, fcec.team_id r =? teamId) in
         let leader := find_leader members in
         let memberList := filter_members members in
         ret (Reply 200 (inr (Detail team leader memberList (FcecDetail fcec)))))
      reply_500.

Definition by_id_of (t : track) : request → js (reply detail) :=
  match t with
  | CIC => get_teams_cic_id
  | SBC => get_teams_sbc_id
  | FCEC => get_teams_fcec_id
  end.

(** ** Update: routes/teams.js and routes/cic.js *)

(** The objects of [req.body] of the update routes, as records of the
    fields the statements bind: a nullable column takes [null] ([None]) or
    a value. *)
Module team_update.
Record t := T {
  team_id : Z;
  team_name : string;
  institution_name : string;
  payment_proof : option string;
  user_id : option Z;
  email : option string }.
End team_update.

Module member_update.
Record t := T {
  member_id : Z;
  full_name : string;
  department : option string;
  batch : string;
  phone_number : string;
  line_id : string;
  email : string;
  ktm : option string;
  active_student_letter : option string;
  photo : option string;
  twibbon_and_poster_link : string }.
End member_update.

(** [const { team, leader, members } = req.body]: each may be missing. *)
Module update_body.
Record t := T {
  team : option team_update.t;
  leader : option member_update.t;
  members : option (list member_update.t) }.
End update_body.

(** [UPDATE teams SET team_name = :team_name, institution_name =
    :institution_name, payment_proof = :payment_proof, user_id = :user_id,
    email = :email WHERE team_id = :team_id] *)
Definition set_team_fields (u : team_update.t) (t : teams.row) : teams.row :=
  teams.Row (teams.team_id t) (team_update.team_name u)
            (team_update.institution_name u) (team_update.payment_proof u)
            (teams.event_id t) (team_update.user_id u) (team_update.email u)
            (teams.voucher t)
            (teams.isVerified t) (teams.isRejected t) (teams.rejectMessage t).

Definition update_teams (u : team_update.t) : js unit :=
  execute (UPDATE Teams)
    (λ d, set_teams
            (map (λ t, if teams.team_id t =? team_update.team_id u
                       then set_team_fields u t else t)
                 (db_teams d)) d).

(** [UPDATE members SET full_name = :full_name, department = :department,
    batch = :batch, phone_number = :phone_number, line_id = :line_id,
    email = :email, ktm = :ktm, active_student_letter =
    :active_student_letter, photo = :photo, twibbon_and_poster_link =
    :twibbon_and_poster_link WHERE member_id = :member_id] *)
Definition set_member_fields (u : member_update.t) (m : members.row)
  : members.row :=
  members.Row (members.member_id m) (members.team_id m)
              (member_update.full_name u) (member_update.department u)
              (member_update.batch u) (member_update.phone_number u)
              (member_update.line_id u) (member_update.email u)
              (member_update.ktm u) (member_update.active_student_letter u)
              (member_update.photo u)
              (member_update.twibbon_and_poster_link u)
              (members.is_leader m) (members.nim m).

Definition update_members (u : member_update.t) : js unit :=
  execute (UPDATE Members)
    (λ d, set_members
            (map (λ m, if members.member_id m =? member_update.member_id u
                       then set_member_fields u m else m)
                 (db_members d)) d).

(** [PUT /teams/update], given [req.body] as [bodyParser.json] left it. *)
Definition put_teams_update (body : update_body.t) : handler :=
  λ req,
    try_catch
      (let! team := defined "team_name" (update_body.team body) in
       run! update_teams team in
       let! leader := defined "member_id" (update_body.leader body) in
       run! update_members leader in
       let! members := defined "map" (update_body.members body) in
       run! for_each (λ _ member, update_members member) 0%nat members in
       ret (Response 200 (Message "Team and members updated successfully")))
      error_500.

(** [PUT /teams/cic/update] *)
Definition put_teams_cic_update (body : update_body.t) : handler :=
  λ req,
    try_catch
      (let! team := defined "team_name" (update_body.team body) in
       run! update_teams team in
       let! leader := defined "member_id" (update_body.leader body) in
       run! update_members leader in
       let! members := defined "map" (update_body.members body) in
       run! for_each (λ _ member, update_members member) 0%nat members in
       ret (Response 200 (Message "Team and members updated successfully")))
      error_500.

(** ** The rows of the joins, and the objects made from them *)

#[local] Set Warnings "-register-all".

(** A value of a result row or of a JSON answer. A [TINYINT(1)] column is
    kept as the flag it stands for. *)
Inductive value :=
  | Null
  | Num (n : Z)
  | Str (s : string)
  | Flag (b : bool)
  | Obj (fields : list (string * value)).

(** A JavaScript object: its properties in insertion order, each key once. *)
Definition object : Type := list (string * value).

Definition nullable {A} (f : A → value) (v : option A) : value :=
  match v with
  | Some a => f a
  | None => Null
  end.

(** [o[k] = v] *)
Fixpoint assign (k : string) (v : value) (o : object) : object :=
  match o with
  | [] => [(k, v)]
  | (k', v') :: o' =>
      if bool_decide (k' = k) then (k, v) :: o' else (k', v') :: assign k v o'
  end.

(** The object the driver makes of a result row: one property per column
    name, a later column of the same name replacing the value. *)
Definition object_of_row (row : list (string * value)) : object :=
  foldl (λ o column, assign column.1 column.2 o) [] row.

(** [const { k1, ..., ...rest } = o]: the rest. *)
Definition omit (ks : list string) (o : object) : object :=
  List.filter (λ p, negb (bool_decide (p.1 ∈ ks))) o.

(** [{ ...o, k1: v1, ... }] where the values may be [undefined]: a
    property that is [undefined] does not reach the JSON text. *)
Definition extend (o : object) (ps : list (string * option value)) : object :=
  foldl (λ o p, match p.2 with
                | Some v => assign p.1 v o
                | None => o
                end) o ps.

(** [{ k1: v1, ... }] *)
Definition literal (ps : list (string * option value)) : object :=
  extend [] ps.

(** The columns of a row, under their names. The table definitions are
    not among the sources: the columns are those the statements of the
    routes name, in the order of the INSERT statements, and for the members
    table [semester] last, which only the participant query of
    routes/fcec.js names and no INSERT of the routes fills (its value is a
    parameter). The position of a column in its table is not known; the
    properties read the objects made of these rows by key. *)
Section members_table.
Variable semester : members.row → value.

Definition members_columns (m : members.row) : list (string * value) :=
  [ ("member_id", Num (members.member_id m));
    ("team_id", Num (members.team_id m));
    ("full_name", Str (members.full_name m));
    ("department", nullable Str (members.department m));
    ("batch", Str (members.batch m));
    ("phone_number", Str (members.phone_number m));
    ("line_id", Str (members.line_id m));
    ("email", Str (members.email m));
    ("ktm", nullable Str (members.ktm m));
    ("active_student_letter", nullable Str (members.active_student_letter m));
    ("photo", nullable Str (members.photo m));
    ("twibbon_and_poster_link", Str (members.twibbon_and_poster_link m));
    ("is_leader", Num (members.is_leader m));
    ("nim", nullable Str (members.nim m));
    ("semester", semester m) ].
End members_table.

Definition teams_columns (t : teams.row) : list (string * value) :=
  [ ("team_id", Num (teams.team_id t));
    ("team_name", Str (teams.team_name t));
    ("institution_name", Str (teams.institution_name t));
    ("payment_proof", nullable Str (teams.payment_proof t));
    ("event_id", Num (teams.event_id t));
    ("user_id", nullable Num (teams.user_id t));
    ("email", nullable Str (teams.email t));
    ("voucher", nullable Str (teams.voucher t));
    ("isVerified", Flag (teams.isVerified t));
    ("isRejected", Flag (teams.isRejected t));
    ("rejectMessage", nullable Str (teams.rejectMessage t)) ].

(** What the participant and the user routes answer on success:
    [{ status, <key>: rows }]. *)
Record listing := Listing {
  listing_status : string;
  listing_key : string;
  listing_rows : list object }.

(** ** routes/sbc.js: the participants *)

Section sbc_participant.
(** The [semester] column of a member row, which [members.*] returns with
    the others. *)
Variable semester : members.row → value.

(** The join of [GET /sbc-participant]: members, their team, its bridge
    rows and its advisor rows, for the teams of event 3. *)
Definition sbc_join (d : database)
  : list (members.row * teams.row * sbc.row * dosbim.row) :=
  m ← db_members d;
  t ← List.filter (λ t, members.team_id m =? teams.team_id t) (db_teams d);
  s ← List.filter (λ s, teams.team_id t =? sbc.team_id s) (db_sbc d);
  a ← List.filter (λ a, teams.team_id t =? dosbim.team_id a) (db_dosbim d);
  if teams.event_id t =? 3 then [(m, t, s, a)] else [].

(** [SELECT members.*, teams.*, sbc.bridge_name, dosbim.advisor_id AS
    dosbim_advisor_id, ...]: the columns of a row of the join, in the
    order the statement lists them. *)
Definition sbc_participant_row
    (q : members.row * teams.row * sbc.row * dosbim.row)
  : list (string * value) :=
  let '(m, t, s, a) := q in
  members_columns semester m ++ teams_columns t
  ++ [ ("bridge_name", Str (sbc.bridge_name s));
       ("dosbim_advisor_id", Num (dosbim.advisor_id a));
       ("dosbim_team_id", Num (dosbim.team_id a));
       ("dosbim_full_name", Str (dosbim.full_name a));
       ("dosbim_nip", Str (dosbim.nip a));
       ("dosbim_email", Str (dosbim.email a));
       ("dosbim_phone_number", Str (dosbim.phone_number a));
       ("dosbim_photo", nullable Str (dosbim.photo a)) ].

(** The callback of [participants.map] in [GET /sbc-participant]. *)
Definition sbc_modified (participant : object) : object :=
  let pick k := entry k participant in
  let otherData :=
    omit [ "dosbim_advisor_id"; "dosbim_team_id"; "dosbim_full_name";
           "dosbim_nip"; "dosbim_email"; "dosbim_phone_number";
           "dosbim_photo"; "ktm"; "active_student_letter"; "photo";
           "payment_proof"; "voucher" ] participant in
  extend otherData
    [ ("dosbim",
       Some (Obj (literal [ ("advisor_id", pick "dosbim_advisor_id");
                            ("team_id", pick "dosbim_team_id");
                            ("full_name", pick "dosbim_full_name");
                            ("nip", pick "dosbim_nip");
                            ("email", pick "dosbim_email");
                            ("phone_number", pick "dosbim_phone_number");
                            ("photo", pick "dosbim_photo") ])));
      ("download",
       Some (Obj (literal [ ("ktm", pick "ktm");
                            ("active_student_letter",
                             pick "active_student_letter");
                            ("photo", pick "photo");
                            ("payment_proof", pick "payment_proof");
                            ("voucher", pick "voucher") ]))) ].

(** [GET /sbc-participant] *)
Definition get_sbc_participant : request → js (reply listing) :=
  λ req,
    try_catch
      (let! joined := select Members sbc_join (λ _, true) in
       let participants := map (object_of_row ∘ sbc_participant_row) joined in
       if bool_decide (participants = []) then
         ret (Reply 404 (inl (StatusMessage "error" "No participants found")))
       else
         let modifiedParticipants := map sbc_modified participants in
         ret (Reply 200 (inr (Listing "success" "participants"
                                      modifiedParticipants))))
      (λ _, ret (Reply 500
                   (inl (StatusMessage "error"
                           "An error occurred while retrieving the participants")))).
End sbc_participant.

(** ** routes/fcec.js: the participants *)

Section fcec_participant.
(** The [semester] column of a member row, which the statement below
    selects and no INSERT of the routes names. *)
Variable semester : members.row → value.

(** The join of [GET /fcec-participant]: the teams of event 1, their
    members and their abstract rows. *)
Definition fcec_join (d : database)
  : list (teams.row * members.row * fcec.row) :=
  t ← db_teams d;
  m ← List.filter (λ m, teams.team_id t =? members.team_id m) (db_members d);
  f ← List.filter (λ f, teams.team_id t =? fcec.team_id f) (db_fcec d);
  if teams.event_id t =? 1 then [(t, m, f)] else [].

(** The columns the statement selects, in its order. *)
Definition fcec_participant_row (q : teams.row * members.row * fcec.row)
  : list (string * value) :=
  let '(t, m, f) := q in
  [ ("full_name", Str (members.full_name m));
    ("team_name", Str (teams.team_name t));
    ("abstract_title", Str (fcec.abstract_title f));
    ("institution_name", Str (teams.institution_name t));
    ("department", nullable Str (members.department m));
    ("batch", Str (members.batch m));
    ("nim", nullable Str (members.nim m));
    ("semester", semester m);
    ("phone_number", Str (members.phone_number m));
    ("line_id", Str (members.line_id m));
    ("email", Str (members.email m));
    ("team_email", nullable Str (teams.email t));
    ("is_leader", Num (members.is_leader m));
    ("twibbon_and_poster_link", Str (members.twibbon_and_poster_link m));
    ("abstract_video_link", Str (fcec.abstract_video_link f));
    ("isVerified", Flag (teams.isVerified t));
    ("isRejected", Flag (teams.isRejected t));
    ("rejectMessage", nullable Str (teams.rejectMessage t));
    ("originality_statement", nullable Str (fcec.originality_statement f));
    ("abstract_file", nullable Str (fcec.abstract_file f));
    ("ktm", nullable Str (members.ktm m));
    ("photo", nullable Str (members.photo m));
    ("active_student_letter", nullable Str (members.active_student_letter m));
    ("payment_proof", nullable Str (teams.payment_proof t));
    ("voucher", nullable Str (teams.voucher t));
    ("team_id", Num (teams.team_id t)) ].

(** The callback of [members.map] in [GET /fcec-participant]. *)
Definition fcec_modified (member : object) : object :=
  let pick k := entry k member in
  let otherData :=
    omit [ "voucher"; "active_student_letter"; "ktm"; "photo";
           "abstract_file"; "originality_statement"; "team_name";
           "team_id" ] member in
  literal
    [ ("data",
       Some (Obj (extend otherData [ ("team_name", pick "team_name");
                                     ("team_id", pick "team_id") ])));
      ("download",
       Some (Obj (literal
                    [ ("voucher", pick "voucher");
                      ("active_student_letter", pick "active_student_letter");
                      ("ktm", pick "ktm");
                      ("photo", pick "photo");
                      ("abstract_file", pick "abstract_file");
                      ("originality_statement", pick "originality_statement") ]))) ].

(** [GET /fcec-participant] *)
Definition get_fcec_participant : request → js (reply listing) :=
  λ req,
    try_catch
      (let! joined := select Teams fcec_join (λ _, true) in
       let members := map (object_of_row ∘ fcec_participant_row) joined in
       if bool_decide (members = []) then
         ret (Reply 404 (inl (StatusMessage "error" "No members found")))
       else
         let modifiedMembers := map fcec_modified members in
         ret (Reply 200 (inr (Listing "success" "members" modifiedMembers))))
      (λ _, ret (Reply 500
                   (inl (StatusMessage "error"
                           "An error occurred while retrieving the members")))).
End fcec_participant.

(** ** routes/users.js: the events of a user *)

Section user_events.
(** The [user_id] column of a users row (models/user.js, which maps the
    table, is not among the sources). *)
Variable users_user_id : users.row → Z.

(** [FROM users LEFT JOIN teams ON users.user_id = teams.user_id
     LEFT JOIN events ON teams.event_id = events.event_id
     WHERE users.user_id = :userId]: a user without a team gives one row
    without a team, a team without an event one row without an event. *)
Definition user_events_join (userId : Z) (d : database)
  : list (option (teams.row * option events.row)) :=
  u ← List.filter (λ u, users_user_id u =? userId) (db_users d);
  match List.filter (λ t, bool_decide (teams.user_id t = Some (users_user_id u)))
                    (db_teams d) with
  | [] => [None]
  | ts =>
      t ← ts;
      match List.filter (λ e, teams.event_id t =? events.event_id e)
                        (db_events d) with
      | [] => [Some (t, None)]
      | es => (λ e, Some (t, Some e)) <$> es
      end
  end.

(** [SELECT teams.team_id, teams.event_id, teams.team_name, teams.isVerified
     AS teams_isVerified, teams.isRejected AS teams_isRejected,
     events.event_name] *)
Definition user_events_row (q : option (teams.row * option events.row))
  : list (string * value) :=
  let team {A} (f : teams.row → A) := (f ∘ fst) <$> q in
  let event := q ≫= snd in
  [ ("team_id", nullable Num (team teams.team_id));
    ("event_id", nullable Num (team teams.event_id));
    ("team_name", nullable Str (team teams.team_name));
    ("teams_isVerified", nullable Flag (team teams.isVerified));
    ("teams_isRejected", nullable Flag (team teams.isRejected));
    ("event_name", nullable Str (events.event_name <$> event)) ].

(** [value === null] *)
Definition is_null (v : value) : bool :=
  match v with
  | Null => true
  | _ => false
  end.

(** [GET /user/:user_id/events] *)
Definition get_user_events : request → js (reply listing) :=
  λ req,
    try_catch
      (let! joined := select Users (user_events_join (params_id req))
                             (λ _, true) in
       let userEvents := map (object_of_row ∘ user_events_row) joined in
       if bool_decide (userEvents = [])
          || forallb (λ event, forallb is_null (event.*2)) userEvents
       then
         ret (Reply 404
                (inl (StatusMessage "error" "No events found for this user")))
       else
         ret (Reply 200 (inr (Listing "success" "data" userEvents))))
      (λ _, ret (Reply 500
                   (inl (StatusMessage "error"
                           "An error occurred while retrieving the events")))).
End user_events.

(** ** server.js: the upload endpoint *)

(** [{ message, filePath }] *)
Record uploaded := Uploaded {
  uploaded_message : string;
  filePath : string }.

(** [req.file], which [upload.single('file')] sets. *)
Definition req_file (req : request) : option file :=
  entry "file" (files req) ≫= head.

(** [POST /upload]: the handler has no [try]; reading [filename] of a
    missing [req.file] throws. *)
Definition post_upload : request → js (reply uploaded) :=
  λ req,
    match req_file req with
    | Some f =>
        ret (Reply 200 (inr (Uploaded "File uploaded successfully"
                                      ("/uploads/" +:+ filename f))))
    | None =>
        throw "Cannot read properties of undefined (reading 'filename')"
    end.

(** ** What the properties of these routes observe *)

(** The rows a get by id reads, as functions of the store. *)
Definition team_of_event (teamId eventId : Z) (d : database) : list teams.row :=
  List.filter (λ t, (teams.team_id t =? teamId) && (teams.event_id t =? eventId))
              (db_teams d).

Definition detail_extra_of (t : track) (teamId : Z) (d : database)
  : detail_extra :=
  match t with
  | CIC => NoDetail
  | SBC =>
      SbcDetail (List.filter (λ r, dosbim.team_id r =? teamId) (db_dosbim d))
                (List.filter (λ r, sbc.team_id r =? teamId) (db_sbc d))
  | FCEC => FcecDetail (List.filter (λ r, fcec.team_id r =? teamId) (db_fcec d))
  end.

#[global] Instance table_eq_dec : EqDecision table.
Proof. solve_decision. Defined.

(** The rows of a table that belong to other teams. *)
Definition others {R} (team_id : R → Z) (teamId : Z) (rows : list R) : list R :=
  List.filter (λ r, negb (team_id r =? teamId)) rows.

(** The entry of an update that names a member row last: the UPDATEs are
    issued in the order leader, members, and a later one overwrites. *)
Definition last_naming (entries : list member_update.t) (m : members.row)
  : option member_update.t :=
  List.find (λ u, members.member_id m =? member_update.member_id u)
            (rev entries).

(** The two update routes. *)
Definition update_routes : list (update_body.t → handler) :=
  [put_teams_update; put_teams_cic_update].

(** A computation that leaves what [observe] sees of the world, whatever
    it returns or throws. *)
Definition keeps {A X} (observe : world → X) (m : js A) : Prop :=
  ∀ w, observe (m w).2 = observe w.

(** What outlives a request: the store and the upload directory. *)
Definition persistent (w : world) : database * gset string := (db w, disk w).

(** The name of a track in the messages of its routes. *)
Definition track_name (t : track) : string :=
  match t with
  | CIC => "CIC"
  | SBC => "SBC"
  | FCEC => "FCEC"
  end.

(** The user rows the login looks at: those whose username or e-mail is
    the name given. *)
Definition users_named (name : string) (d : database) : list users.row :=
  List.filter (λ u, bool_decide (users.username u = name)
                    || bool_decide (users.email u = name))
              (db_users d).

(** The rows [GET /user/:user_id/events] shows for a team: one per event
    row of the team's event, or one without an event name. *)
Definition events_of_team (d : database) (t : teams.row) : list object :=
  match List.filter (λ e, teams.event_id t =? events.event_id e) (db_events d) with
  | [] =>
      [ [ ("team_id", Num (teams.team_id t));
          ("event_id", Num (teams.event_id t));
          ("team_name", Str (teams.team_name t));
          ("teams_isVerified", Flag (teams.isVerified t));
          ("teams_isRejected", Flag (teams.isRejected t));
          ("event_name", Null) ] ]
  | es =>
      (λ e, [ ("team_id", Num (teams.team_id t));
              ("event_id", Num (teams.event_id t));
              ("team_name", Str (teams.team_name t));
              ("teams_isVerified", Flag (teams.isVerified t));
              ("teams_isRejected", Flag (teams.isRejected t));
              ("event_name", Str (events.event_name e)) ]) <$> es
  end.

(** The team rows of a user. *)
Definition teams_of_user (userId : Z) (d : database) : list teams.row :=
  List.filter (λ t, bool_decide (teams.user_id t = Some userId)) (db_teams d).

(** A participant as the two queries answer it, from a row of the join. *)
Definition sbc_participant (semester : members.row → value)
    (q : members.row * teams.row * sbc.row * dosbim.row) : object :=
  sbc_modified (object_of_row (sbc_participant_row semester q)).

Definition fcec_participant (semester : members.row → value)
    (q : teams.row * members.row * fcec.row) : object :=
  fcec_modified (object_of_row (fcec_participant_row semester q)).

(** * Properties *)

(** ** The credential verifier *)

Lemma split_no_space (t : string) :
  no_space t = true → split " " t = [t].
Proof.
  induction t as [|c t IH]; simpl; [done|].
  intros [Hc Ht]%andb_prop.
  rewrite (IH Ht). apply negb_true_iff in Hc. by rewrite Hc.
Qed.

Lemma bearer_of_compact (t : string) :
  compact t → bearer (Some ("Bearer " +:+ t)) = Some t.
Proof.
  intros [_ Ht]. unfold bearer. simpl.
  change ("" +:+ t) with t. by rewrite (split_no_space t Ht).
Qed.

Lemma falsy_compact (t : string) : compact t → falsy (Some t) = false.
Proof. intros [Hne _]. simpl. by apply bool_decide_eq_false. Qed.

Lemma JWT_SECRET_default : JWT_SECRET None = "backendCIA".
Proof. reflexivity. Qed.

Lemma JWT_SECRET_other (env : option string) :
  env ≠ Some "your-secret-key" → JWT_SECRET env ≠ "your-secret-key".
Proof.
  intros Henv. unfold JWT_SECRET.
  destruct env as [s|]; simpl; [|done].
  case_bool_decide; [done|]. congruence.
Qed.

(** The verifier's three failure answers, one lemma each. *)
Lemma verifier_requires_token jwt_verify env (rest : list middleware)
    (h : handler) (req : request) (w : world) :
  falsy (bearer (headers_authorization req)) = true →
  dispatch (authenticateToken jwt_verify env :: rest) h req w
  = Served (Some (Response 401 (Message "Authentication token is required")))
           w false.
Proof. intros Hfalsy. simpl. unfold authenticateToken. by rewrite Hfalsy. Qed.

Lemma verifier_rejects_invalid jwt_verify env (rest : list middleware)
    (h : handler) (req : request) (w : world) (t : string) (err : jwt.error) :
  bearer (headers_authorization req) = Some t → t ≠ "" →
  jwt_verify t (JWT_SECRET env) (clock w) = inl err →
  err ≠ jwt.TokenExpiredError →
  dispatch (authenticateToken jwt_verify env :: rest) h req w
  = Served (Some (Response 403 (Message "Invalid token"))) w false.
Proof.
  intros Htoken Ht Hv Herr. simpl. unfold authenticateToken.
  rewrite Htoken. simpl. rewrite bool_decide_eq_false_2 by done. rewrite Hv.
  by destruct err.
Qed.

Lemma verifier_rejects_expired jwt_verify env (rest : list middleware)
    (h : handler) (req : request) (w : world) (t : string) :
  bearer (headers_authorization req) = Some t → t ≠ "" →
  jwt_verify t (JWT_SECRET env) (clock w) = inl jwt.TokenExpiredError →
  dispatch (authenticateToken jwt_verify env :: rest) h req w
  = Served (Some (Response 401 (Message "Token has expired"))) w false.
Proof.
  intros Htoken Ht Hv. simpl. unfold authenticateToken.
  rewrite Htoken. simpl. rewrite bool_decide_eq_false_2 by done. by rewrite Hv.
Qed.

(** A verified token: the claims go to [req.user] and the handler runs on
    the world the request found. *)
Lemma verifier_passes jwt_verify env (h : handler) (req : request) (w : world)
    (t : string) (decoded : jwt.claims) :
  bearer (headers_authorization req) = Some t → t ≠ "" →
  jwt_verify t (JWT_SECRET env) (clock w) = inr decoded →
  dispatch [authenticateToken jwt_verify env] h req w
  = dispatch [] h (set_user decoded req) w.
Proof.
  intros Htoken Ht Hv. simpl. unfold authenticateToken.
  rewrite Htoken. simpl. rewrite bool_decide_eq_false_2 by done. by rewrite Hv.
Qed.

(** C1. A request stopped by the verifier: 401 "Authentication token is
    required" when the header is absent or yields no token, 403 "Invalid
    token" when verification throws anything but the expiry error, 401
    "Token has expired" when it throws the expiry error; in the three cases
    the world (store, list of queries, upload directory) is the one the
    request found and the handler did not run. *)
Theorem authenticateToken_failures
    (jwt_verify : string → string → Z → jwt.error + jwt.claims)
    (env : option string) (rest : list middleware) (h : handler)
    (req : request) (w : world) :
  let run := dispatch (authenticateToken jwt_verify env :: rest) h req w in
  let token := bearer (headers_authorization req) in
  let rejected (code : Z) (message : string) :=
    run = Served (Some (Response code (Message message))) w false in
  (headers_authorization req = None → rejected 401 "Authentication token is required")
  ∧ (falsy token = true → rejected 401 "Authentication token is required")
  ∧ (∀ t err,
       token = Some t → t ≠ "" →
       jwt_verify t (JWT_SECRET env) (clock w) = inl err →
       err ≠ jwt.TokenExpiredError →
       rejected 403 "Invalid token")
  ∧ (∀ t,
       token = Some t → t ≠ "" →
       jwt_verify t (JWT_SECRET env) (clock w) = inl jwt.TokenExpiredError →
       rejected 401 "Token has expired").
Proof.
  cbv zeta. split_and!.
  - intros Hnone. apply verifier_requires_token. by rewrite Hnone.
  - apply verifier_requires_token.
  - intros t err. apply verifier_rejects_invalid.
  - intros t. apply verifier_rejects_expired.
Qed.

Lemma authenticateToken_failures_witness :
  let run a := dispatch (authenticateToken symbolic.named None :: [])
                        put_teams_reject
                        (example.get a 1 (JsonReject "late"))
                        (example.world_of example.alpha_db) in
  let rejected a (code : Z) (message : string) :=
    run a = Served (Some (Response code (Message message)))
                   (example.world_of example.alpha_db) false in
  rejected None 401 "Authentication token is required"
  ∧ rejected (Some "Bearer") 401 "Authentication token is required"
  ∧ rejected (Some "Bearer forged") 403 "Invalid token"
  ∧ rejected (Some "Bearer expired") 401 "Token has expired".
Proof.
  pose proof (authenticateToken_failures symbolic.named None [] put_teams_reject)
    as H.
  split; [|split; [|split]].
  - apply (H (example.get None 1 (JsonReject "late"))). reflexivity.
  - apply (H (example.get (Some "Bearer") 1 (JsonReject "late"))). reflexivity.
  - apply (H (example.get (Some "Bearer forged") 1 (JsonReject "late")) _)
      with (t := "forged") (err := jwt.JsonWebTokenError); done.
  - apply (H (example.get (Some "Bearer expired") 1 (JsonReject "late")) _)
      with (t := "expired"); done.
Defined.

(** Every route but three runs the verifier first. *)
Lemma chain_guarded jwt_verify env extname (r : route) :
  r ≠ PUT_teams_verify → r ≠ POST_user_register → r ≠ POST_user_login →
  head (chain jwt_verify env extname r) = Some (authenticateToken jwt_verify env).
Proof. by destruct r. Qed.

(** A guarded route answers a request without a usable token with 401 or
    403, leaves the world as it was and does not run its handler. *)
Lemma guarded_route_rejects jwt_verify env extname (r : route) (h : handler)
    (req : request) (w : world) :
  r ≠ PUT_teams_verify → r ≠ POST_user_register → r ≠ POST_user_login →
  (∀ c, jwt_verify (default "" (bearer (headers_authorization req)))
                   (JWT_SECRET env) (clock w) ≠ inr c) →
  ∃ code message,
    dispatch (chain jwt_verify env extname r) h req w
    = Served (Some (Response code (Message message))) w false
    ∧ (code = 401 ∨ code = 403).
Proof.
  intros H1 H2 H3 Hv.
  pose proof (chain_guarded jwt_verify env extname r H1 H2 H3) as Hhd.
  destruct (chain jwt_verify env extname r) as [|m rest]; [done|].
  injection Hhd as ->. simpl. unfold authenticateToken.
  destruct (falsy (bearer (headers_authorization req))).
  { eexists _, _. split; [reflexivity|]. by left. }
  destruct (jwt_verify _ _ _) as [err|c] eqn:E; [|by destruct (Hv c)].
  destruct err; simpl; eexists _, _; (split; [reflexivity|]); auto.
Qed.

(** C3, at the route the claim does not hold for: [PUT /teams/:team_id/verify]
    belongs to the registration workflow and lists no verifier, so a request
    without an [Authorization] header runs the handler, which marks team 1
    verified and answers 200. *)
Theorem put_teams_verify_without_token :
  let served :=
    dispatch (chain symbolic.named None (λ _, "") PUT_teams_verify)
             put_teams_verify
             (example.get None 1 EmptyBody)
             (example.world_of example.alpha_db) in
  component_of PUT_teams_verify = RegistrationWorkflow
  ∧ handler_ran served = true
  ∧ answer served
    = Some (Response 200 (StatusMessage "success" "Tim Berhasil Diverifikasi"))
  ∧ map teams.isVerified (db_teams (db (after served))) = [true; false]
  ∧ queries (after served) = [SELECT Teams; UPDATE Teams].
Proof. vm_compute. done. Qed.

(** ** Login against the verifier *)

Lemma login_token jwt_sign bcrypt_compare (req : request) (w w' : world)
    (message : string) (u : users.public) (token : string) :
  post_user_login jwt_sign bcrypt_compare req w
  = (Return (Response 200 (LoggedIn message u token)), w') →
  ∃ c now, token = jwt_sign c "your-secret-key" sixty_days now.
Proof.
  unfold post_user_login, try_catch.
  destruct (body req) as [| |username password|]; simpl;
    try (intros [=]; done).
  destruct (falsy username || falsy password); simpl; [intros [=]|].
  unfold bind, find_user, select. simpl.
  destruct (head _) as [found|]; simpl; [|intros [=]].
  destruct (bcrypt_compare _ _); simpl; intros [= <- <- <-]; eauto.
Qed.

(** C4. The login signs with 'your-secret-key'; the verifier checks against
    [process.env.JWT_SECRET || 'backendCIA']. Unless the environment sets
    JWT_SECRET to 'your-secret-key', a request that carries a token the login
    issued is answered 403 "Invalid token" by every guarded route. *)
Theorem login_token_is_rejected
    (jwt_sign : jwt.claims → string → Z → Z → string)
    (jwt_verify : string → string → Z → jwt.error + jwt.claims)
    (bcrypt_compare : string → string → bool)
    (env : option string)
    (library : jsonwebtoken jwt_sign jwt_verify)
    (Henv : env ≠ Some "your-secret-key")
    (credentials : request) (w w' : world)
    (message : string) (u : users.public) (token : string)
    (Hlogin : post_user_login jwt_sign bcrypt_compare credentials w
              = (Return (Response 200 (LoggedIn message u token)), w'))
    (rest : list middleware) (h : handler) (req : request) (w'' : world)
    (Hheader : headers_authorization req = Some ("Bearer " +:+ token)) :
  dispatch (authenticateToken jwt_verify env :: rest) h req w''
  = Served (Some (Response 403 (Message "Invalid token"))) w'' false.
Proof.
  destruct (login_token _ _ _ _ _ _ _ _ Hlogin) as (c & now & ->).
  pose proof (sign_compact _ _ library c "your-secret-key" sixty_days now)
    as Hcompact.
  apply verifier_rejects_invalid
    with (t := jwt_sign c "your-secret-key" sixty_days now)
         (err := jwt.JsonWebTokenError).
  - rewrite Hheader. by apply bearer_of_compact.
  - apply Hcompact.
  - apply (verify_other_secret _ _ library).
    intros Heq. by apply (JWT_SECRET_other env Henv).
  - done.
Qed.

Lemma symbolic_dec_enc (k : string) : symbolic.dec (symbolic.enc k) = k.
Proof.
  induction k as [|c k IH]; simpl; [done|].
  case_bool_decide as Hc; simpl; rewrite IH; [by subst|done].
Qed.

Lemma symbolic_no_space (k : string) : no_space (symbolic.enc k) = true.
Proof.
  induction k as [|c k IH]; simpl; [done|].
  case_bool_decide as Hc; simpl; [done|].
  rewrite IH. by rewrite bool_decide_eq_false_2.
Qed.

Lemma symbolic_jsonwebtoken : jsonwebtoken symbolic.sign symbolic.verify.
Proof.
  split.
  - intros c k lifetime now. split; [done|].
    unfold symbolic.sign. simpl. apply symbolic_no_space.
  - intros c k k' lifetime now now' Hk. unfold symbolic.sign, symbolic.verify.
    rewrite symbolic_dec_enc. by rewrite bool_decide_eq_false_2.
Qed.

Lemma login_token_is_rejected_witness :
  let credentials := example.get None 0 (JsonLogin (Some "ani") (Some "hash")) in
  let w := example.world_of example.alpha_db in
  let same (password hash : string) := bool_decide (password = hash) in
  let token := symbolic.sign (jwt.Claims (Some 7) None) "your-secret-key"
                             sixty_days (clock w) in
  (post_user_login symbolic.sign same credentials w).1
  = Return (Response 200 (LoggedIn "User logged in successfully"
                            (users.Public 7 "ani" "ani@example.org") token))
  ∧ dispatch (authenticateToken symbolic.verify None :: []) get_teams
             (example.get (Some ("Bearer " +:+ token)) 0 EmptyBody) w
    = Served (Some (Response 403 (Message "Invalid token"))) w false.
Proof.
  split; [reflexivity|].
  apply login_token_is_rejected
    with (jwt_sign := symbolic.sign)
         (bcrypt_compare := λ password hash, bool_decide (password = hash))
         (credentials := example.get None 0 (JsonLogin (Some "ani") (Some "hash")))
         (w := example.world_of example.alpha_db)
         (w' := logged (SELECT Users) (example.world_of example.alpha_db))
         (message := "User logged in successfully")
         (u := users.Public 7 "ani" "ani@example.org")
         (token := symbolic.sign (jwt.Claims (Some 7) None) "your-secret-key"
                                 sixty_days 1700000000000).
  - exact symbolic_jsonwebtoken.
  - done.
  - reflexivity.
  - reflexivity.
Defined.

(** ** Verify and reject *)

Lemma filter_map_update {A} (p : A → bool) (f : A → A) (l : list A) :
  (∀ x, p (f x) = p x) →
  List.filter p (map (λ x, if p x then f x else x) l) = map f (List.filter p l).
Proof.
  intros Hf. induction l as [|x l IH]; simpl; [done|].
  destruct (p x) eqn:Hx; simpl.
  - rewrite Hf, Hx. by rewrite IH.
  - by rewrite Hx.
Qed.

Lemma filter_map_update_other {A} (p q : A → bool) (f : A → A) (l : list A) :
  (∀ x, p x = true → q x = false) → (∀ x, q (f x) = q x) →
  List.filter q (map (λ x, if p x then f x else x) l) = List.filter q l.
Proof.
  intros Hpq Hf. induction l as [|x l IH]; simpl; [done|].
  destruct (p x) eqn:Hx; simpl.
  - rewrite Hf, (Hpq x Hx). done.
  - by rewrite IH.
Qed.

Lemma map_update_none {A} (p : A → bool) (f : A → A) (l : list A) :
  List.filter p l = [] → map (λ x, if p x then f x else x) l = l.
Proof.
  induction l as [|x l IH]; simpl; [done|].
  destruct (p x); [done|]. intros H. by rewrite IH.
Qed.

Lemma set_teams_same (d : database) : set_teams (db_teams d) d = d.
Proof. by destruct d. Qed.

Lemma verify_found (req : request) (w : world) :
  verification_state (params_id req) (db w) ≠ [] →
  put_teams_verify req w
  = (Return (Response 200 (StatusMessage "success" "Tim Berhasil Diverifikasi")),
     with_db (λ d, set_teams
                     (map (λ t, if teams.team_id t =? params_id req
                                then set_isVerified t else t) (db_teams d)) d)
             (logged (UPDATE Teams) (logged (SELECT Teams) w))).
Proof.
  intros Hfound. unfold put_teams_verify, try_catch, bind, select. simpl.
  case_bool_decide as Hnil; [|done].
  unfold verification_state in Hfound. by rewrite Hnil in Hfound.
Qed.

Lemma verify_missing (req : request) (w : world) :
  verification_state (params_id req) (db w) = [] →
  put_teams_verify req w
  = (Return (Response 404 (StatusMessage "error" "Tim tidak ditemukan")),
     logged (SELECT Teams) w).
Proof.
  intros Hmissing. unfold put_teams_verify, try_catch, bind, select. simpl.
  case_bool_decide as Hnil; [done|].
  unfold verification_state in Hmissing.
  by apply fmap_nil_inv in Hmissing.
Qed.

Lemma reject_runs (req : request) (message : string) (w : world) :
  body req = JsonReject message →
  put_teams_reject req w
  = (Return (Response 200 (Message "Team rejection status updated successfully")),
     with_db (λ d, set_teams
                     (map (λ t, if teams.team_id t =? params_id req
                                then set_isRejected true message t else t)
                          (db_teams d)) d)
             (logged (UPDATE Teams) w)).
Proof. intros Hbody. unfold put_teams_reject. by rewrite Hbody. Qed.

Lemma flags_after_verify (id : Z) (l : list teams.row) :
  map (λ t, (teams.isVerified t, teams.isRejected t, teams.rejectMessage t))
      (List.filter (λ t, teams.team_id t =? id)
         (map (λ t, if teams.team_id t =? id then set_isVerified t else t) l))
  = map (λ s, (true, s.1.2, s.2))
        (map (λ t, (teams.isVerified t, teams.isRejected t, teams.rejectMessage t))
             (List.filter (λ t, teams.team_id t =? id) l)).
Proof.
  rewrite (filter_map_update (λ t, teams.team_id t =? id) set_isVerified) by done.
  by rewrite !map_map.
Qed.

Lemma flags_after_reject (id : Z) (message : string) (l : list teams.row) :
  map (λ t, (teams.isVerified t, teams.isRejected t, teams.rejectMessage t))
      (List.filter (λ t, teams.team_id t =? id)
         (map (λ t, if teams.team_id t =? id
                    then set_isRejected true message t else t) l))
  = map (λ s, (s.1.1, true, Some message))
        (map (λ t, (teams.isVerified t, teams.isRejected t, teams.rejectMessage t))
             (List.filter (λ t, teams.team_id t =? id) l)).
Proof.
  rewrite (filter_map_update (λ t, teams.team_id t =? id)
             (set_isRejected true message)) by done.
  by rewrite !map_map.
Qed.

Lemma others_after_update (id : Z) (f : teams.row → teams.row)
    (l : list teams.row) :
  (∀ t, teams.team_id (f t) = teams.team_id t) →
  List.filter (λ t, negb (teams.team_id t =? id))
    (map (λ t, if teams.team_id t =? id then f t else t) l)
  = List.filter (λ t, negb (teams.team_id t =? id)) l.
Proof.
  intros Hf.
  apply (filter_map_update_other (λ t, teams.team_id t =? id)).
  - by intros t ->.
  - intros t. by rewrite Hf.
Qed.

(** C7. On a team that exists, verify answers 200 and sets only the verified
    flag (rejected flag and message as before); reject answers 200 and sets
    the rejected flag and the request's message (verified flag as before);
    the rows of the other teams are untouched; and in both orders the team
    ends verified, rejected and with the message. *)
Theorem verify_and_reject_flags
    (verify_req reject_req : request) (message : string) (w : world) :
  let id := params_id verify_req in
  let before := verification_state id (db w) in
  let verify := put_teams_verify verify_req in
  let reject := put_teams_reject reject_req in
  params_id reject_req = id →
  body reject_req = JsonReject message →
  before ≠ [] →
  (verify w).1
  = Return (Response 200 (StatusMessage "success" "Tim Berhasil Diverifikasi"))
  ∧ verification_state id (db (verify w).2)
    = map (λ s, (true, s.1.2, s.2)) before
  ∧ other_teams id (db (verify w).2) = other_teams id (db w)
  ∧ (reject w).1
    = Return (Response 200 (Message "Team rejection status updated successfully"))
  ∧ verification_state id (db (reject w).2)
    = map (λ s, (s.1.1, true, Some message)) before
  ∧ other_teams id (db (reject w).2) = other_teams id (db w)
  ∧ verification_state id (db (reject (verify w).2).2)
    = map (λ _, (true, true, Some message)) before
  ∧ verification_state id (db (verify (reject w).2).2)
    = map (λ _, (true, true, Some message)) before.
Proof.
  intros id before verify reject Hid Hbody Hfound.
  subst verify reject.
  rewrite (verify_found verify_req w Hfound).
  rewrite (reject_runs reject_req message w Hbody).
  rewrite (reject_runs reject_req message _ Hbody).
  rewrite Hid. fold id.
  assert (verification_state id
            (set_teams (map (λ t, if teams.team_id t =? id
                                  then set_isRejected true message t else t)
                            (db_teams (db w))) (db w)) ≠ []) as Hfound'.
  { unfold verification_state. simpl. rewrite flags_after_reject.
    fold (verification_state id (db w)). fold before. by destruct before. }
  match goal with
  | |- context [put_teams_verify verify_req ?w'] =>
      rewrite (verify_found verify_req w' Hfound')
  end.
  fold id. subst before. unfold verification_state, other_teams. simpl.
  rewrite !flags_after_verify, !flags_after_reject, !flags_after_verify.
  rewrite !others_after_update by done.
  rewrite !map_map. simpl.
  repeat split; reflexivity.
Qed.

Lemma verify_and_reject_flags_witness :
  let verify := put_teams_verify (example.get None 1 EmptyBody) in
  let reject := put_teams_reject (example.get None 1 (JsonReject "late payment")) in
  let w := example.world_of example.alpha_db in
  verification_state 1 (db w) = [(false, false, None)]
  ∧ verification_state 1 (db (verify w).2) = [(true, false, None)]
  ∧ verification_state 1 (db (reject w).2) = [(false, true, Some "late payment")]
  ∧ verification_state 1 (db (reject (verify w).2).2)
    = [(true, true, Some "late payment")]
  ∧ verification_state 1 (db (verify (reject w).2).2)
    = [(true, true, Some "late payment")].
Proof.
  destruct (verify_and_reject_flags
              (example.get None 1 EmptyBody)
              (example.get None 1 (JsonReject "late payment"))
              "late payment" (example.world_of example.alpha_db)
              eq_refl eq_refl ltac:(done))
    as (_ & Hv & _ & _ & Hr & _ & Hvr & Hrv).
  split; [reflexivity|].
  split; [exact Hv|]. split; [exact Hr|]. split; [exact Hvr|exact Hrv].
Defined.

(** C10. For a team id no row has, reject issues its UPDATE (no SELECT
    before it), answers 200 "Team rejection status updated successfully" and
    leaves the store as it was, while verify selects first and answers 404. *)
Theorem reject_has_no_existence_check
    (req : request) (message : string) (w : world) :
  body req = JsonReject message →
  verification_state (params_id req) (db w) = [] →
  put_teams_reject req w
  = (Return (Response 200 (Message "Team rejection status updated successfully")),
     logged (UPDATE Teams) w)
  ∧ db (put_teams_reject req w).2 = db w
  ∧ put_teams_verify req w
    = (Return (Response 404 (StatusMessage "error" "Tim tidak ditemukan")),
       logged (SELECT Teams) w)
  ∧ db (put_teams_verify req w).2 = db w.
Proof.
  intros Hbody Hmissing.
  rewrite (verify_missing req w Hmissing).
  rewrite (reject_runs req message w Hbody).
  assert (with_db
            (λ d, set_teams
                    (map (λ t, if teams.team_id t =? params_id req
                               then set_isRejected true message t else t)
                         (db_teams d)) d)
            (logged (UPDATE Teams) w)
          = logged (UPDATE Teams) w) as ->.
  { unfold with_db, logged. simpl. f_equal.
    rewrite map_update_none; [apply set_teams_same|].
    unfold verification_state in Hmissing.
    by apply fmap_nil_inv in Hmissing. }
  done.
Qed.

Lemma reject_has_no_existence_check_witness :
  let req := example.get None 99 (JsonReject "no such team") in
  let w := example.world_of example.alpha_db in
  put_teams_reject req w
  = (Return (Response 200 (Message "Team rejection status updated successfully")),
     logged (UPDATE Teams) w)
  ∧ db (put_teams_reject req w).2 = db w
  ∧ put_teams_verify req w
    = (Return (Response 404 (StatusMessage "error" "Tim tidak ditemukan")),
       logged (SELECT Teams) w)
  ∧ db (put_teams_verify req w).2 = db w.
Proof.
  apply (reject_has_no_existence_check
           (example.get None 99 (JsonReject "no such team")) "no such team"
           (example.world_of example.alpha_db)); reflexivity.
Defined.

(** ** Delete *)

Lemma filter_negb_filter {A} (p : A → bool) (l : list A) :
  List.filter p (List.filter (λ x, negb (p x)) l) = [].
Proof.
  induction l as [|x l IH]; simpl; [done|].
  destruct (p x) eqn:Hx; simpl; [done|]. by rewrite Hx.
Qed.

(** C6. A track's delete answers 200 after issuing, in this order, the
    DELETE of each of the track's own tables, then of the members, then of
    the team, all bound to the route's team id; afterwards none of these
    tables has a row with that team id. *)
Theorem delete_in_dependency_order (t : track) (req : request) (w : world) :
  let id := params_id req in
  let tables := track_tables t ++ [Members; Teams] in
  (∃ message,
     (delete_of t req w).1 = Return (Response 200 (Message message)))
  ∧ queries (delete_of t req w).2
    = queries w ++ map (λ tbl, DELETE tbl id) tables
  ∧ (∀ tbl, tbl ∈ tables →
       rows_of_team tbl id (db (delete_of t req w).2) = 0%nat).
Proof.
  destruct t; simpl.
  - split; [eauto|]. split; [by rewrite <- !app_assoc|].
    intros tbl Hin.
    apply elem_of_cons in Hin as [->|Hin]; [|apply list_elem_of_singleton in Hin as ->];
      simpl; apply length_zero_iff_nil, filter_negb_filter.
  - split; [eauto|]. split; [by rewrite <- !app_assoc|].
    intros tbl Hin.
    repeat (apply elem_of_cons in Hin as [->|Hin]);
      [..|by apply elem_of_nil in Hin];
      simpl; apply length_zero_iff_nil, filter_negb_filter.
  - split; [eauto|]. split; [by rewrite <- !app_assoc|].
    intros tbl Hin.
    repeat (apply elem_of_cons in Hin as [->|Hin]);
      [..|by apply elem_of_nil in Hin];
      simpl; apply length_zero_iff_nil, filter_negb_filter.
Qed.

(** The SBC delete on a store that holds the team with its advisor, bridge
    and member rows. *)
Example delete_teams_sbc_trace :
  let d := Database [example.team_row 2 "Alpha" 3]
             [member_row_nim 2 (example.member "Leader") None None None 1 1]
             [dosbim.Row 1 2 "Advisor" "197" "a@example.org" "0811" None]
             [sbc.Row 1 2 "Bridge"] [] [] [] 3 2 2 2 1 0 in
  let w' := (delete_teams_sbc (example.get None 2 EmptyBody)
                              (example.world_of d)).2 in
  queries w' = [DELETE Dosbim 2; DELETE Sbc 2; DELETE Members 2; DELETE Teams 2]
  ∧ db_teams (db w') = [] ∧ db_members (db w') = []
  ∧ db_dosbim (db w') = [] ∧ db_sbc (db w') = [].
Proof. vm_compute. done. Qed.

(** ** Stored file names *)

(** C9, as stated, fails at the [/upload] endpoint of server.js: it stores
    the file under the timestamp followed by the client's own file name, so
    no extension function makes every configuration name its files
    [{field}-{timestamp}-{random}{ext}]. *)
Lemma upload_endpoint_keeps_client_name :
  filename (stored server_upload
              (Part "file" "evil.sh" "text/x-sh" 1700000000000 42))
  = "1700000000000-evil.sh"
  ∧ ¬ ∃ extname,
        Forall (λ cfg, ∀ p, filename (stored cfg p) = generated_name extname p)
               (all_uploads extname).
Proof.
  split; [by vm_compute|].
  intros [extname Hall].
  apply Forall_app in Hall as [_ Hserver].
  apply Forall_inv in Hserver.
  specialize (Hserver (Part "file" "evil.sh" "text/x-sh" 1700000000000 42)).
  vm_compute in Hserver. discriminate.
Qed.

Lemma append_assoc (a b c : string) : (a +:+ b) +:+ c = a +:+ (b +:+ c).
Proof.
  induction a as [|x a IH]; [done|].
  change (String x ((a +:+ b) +:+ c) = String x (a +:+ b +:+ c)).
  by rewrite IH.
Qed.

Lemma unique_filename_generated (extname : string → string) (p : part) :
  unique_filename extname p = generated_name extname p.
Proof.
  unfold unique_filename, generated_name.
  by rewrite !append_assoc.
Qed.

(** C9, amended. The track routes (CIC, SBC, FCEC, CRAFT) store a file as
    [{field}-{timestamp}-{random}{ext}] in the track's directory, and two
    parts that differ only in a client file name of the same extension get
    the same stored name; the [/upload] endpoint stores it as
    [{timestamp}-{original name}]. *)
Theorem track_uploads_generate_names (extname : string → string) :
  Forall (λ cfg,
            ∀ p,
              filename (stored cfg p) = generated_name extname p
              ∧ path (stored cfg p)
                = destination cfg +:+ "/" +:+ generated_name extname p
              ∧ ∀ other_name,
                  extname other_name = extname (part_originalname p) →
                  filename (stored cfg (Part (part_fieldname p) other_name
                                             (part_mimetype p) (part_now p)
                                             (part_random p)))
                  = filename (stored cfg p))
         (track_uploads extname)
  ∧ ∀ p, filename (stored server_upload p)
         = pretty (part_now p) +:+ "-" +:+ part_originalname p.
Proof.
  split; [|done].
  unfold track_uploads.
  repeat (constructor;
          [intros p; simpl; rewrite !unique_filename_generated;
           split; [reflexivity|split; [reflexivity|]];
           intros other_name Hext; rewrite unique_filename_generated;
           unfold generated_name; simpl; by rewrite Hext|]).
  constructor.
Qed.

Example generated_name_example :
  filename (stored (cic_upload (λ _, ".png"))
              (Part "leader_ktm" "my card.PNG.png" "image/png" 1700000000000 123456789))
  = "leader_ktm-1700000000000-123456789.png".
Proof. by vm_compute. Qed.

(** ** Create: what a successful request leaves in the store *)

Lemma bind_Return {A B} (m : js A) (k : A → js B) (w w' : world) (b : B) :
  bind m k w = (Return b, w') →
  ∃ a w1, m w = (Return a, w1) ∧ k a w1 = (Return b, w').
Proof. unfold bind. destruct (m w) as [[a|e] w1]; [eauto|done]. Qed.

Lemma try_catch_Return {A} (m : js A) (h : string → js A) (w w' : world) (a : A) :
  try_catch m h w = (Return a, w') →
  (∀ e w1 w2, h e w1 ≠ (Return a, w2)) →
  m w = (Return a, w').
Proof.
  unfold try_catch. destruct (m w) as [[a'|e] w1]; [done|].
  intros H Hh. by destruct (Hh e w1 w').
Qed.

Lemma path_of_frame name req w o w' : path_of name req w = (o, w') → w' = w.
Proof.
  unfold path_of. destruct (entry _ _) as [[|f fs]|]; by intros [= _ <-].
Qed.

Lemma replacement_Return {A} name (v : option A) w a w' :
  replacement name v w = (Return a, w') → v = Some a ∧ w' = w.
Proof. destruct v; simpl; [by intros [= <- <-]|done]. Qed.

Lemma defined_Return {A} what (v : option A) w a w' :
  defined what v w = (Return a, w') → v = Some a ∧ w' = w.
Proof. destruct v; simpl; [by intros [= <- <-]|done]. Qed.

Lemma req_user_id_frame req w o w' : req_user_id req w = (o, w') → w' = w.
Proof. unfold req_user_id. destruct (user req); by intros [= _ <-]. Qed.

Lemma parse_data_Return req w d w' :
  parse_data req w = (Return d, w') → body req = Multipart (Data d) ∧ w' = w.
Proof.
  unfold parse_data. destruct (body req) as [| | |[| |d']]; try done.
  by intros [= <- <-].
Qed.

Lemma bind_run {A B} (m : js A) (k : A → js B) (w w' : world) (a : A) :
  m w = (Return a, w') → bind m k w = k a w'.
Proof. unfold bind. by intros ->. Qed.

Lemma bind_throws {A B} (m : js A) (k : A → js B) (w w' : world) (e : string) :
  m w = (Throw e, w') → bind m k w = (Throw e, w').
Proof. unfold bind. by intros ->. Qed.

Lemma entry_elem_of {A} (name : string) (obj : list (string * A)) (v : A) :
  entry name obj = Some v → (name, v) ∈ obj.
Proof.
  induction obj as [|[k x] obj IH]; cbn; [done|].
  case_bool_decide as Hk.
  - intros [= ->]. subst. by left.
  - intros H. right. by apply IH.
Qed.

(** [req.files] as multer leaves it: no field with an empty array. *)
Lemma path_of_runs (name : string) (req : request) (w : world) :
  Forall (λ e, e.2 ≠ []) (files req) →
  ∃ o, path_of name req w = (Return o, w).
Proof.
  intros Hfiles. unfold path_of.
  destruct (entry name (files req)) as [[|f fs]|] eqn:E; [|by eexists..].
  apply entry_elem_of in E. rewrite Forall_forall in Hfiles.
  by destruct (Hfiles _ E).
Qed.

Lemma grows_refl w : grows [] w w.
Proof. repeat split. exists []. by rewrite app_nil_r. Qed.

Lemma grows_trans ks1 ks2 w w1 w2 :
  grows ks1 w w1 → grows ks2 w1 w2 → grows (ks1 ++ ks2) w w2.
Proof.
  intros (Ht1 & He1 & Hd1 & rows1 & Hm1 & Hk1) (Ht2 & He2 & Hd2 & rows2 & Hm2 & Hk2).
  repeat split; [congruence..|].
  exists (rows1 ++ rows2). rewrite Hm2, Hm1, <- app_assoc, map_app, Hk1, Hk2. done.
Qed.

Lemma insert_member_grows (r : Z → members.row) w :
  grows [key (r (next_member_id (db w)))] w (insert_member r w).2.
Proof. repeat split. by exists [r (next_member_id (db w))]. Qed.

Lemma cic_insert_member_grows req tid i m w w' :
  cic_insert_member req tid i m w = (Return tt, w') →
  grows (map (λ m, (cic_teamId tid m, member_input.full_name m, 0))
             (kept_from cic_skips i [m])) w w'.
Proof.
  unfold cic_insert_member. simpl. unfold cic_skips.
  destruct (_ && _).
  { intros [= <-]. apply grows_refl. }
  intros (ktm & w1 & H1 & H)%bind_Return. apply path_of_frame in H1 as ->.
  apply bind_Return in H as (asl & w1 & H1 & H). apply path_of_frame in H1 as ->.
  apply bind_Return in H as (photo & w1 & H1 & H). apply path_of_frame in H1 as ->.
  apply bind_Return in H as (id & w1 & H1 & H).
  injection H as <-.
  pose proof (insert_member_grows
                (member_row_department (cic_teamId tid m) m ktm asl photo 0) w)
    as Hg.
  rewrite H1 in Hg. exact Hg.
Qed.

Lemma for_each_grows (f : nat → member_input.t → js unit)
    (skips : nat → member_input.t → bool) (team : member_input.t → Z) :
  (∀ i m w w', f i m w = (Return tt, w') →
     grows (map (λ m, (team m, member_input.full_name m, 0))
                (kept_from skips i [m])) w w') →
  ∀ members i w w',
    for_each f i members w = (Return tt, w') →
    grows (map (λ m, (team m, member_input.full_name m, 0))
               (kept_from skips i members)) w w'.
Proof.
  intros Hf members. induction members as [|m members IH]; intros i w w'; simpl.
  { intros [= <-]. apply grows_refl. }
  intros ([] & w1 & H1 & H)%bind_Return.
  apply Hf in H1. apply IH in H.
  simpl in H1. destruct (skips i m); simpl in *.
  - apply (grows_trans [] _ _ _ _ H1 H).
  - apply (grows_trans [_] _ _ _ _ H1 H).
Qed.

Lemma error_500_not_created e w1 w2 b :
  error_500 e w1 ≠ (Return (Response 201 b), w2).
Proof. unfold error_500, ret. congruence. Qed.

Lemma cic_created req w b w' :
  post_teams_cic_new req w = (Return (Response 201 b), w') →
  created CIC req w w'.
Proof.
  unfold post_teams_cic_new.
  intros H%try_catch_Return; [|intros; apply error_500_not_created].
  destruct (body req) as [| | |[| |d]] eqn:Hbody; try done.
  { apply bind_Return in H as (userId & w1 & H1 & H). done. }
  apply bind_Return in H as (userId & w1 & H1 & H).
  apply req_user_id_frame in H1 as ->.
  destruct (data.team d) as [teamData|] eqn:Hteam; [|by destruct (data.leader d)].
  destruct (data.leader d) as [leaderData|] eqn:Hleader; [|done].
  apply bind_Return in H as (existingTeam & w1 & H1 & H).
  case_bool_decide as Hexists.
  { apply bind_Return in H as (? & ? & _ & H). done. }
  unfold select_team_named, bind, select in H1. simpl in H1.
  injection H1 as _ <-.
  apply bind_Return in H as (payment_proof & w1 & H1 & H). apply path_of_frame in H1 as ->.
  apply bind_Return in H as (voucher & w1 & H1 & H). apply path_of_frame in H1 as ->.
  apply bind_Return in H as (user_id & w1 & H1 & H).
  apply replacement_Return in H1 as [_ ->].
  apply bind_Return in H as (email & w1 & H1 & H).
  apply replacement_Return in H1 as [_ ->].
  apply bind_Return in H as (id & w1 & H1 & H).
  injection H1 as <- <-.
  apply bind_Return in H as (teamResult & w1 & H1 & H).
  injection H1 as <- <-.
  apply bind_Return in H as (ktm & w1 & H1 & H). apply path_of_frame in H1 as ->.
  apply bind_Return in H as (asl & w1 & H1 & H). apply path_of_frame in H1 as ->.
  apply bind_Return in H as (photo & w1 & H1 & H). apply path_of_frame in H1 as ->.
  apply bind_Return in H as (leader_id & w1 & H1 & H).
  injection H1 as <- <-.
  apply bind_Return in H as ([] & w1 & H1 & H).
  injection H as <-.
  apply (for_each_grows _ cic_skips (cic_teamId _)
           (cic_insert_member_grows req _)) in H1.
  destruct H1 as (Ht & He & Hd & rows & Hm & Hk).
  simpl in *. subst w1.
  exists d, teamData, leaderData.
  eexists. split_and!; try done; try (by rewrite Ht).
  eexists. split; [simpl; by rewrite Hm, <- app_assoc|].
  simpl. by rewrite Hk.
Qed.

Lemma map_m_grows {A} (f : nat → member_input.t → js A)
    (skips : nat → member_input.t → bool) (team : member_input.t → Z) :
  (∀ i m w a w', f i m w = (Return a, w') →
     grows (map (λ m, (team m, member_input.full_name m, 0))
                (kept_from skips i [m])) w w') →
  ∀ members i w l w',
    map_m f i members w = (Return l, w') →
    grows (map (λ m, (team m, member_input.full_name m, 0))
               (kept_from skips i members)) w w'.
Proof.
  intros Hf members. induction members as [|m members IH]; intros i w l w'; simpl.
  { intros [= _ <-]. apply grows_refl. }
  intros (a & w1 & H1 & H)%bind_Return.
  apply bind_Return in H as (l' & w2 & H2 & H). injection H as _ <-.
  apply Hf in H1. apply IH in H2.
  simpl in H1. destruct (skips i m); simpl in *.
  - apply (grows_trans [] _ _ _ _ H1 H2).
  - apply (grows_trans [_] _ _ _ _ H1 H2).
Qed.

Lemma sbc_insert_member_grows req tid i m w a w' :
  sbc_insert_member req tid i m w = (Return a, w') →
  grows (map (λ m, (tid, member_input.full_name m, 0))
             (kept_from (λ _ _, false) i [m])) w w'.
Proof.
  unfold sbc_insert_member. simpl.
  intros (ktm & w1 & H1 & H)%bind_Return. apply path_of_frame in H1 as ->.
  apply bind_Return in H as (asl & w1 & H1 & H). apply path_of_frame in H1 as ->.
  apply bind_Return in H as (photo & w1 & H1 & H). apply path_of_frame in H1 as ->.
  pose proof (insert_member_grows (member_row_nim tid m ktm asl photo 0) w) as Hg.
  rewrite H in Hg. exact Hg.
Qed.

Lemma fcec_insert_member_grows req tid i m w w' :
  fcec_insert_member req tid i m w = (Return tt, w') →
  grows (map (λ m, (tid, member_input.full_name m, 0))
             (kept_from (λ _ _, false) i [m])) w w'.
Proof.
  unfold fcec_insert_member. simpl.
  intros (ktm & w1 & H1 & H)%bind_Return. apply path_of_frame in H1 as ->.
  apply bind_Return in H as (asl & w1 & H1 & H). apply path_of_frame in H1 as ->.
  apply bind_Return in H as (photo & w1 & H1 & H). apply path_of_frame in H1 as ->.
  apply bind_Return in H as (id & w1 & H1 & H). injection H as <-.
  pose proof (insert_member_grows
                (member_row_department tid m ktm asl photo 0) w) as Hg.
  rewrite H1 in Hg. exact Hg.
Qed.

Lemma cleanup_not_created rm req e w1 w2 b :
  bind (remove_uploads rm req) (λ _, error_500 e) w1
  ≠ (Return (Response 201 b), w2).
Proof.
  intros (? & ? & _ & H)%bind_Return. by apply error_500_not_created in H.
Qed.

Lemma sbc_created req w b w' :
  post_teams_sbc_new req w = (Return (Response 201 b), w') →
  created SBC req w w'.
Proof.
  unfold post_teams_sbc_new.
  intros H%try_catch_Return; [|intros; apply cleanup_not_created].
  apply bind_Return in H as (d & w1 & H1 & H).
  apply parse_data_Return in H1 as [Hbody ->].
  apply bind_Return in H as (userId & w1 & H1 & H).
  apply req_user_id_frame in H1 as ->.
  apply bind_Return in H as (payment_proof & w1 & H1 & H). apply path_of_frame in H1 as ->.
  apply bind_Return in H as (voucher & w1 & H1 & H). apply path_of_frame in H1 as ->.
  apply bind_Return in H as (team & w1 & H1 & H).
  apply defined_Return in H1 as [Hteam ->].
  apply bind_Return in H as (user_id & w1 & H1 & H).
  apply replacement_Return in H1 as [_ ->].
  apply bind_Return in H as (teamId & w1 & H1 & H).
  injection H1 as <- <-.
  apply bind_Return in H as (ktm & w1 & H1 & H). apply path_of_frame in H1 as ->.
  apply bind_Return in H as (asl & w1 & H1 & H). apply path_of_frame in H1 as ->.
  apply bind_Return in H as (photo & w1 & H1 & H). apply path_of_frame in H1 as ->.
  apply bind_Return in H as (leader & w1 & H1 & H).
  apply replacement_Return in H1 as [Hleader ->].
  apply bind_Return in H as (createdLeader & w1 & H1 & H).
  injection H1 as <- <-.
  apply bind_Return in H as (createdmembers & w1 & H1 & H).
  apply (map_m_grows _ (λ _ _, false) (λ _, _)
           (sbc_insert_member_grows req _)) in H1.
  destruct H1 as (Ht & He & Hd & rows & Hm & Hk).
  apply bind_Return in H as (dosbimPhoto & w2 & H1 & H). apply path_of_frame in H1 as ->.
  apply bind_Return in H as (dosbim0 & w2 & H1 & H).
  apply replacement_Return in H1 as [_ ->].
  apply bind_Return in H as (createdDosbim & w2 & H1 & H).
  injection H1 as <- <-.
  apply bind_Return in H as (sbc0 & w2 & H1 & H).
  apply replacement_Return in H1 as [_ ->].
  apply bind_Return in H as (createdSbc & w2 & H1 & H).
  injection H1 as <- <-.
  injection H as _ <-.
  simpl in *.
  exists d, team, leader.
  eexists. split_and!; try done; try (by rewrite Ht).
  eexists. split; [simpl; by rewrite Hm, <- app_assoc|].
  simpl. by rewrite Hk.
Qed.

Lemma fcec_created req w b w' :
  post_teams_fcec_new req w = (Return (Response 201 b), w') →
  created FCEC req w w'.
Proof.
  unfold post_teams_fcec_new.
  intros H%try_catch_Return; [|intros; apply cleanup_not_created].
  apply bind_Return in H as (d & w1 & H1 & H).
  apply parse_data_Return in H1 as [Hbody ->].
  apply bind_Return in H as (team & w1 & H1 & H).
  apply defined_Return in H1 as [Hteam ->].
  apply bind_Return in H as (existingTeam & w1 & H1 & H).
  case_bool_decide as Hexists.
  { apply bind_Return in H as (? & ? & _ & H). done. }
  unfold select_team_named, bind, select in H1. simpl in H1.
  injection H1 as _ <-.
  apply bind_Return in H as (abstractFile & w1 & H1 & H). apply path_of_frame in H1 as ->.
  apply bind_Return in H as (originalityStatement & w1 & H1 & H).
  apply path_of_frame in H1 as ->.
  apply bind_Return in H as (payment_proof & w1 & H1 & H).
  apply replacement_Return in H1 as [_ ->].
  apply bind_Return in H as (user_id & w1 & H1 & H).
  apply replacement_Return in H1 as [_ ->].
  apply bind_Return in H as (email & w1 & H1 & H).
  apply replacement_Return in H1 as [_ ->].
  apply bind_Return in H as (teamId & w1 & H1 & H).
  injection H1 as <- <-.
  apply bind_Return in H as (ktm & w1 & H1 & H). apply path_of_frame in H1 as ->.
  apply bind_Return in H as (asl & w1 & H1 & H). apply path_of_frame in H1 as ->.
  apply bind_Return in H as (photo & w1 & H1 & H). apply path_of_frame in H1 as ->.
  apply bind_Return in H as (leader & w1 & H1 & H).
  apply replacement_Return in H1 as [Hleader ->].
  apply bind_Return in H as (leader_id & w1 & H1 & H).
  injection H1 as <- <-.
  apply bind_Return in H as ([] & w1 & H1 & H).
  apply (for_each_grows _ (λ _ _, false) (λ _, _)
           (fcec_insert_member_grows req _)) in H1.
  destruct H1 as (Ht & He & Hd & rows & Hm & Hk).
  apply bind_Return in H as (fcec_id & w2 & H1 & H).
  injection H1 as <- <-.
  injection H as _ <-.
  simpl in *.
  exists d, team, leader.
  eexists. split_and!; try done; try (by rewrite Ht).
  eexists. split; [simpl; by rewrite Hm, <- app_assoc|].
  simpl. by rewrite Hk.
Qed.

Lemma create_created t req w b w' :
  create_of t req w = (Return (Response 201 b), w') → created t req w w'.
Proof.
  destruct t; [apply cic_created|apply sbc_created|apply fcec_created].
Qed.

(** ** List: the views as a function of the store *)

Lemma map_m_pure {A B} (f : nat → A → js B) (g : A → B) (d : database)
    (l : list A) :
  (∀ i x w, db w = d → ∃ w1, f i x w = (Return (g x), w1) ∧ db w1 = d) →
  ∀ i w, db w = d →
    ∃ w', map_m f i l w = (Return (map g l), w') ∧ db w' = d.
Proof.
  intros Hf. induction l as [|x l IH]; intros i w Hw; simpl.
  { by exists w. }
  unfold bind. destruct (Hf i x w Hw) as (w1 & -> & Hw1).
  destruct (IH (S i) w1 Hw1) as (w2 & -> & Hw2).
  by exists w2.
Qed.

Lemma select_members_of_eq teamId w :
  select_members_of teamId w
  = (Return (order_by_is_leader_desc (members_of teamId (db w))),
     logged (SELECT Members) w).
Proof. reflexivity. Qed.

Lemma list_views (t : track) (req : request) (w : world) :
  List.filter (λ r, teams.event_id r =? event_of t) (db_teams (db w)) ≠ [] →
  (t = SBC →
   List.filter (λ e, events.event_id e =? 3) (db_events (db w)) ≠ []) →
  ∃ w',
    list_of t req w
    = (Return (Response 200
                 (Views (map (view_of t (db w))
                             (List.filter (λ r, teams.event_id r =? event_of t)
                                          (db_teams (db w)))))),
       w')
    ∧ db w' = db w.
Proof.
  intros Hteams Hevent. destruct t; simpl in *.
  - unfold get_teams_cic, try_catch, bind at 1, select at 1. simpl.
    rewrite bool_decide_eq_false_2 by done.
    unfold bind at 1.
    match goal with
    | |- context [map_m ?f 0%nat ?l ?w0] =>
        assert (∀ i x w1, db w1 = db w →
                  ∃ w2, f i x w1 = (Return (view_of CIC (db w) x), w2)
                        ∧ db w2 = db w) as Hf;
        [|destruct (map_m_pure f _ (db w) l Hf 0%nat w0 eq_refl)
            as (w' & -> & Hw'); by exists w']
    end.
    intros i team w1 Hw1. unfold bind. rewrite select_members_of_eq.
    unfold view_of. rewrite Hw1.
    case_bool_decide; eexists; (split; [reflexivity|done]).
  - unfold get_teams_sbc, try_catch, bind at 1, select at 1. simpl.
    unfold bind at 1, select at 1. simpl.
    rewrite bool_decide_eq_false_2 by done.
    unfold bind at 1.
    specialize (Hevent eq_refl).
    destruct (List.filter _ (db_events (db w))) as [|e es] eqn:He; [done|].
    match goal with
    | |- context [map_m ?f 0%nat ?l ?w0] =>
        assert (∀ i x w1, db w1 = db w →
                  ∃ w2, f i x w1 = (Return (view_of SBC (db w) x), w2)
                        ∧ db w2 = db w) as Hf;
        [|destruct (map_m_pure f _ (db w) l Hf 0%nat w0 eq_refl)
            as (w' & -> & Hw'); by exists w']
    end.
    intros i team w1 Hw1. unfold bind. rewrite select_members_of_eq.
    unfold select. simpl. unfold view_of, extra_of. rewrite He, Hw1. simpl.
    eexists; (split; [reflexivity|done]).
  - unfold get_teams_fcec, try_catch, bind at 1, select at 1. simpl.
    rewrite bool_decide_eq_false_2 by done.
    unfold bind at 1.
    match goal with
    | |- context [map_m ?f 0%nat ?l ?w0] =>
        assert (∀ i x w1, db w1 = db w →
                  ∃ w2, f i x w1 = (Return (view_of FCEC (db w) x), w2)
                        ∧ db w2 = db w) as Hf;
        [|destruct (map_m_pure f _ (db w) l Hf 0%nat w0 eq_refl)
            as (w' & -> & Hw'); by exists w']
    end.
    intros i team w1 Hw1. unfold bind. rewrite select_members_of_eq.
    unfold select. simpl. unfold view_of, extra_of. rewrite Hw1. simpl.
    eexists; (split; [reflexivity|done]).
Qed.

Lemma filter_all {A} (p : A → bool) (l : list A) :
  Forall (λ x, p x = true) l → List.filter p l = l.
Proof.
  induction 1 as [|x l Hx _ IH]; simpl; [done|]. by rewrite Hx, IH.
Qed.

Lemma filter_none {A} (p : A → bool) (l : list A) :
  Forall (λ x, p x = false) l → List.filter p l = [].
Proof.
  induction 1 as [|x l Hx _ IH]; simpl; [done|]. by rewrite Hx, IH.
Qed.

Lemma get_teams_views (req : request) (w : world) :
  db_teams (db w) ≠ [] →
  ∃ w',
    get_teams req w
    = (Return (Response 200 (Views (map (team_view (db w)) (db_teams (db w))))),
       w')
    ∧ db w' = db w.
Proof.
  intros Hteams.
  unfold get_teams, try_catch, bind at 1, select at 1. simpl.
  rewrite (filter_all (λ _, true)) by by apply Forall_forall.
  rewrite bool_decide_eq_false_2 by done.
  unfold bind at 1.
  match goal with
  | |- context [map_m ?f 0%nat ?l ?w0] =>
      assert (∀ i x w1, db w1 = db w →
                ∃ w2, f i x w1 = (Return (team_view (db w) x), w2)
                      ∧ db w2 = db w) as Hf;
      [|destruct (map_m_pure f _ (db w) l Hf 0%nat w0 eq_refl)
          as (w' & -> & Hw'); by exists w']
  end.
  intros i team w1 Hw1. unfold bind. rewrite select_members_of_eq.
  unfold team_view. rewrite Hw1.
  eexists; (split; [reflexivity|done]).
Qed.

Lemma order_by_zeros (l : list members.row) :
  Forall (λ m, members.is_leader m = 0) l → order_by_is_leader_desc l = l.
Proof.
  induction 1 as [|m l Hm Hl IH]; [done|].
  unfold order_by_is_leader_desc in *. simpl. rewrite IH.
  destruct Hl as [|x l Hx Hl]; simpl; [done|]. by rewrite Hx, Hm.
Qed.

Lemma order_by_leader_first (leader : members.row) (others : list members.row) :
  members.is_leader leader = 1 →
  Forall (λ m, members.is_leader m = 0) others →
  order_by_is_leader_desc (leader :: others) = leader :: others.
Proof.
  intros Hleader Hothers.
  pose proof (order_by_zeros others Hothers) as Hsorted.
  unfold order_by_is_leader_desc in *. simpl. rewrite Hsorted.
  destruct Hothers as [|x l Hx Hl]; simpl; [done|]. by rewrite Hx, Hleader.
Qed.

Lemma split_leader (leader : members.row) (others : list members.row) :
  members.is_leader leader = 1 →
  Forall (λ m, members.is_leader m = 0) others →
  find_leader (leader :: others) = Some leader
  ∧ filter_members (leader :: others) = others.
Proof.
  intros Hleader Hothers. unfold find_leader, filter_members. simpl.
  rewrite Hleader. simpl. split; [done|].
  apply filter_all. eapply Forall_impl; [exact Hothers|].
  by intros m ->.
Qed.

(** ** Create: the requests that are carried through *)

Lemma free_name_select (name : string) (event : Z) (w : world) :
  name ∉ names_of_event event (db w) →
  select_team_named name event w = (Return [], logged (SELECT Teams) w).
Proof.
  intros Hfree. unfold select_team_named, bind, select. cbn.
  rewrite filter_none; [done|].
  apply Forall_forall. intros r Hr.
  case_bool_decide as Hname; [|done]. cbn.
  apply Z.eqb_neq. intros Hevent. apply Hfree.
  unfold names_of_event. apply list_elem_of_fmap. exists r. split; [done|].
  apply list_elem_of_In, filter_In. split; [by apply list_elem_of_In|].
  by apply Z.eqb_eq.
Qed.

Lemma cic_members_run req tid (members : list member_input.t) :
  Forall (λ e, e.2 ≠ []) (files req) →
  ∀ i w, ∃ w', for_each (cic_insert_member req tid) i members w = (Return tt, w').
Proof.
  intros Hfiles. induction members as [|m members IH]; intros i w; cbn [for_each].
  { by eexists. }
  assert (∃ w1, cic_insert_member req tid i m w = (Return tt, w1)) as [w1 E1].
  { unfold cic_insert_member. destruct (_ && _); [by eexists|]. cbv zeta.
    destruct (path_of_runs (member_field (i + 1) "ktm") req w Hfiles) as [o1 E].
    rewrite (bind_run _ _ _ _ _ E). clear E.
    destruct (path_of_runs (member_field (i + 1) "active_student_letter") req w
                Hfiles) as [o2 E].
    rewrite (bind_run _ _ _ _ _ E). clear E.
    destruct (path_of_runs (member_field (i + 1) "photo") req w Hfiles) as [o3 E].
    rewrite (bind_run _ _ _ _ _ E). clear E.
    erewrite bind_run by reflexivity. by eexists. }
  destruct (IH (S i) w1) as [w2 E2].
  rewrite (bind_run _ _ _ _ _ E1). by eexists.
Qed.

Lemma sbc_members_run req tid (members : list member_input.t) :
  Forall (λ e, e.2 ≠ []) (files req) →
  ∀ i w,
    ∃ ids w', map_m (sbc_insert_member req tid) i members w = (Return ids, w')
              ∧ db_dosbim (db w') = db_dosbim (db w)
              ∧ db_sbc (db w') = db_sbc (db w).
Proof.
  intros Hfiles. induction members as [|m members IH]; intros i w; cbn [map_m].
  { by eexists _, _. }
  assert (∃ a w1, sbc_insert_member req tid i m w = (Return a, w1)
                  ∧ db_dosbim (db w1) = db_dosbim (db w)
                  ∧ db_sbc (db w1) = db_sbc (db w)) as (a & w1 & E1 & Hd1 & Hs1).
  { unfold sbc_insert_member.
    destruct (path_of_runs (member_field (i + 1) "ktm") req w Hfiles) as [o1 E1].
    destruct (path_of_runs (member_field (i + 1) "active_student_letter") req w
                Hfiles) as [o2 E2].
    destruct (path_of_runs (member_field (i + 1) "photo") req w Hfiles) as [o3 E3].
    rewrite (bind_run _ _ _ _ _ E1), (bind_run _ _ _ _ _ E2),
      (bind_run _ _ _ _ _ E3).
    by eexists _, _. }
  destruct (IH (S i) w1) as (ids & w2 & E2 & Hd2 & Hs2).
  rewrite (bind_run _ _ _ _ _ E1), (bind_run _ _ _ _ _ E2).
  eexists _, _. split; [reflexivity|]. split; congruence.
Qed.

Lemma fcec_members_run req tid (members : list member_input.t) :
  Forall (λ e, e.2 ≠ []) (files req) →
  ∀ i w, ∃ w', for_each (fcec_insert_member req tid) i members w = (Return tt, w').
Proof.
  intros Hfiles. induction members as [|m members IH]; intros i w; cbn [for_each].
  { by eexists. }
  assert (∃ w1, fcec_insert_member req tid i m w = (Return tt, w1)) as [w1 E1].
  { unfold fcec_insert_member. cbv zeta.
    destruct (path_of_runs (member_field (i + 1) "ktm") req w Hfiles) as [o1 E].
    rewrite (bind_run _ _ _ _ _ E). clear E.
    destruct (path_of_runs (member_field (i + 1) "active_student_letter") req w
                Hfiles) as [o2 E].
    rewrite (bind_run _ _ _ _ _ E). clear E.
    destruct (path_of_runs (member_field (i + 1) "photo") req w Hfiles) as [o3 E].
    rewrite (bind_run _ _ _ _ _ E). clear E.
    erewrite bind_run by reflexivity. by eexists. }
  destruct (IH (S i) w1) as [w2 E2].
  rewrite (bind_run _ _ _ _ _ E1). by eexists.
Qed.

Ltac path_of_step Hfiles :=
  match goal with
  | |- context [bind (path_of ?name ?req) _ ?w0] =>
      let o := fresh "o" in
      let E := fresh "E" in
      destruct (path_of_runs name req w0 Hfiles) as [o E];
      rewrite (bind_run _ _ _ _ _ E); clear E
  end.

Lemma cic_completes req w d teamData leaderData :
  complete CIC req w d teamData leaderData →
  ∃ w', post_teams_cic_new req w
        = (Return (Response 201 (Message "Team and members created successfully")),
           w').
Proof.
  intros (Hbody & Hteam & Hleader & Hfiles & (c & Huser & [uid Huid])
          & [email Hemail] & Hfree).
  unfold post_teams_cic_new, try_catch. rewrite Hbody.
  assert (req_user_id req w = (Return (Some uid), w)) as E
    by (unfold req_user_id; by rewrite Huser, Huid).
  rewrite (bind_run _ _ _ _ _ E). clear E.
  rewrite Hteam, Hleader.
  rewrite (bind_run _ _ _ _ _ (free_name_select _ _ _ Hfree)).
  rewrite bool_decide_eq_false_2 by (by intros H).
  do 2 path_of_step Hfiles.
  erewrite bind_run by reflexivity.
  rewrite Hemail.
  do 3 (erewrite bind_run by reflexivity).
  do 3 path_of_step Hfiles.
  erewrite bind_run by reflexivity.
  match goal with
  | |- context [bind (for_each (cic_insert_member req ?tid) _ _) _ ?w0] =>
      destruct (cic_members_run req tid (data.members d) Hfiles 0%nat w0) as [w' E]
  end.
  rewrite (bind_run _ _ _ _ _ E). by eexists.
Qed.

Lemma sbc_completes req w d teamData leaderData :
  complete SBC req w d teamData leaderData →
  ∃ b w', post_teams_sbc_new req w = (Return (Response 201 b), w').
Proof.
  intros (Hbody & Hteam & Hleader & Hfiles & (c & Huser & [uid Huid])
          & Hdosbim & Hsbc).
  unfold post_teams_sbc_new, try_catch.
  assert (parse_data req w = (Return d, w)) as E
    by (unfold parse_data; by rewrite Hbody).
  rewrite (bind_run _ _ _ _ _ E). clear E.
  assert (req_user_id req w = (Return (Some uid), w)) as E
    by (unfold req_user_id; by rewrite Huser, Huid).
  rewrite (bind_run _ _ _ _ _ E). clear E.
  do 2 path_of_step Hfiles.
  rewrite Hteam.
  do 3 (erewrite bind_run by reflexivity).
  do 3 path_of_step Hfiles.
  rewrite Hleader.
  do 2 (erewrite bind_run by reflexivity).
  match goal with
  | |- context [bind (map_m (sbc_insert_member req ?tid) _ _) _ ?w0] =>
      destruct (sbc_members_run req tid (data.members d) Hfiles 0%nat w0)
        as (ids & w3 & E & _ & _)
  end.
  rewrite (bind_run _ _ _ _ _ E). clear E.
  path_of_step Hfiles.
  destruct (data.dosbim d) as [|dosbim0 ?]; [done|].
  destruct (data.sbc d) as [|sbc0 ?]; [done|].
  cbn [head].
  do 4 (erewrite bind_run by reflexivity).
  by eexists _, _.
Qed.

Lemma fcec_completes req w d teamData leaderData :
  complete FCEC req w d teamData leaderData →
  ∃ w', post_teams_fcec_new req w
        = (Return (Response 201 (Message "Team created successfully")), w').
Proof.
  intros (Hbody & Hteam & Hleader & Hfiles & [payment_proof Hproof] & [uid Huid]
          & [email Hemail] & Hfree).
  unfold post_teams_fcec_new, try_catch.
  assert (parse_data req w = (Return d, w)) as E
    by (unfold parse_data; by rewrite Hbody).
  rewrite (bind_run _ _ _ _ _ E). clear E.
  rewrite Hteam.
  erewrite bind_run by reflexivity.
  rewrite (bind_run _ _ _ _ _ (free_name_select _ _ _ Hfree)).
  rewrite bool_decide_eq_false_2 by (by intros H).
  do 2 path_of_step Hfiles.
  rewrite Hproof, Huid, Hemail.
  do 4 (erewrite bind_run by reflexivity).
  do 3 path_of_step Hfiles.
  rewrite Hleader.
  do 2 (erewrite bind_run by reflexivity).
  match goal with
  | |- context [bind (for_each (fcec_insert_member req ?tid) _ _) _ ?w0] =>
      destruct (fcec_members_run req tid (data.members d) Hfiles 0%nat w0)
        as [w' E]
  end.
  rewrite (bind_run _ _ _ _ _ E). clear E.
  erewrite bind_run by reflexivity.
  by eexists.
Qed.

Lemma create_completes t req w d teamData leaderData :
  complete t req w d teamData leaderData →
  ∃ b w', create_of t req w = (Return (Response 201 b), w').
Proof.
  destruct t; cbn [create_of]; intros H.
  - destruct (cic_completes _ _ _ _ _ H) as [w' E]. by eexists _, _.
  - by apply sbc_completes in H.
  - destruct (fcec_completes _ _ _ _ _ H) as [w' E]. by eexists _, _.
Qed.

(** A complete request: the answer and the rows it adds. *)
Lemma complete_created t req w d teamData leaderData :
  complete t req w d teamData leaderData →
  let id := next_team_id (db w) in
  let run := create_of t req w in
  ∃ b team rows,
    run.1 = Return (Response 201 b)
    ∧ db_teams (db run.2) = db_teams (db w) ++ [team]
    ∧ teams.team_id team = id
    ∧ teams.team_name team = team_input.team_name teamData
    ∧ teams.event_id team = event_of t
    ∧ db_events (db run.2) = db_events (db w)
    ∧ disk run.2 = disk w
    ∧ db_members (db run.2) = db_members (db w) ++ rows
    ∧ map key rows
      = (bound_team t id leaderData, member_input.full_name leaderData, 1)
        :: map (λ m, (bound_team t id m, member_input.full_name m, 0))
               (kept t (data.members d)).
Proof.
  intros Hcomplete id run.
  destruct (create_completes _ _ _ _ _ _ Hcomplete) as (b & w' & E).
  destruct Hcomplete as (Hbody & Hteam & Hleader & _).
  destruct (create_created _ _ _ _ _ E)
    as (d' & teamData' & leaderData' & team & Hbody' & Hteam' & Hleader' & Hteams
        & Hid & Hname & Hevent & Hevents & Hdisk & rows & Hmembers & Hkeys).
  rewrite Hbody in Hbody'. injection Hbody' as <-.
  rewrite Hteam in Hteam'. injection Hteam' as <-.
  rewrite Hleader in Hleader'. injection Hleader' as <-.
  subst run. rewrite E. by exists b, team, rows.
Qed.

(** ** Create then list: the leader *)

Lemma keys_of_rows (team : member_input.t → Z) (rows : list members.row)
    (names : list member_input.t) :
  map key rows = map (λ m, (team m, member_input.full_name m, 0)) names →
  map members.team_id rows = map team names
  ∧ Forall (λ m, members.is_leader m = 0) rows
  ∧ map members.full_name rows = map member_input.full_name names.
Proof.
  revert names. induction rows as [|r rows IH]; intros [|n names]; simpl; try done.
  intros [= Ht Hn Hl Hrest]. destruct (IH names Hrest) as (? & ? & ?).
  split_and!; [by f_equal|by constructor|by f_equal].
Qed.

Lemma members_of_new (d : database) (rows : list members.row) (tid : Z) :
  Forall (λ m, members.team_id m < tid) (db_members d) →
  List.filter (member_of_team tid) (db_members d ++ rows)
  = List.filter (member_of_team tid) rows.
Proof.
  intros Hold. rewrite List.filter_app, (filter_none _ (db_members d)); [done|].
  eapply Forall_impl; [exact Hold|]. intros m Hm. simpl in Hm.
  apply Z.eqb_neq. lia.
Qed.

Lemma teams_of_rows (team : member_input.t → Z) (tid : Z)
    (rows : list members.row) (names : list member_input.t) :
  map members.team_id rows = map team names →
  Forall (λ m, team m = tid) names →
  Forall (λ m, member_of_team tid m = true) rows.
Proof.
  revert names. induction rows as [|r rows IH]; intros [|n names]; simpl; try done.
  intros [= Hr Hrest] [Hn Hnames]%Forall_cons. constructor; [|by eapply IH].
  unfold member_of_team. apply Z.eqb_eq. congruence.
Qed.

Lemma Forall_List_filter {A} (P : A → Prop) (p : A → bool) (l : list A) :
  Forall P l → Forall P (List.filter p l).
Proof.
  induction 1 as [|x l Hx _ IH]; simpl; [done|].
  destruct (p x); [by constructor|done].
Qed.

Lemma leaderless (l : list members.row) :
  Forall (λ m, members.is_leader m = 0) l →
  order_by_is_leader_desc l = l ∧ find_leader l = None ∧ filter_members l = l.
Proof.
  intros Hl. split; [by apply order_by_zeros|]. split.
  - unfold find_leader. induction Hl as [|m l Hm _ IH]; simpl; [done|].
    by rewrite Hm.
  - unfold filter_members. apply filter_all.
    eapply Forall_impl; [exact Hl|]. by intros m ->.
Qed.

(** C5. A create that is carried through answers 201 and adds the team's
    row. When every member object of the payload is bound to the new team
    (on the SBC and FCEC routes always; on the CIC route when no object has
    a [teamId] key naming another team), the member rows of the new team
    are the leader's row, with is_leader = 1 and alone in having it,
    followed by the rows of the kept members, all with is_leader = 0, and
    the track's list and [GET /teams] answer 200 with a view of the team
    whose [leader] is that row and whose [members] are those rows. On the
    CIC route a [teamId] key of the leader object that names another team
    takes the place of the new id: the answer is still 201, the leader's
    row is stored under the named team, no row of the new team has
    is_leader = 1, and both lists show the new team without a leader. The
    store is one whose member rows refer to teams already numbered and, for
    SBC, whose events table has the SBC event, which its list reads. *)
Theorem create_then_list_leader
    (t : track) (req list_req : request) (w : world) (d : data.t)
    (teamData : team_input.t) (leaderData : member_input.t) :
  complete t req w d teamData leaderData →
  consistent (db w) →
  (t = SBC →
   List.filter (λ e, events.event_id e =? 3) (db_events (db w)) ≠ []) →
  let id := next_team_id (db w) in
  let run := create_of t req w in
  let roster := members_of id (db run.2) in
  ∃ b team,
    run.1 = Return (Response 201 b)
    ∧ team ∈ db_teams (db run.2)
    ∧ teams.team_id team = id
    ∧ teams.team_name team = team_input.team_name teamData
    ∧ (Forall (λ m, bound_team t id m = id)
              (leaderData :: kept t (data.members d)) →
       ∃ leader others,
         roster = leader :: others
         ∧ members.is_leader leader = 1
         ∧ members.full_name leader = member_input.full_name leaderData
         ∧ Forall (λ m, members.is_leader m = 0) others
         ∧ map members.full_name others
           = map member_input.full_name (kept t (data.members d))
         ∧ length (List.filter (λ m, members.is_leader m =? 1) roster) = 1%nat
         ∧ (∃ views w'',
              list_of t list_req run.2
              = (Return (Response 200 (Views views)), w'')
              ∧ Full team (Some leader) others (extra_of t (db run.2) team)
                ∈ views)
         ∧ (∃ views w'',
              get_teams list_req run.2
              = (Return (Response 200 (Views views)), w'')
              ∧ Full team (Some leader) others NoExtra ∈ views))
    ∧ (∀ k, t = CIC → member_input.teamId leaderData = Some k → k ≠ id →
       (∃ leader,
          leader ∈ members_of k (db run.2)
          ∧ members.is_leader leader = 1
          ∧ members.full_name leader = member_input.full_name leaderData)
       ∧ Forall (λ m, members.is_leader m = 0) roster
       ∧ (∃ views w'',
            list_of t list_req run.2
            = (Return (Response 200 (Views views)), w'')
            ∧ (if bool_decide (roster = [])
               then Bare (teams.team_name team) (teams.institution_name team)
                         (teams.payment_proof team)
               else Full team None roster NoExtra) ∈ views)
       ∧ (∃ views w'',
            get_teams list_req run.2
            = (Return (Response 200 (Views views)), w'')
            ∧ Full team None roster NoExtra ∈ views)).
Proof.
  intros Hcomplete Hconsistent Hevent id run roster.
  destruct (complete_created _ _ _ _ _ _ Hcomplete)
    as (b & team & rows & Hrun & Hteams & Hid & Hname & Hev & Hevents & _
        & Hmembers & Hkeys).
  fold id in Hid, Hkeys. fold run in Hrun, Hteams, Hevents, Hmembers.
  destruct rows as [|leader others]; [done|].
  injection Hkeys as Hlt Hln Hll Hothers.
  apply keys_of_rows in Hothers as (Hot & Hol & Hon).
  assert (roster = List.filter (member_of_team id) (leader :: others)) as Hroster.
  { unfold roster, members_of. rewrite Hmembers. by apply members_of_new. }
  assert (team ∈ db_teams (db run.2)) as Hteam.
  { rewrite Hteams. apply elem_of_app. right. by apply list_elem_of_singleton. }
  assert (∃ w'',
            list_of t list_req run.2
            = (Return (Response 200
                         (Views (map (view_of t (db run.2))
                                     (List.filter
                                        (λ r, teams.event_id r =? event_of t)
                                        (db_teams (db run.2)))))), w'')
            ∧ view_of t (db run.2) team
              ∈ map (view_of t (db run.2))
                    (List.filter (λ r, teams.event_id r =? event_of t)
                                 (db_teams (db run.2)))) as (wl & Hlist & Hview).
  { destruct (list_views t list_req run.2) as (w'' & Hlist & _).
    - rewrite Hteams, List.filter_app. simpl. rewrite Hev, Z.eqb_refl.
      by destruct (List.filter _ (db_teams (db w))).
    - intros ->. rewrite Hevents. by apply Hevent.
    - exists w''. split; [exact Hlist|].
      apply list_elem_of_fmap. exists team. split; [done|].
      apply list_elem_of_In, filter_In. split; [by apply list_elem_of_In|].
      rewrite Hev. apply Z.eqb_refl. }
  assert (∃ w'',
            get_teams list_req run.2
            = (Return (Response 200
                         (Views (map (team_view (db run.2))
                                     (db_teams (db run.2))))), w'')
            ∧ team_view (db run.2) team
              ∈ map (team_view (db run.2)) (db_teams (db run.2)))
    as (wt & Hall & Hteam_view).
  { destruct (get_teams_views list_req run.2) as (w'' & Hall & _).
    - rewrite Hteams. by destruct (db_teams (db w)).
    - exists w''. split; [exact Hall|].
      apply list_elem_of_fmap. by exists team. }
  unfold view_of in Hview. unfold team_view in Hteam_view.
  rewrite Hid in Hview, Hteam_view. fold roster in Hview, Hteam_view.
  exists b, team. split_and!; try done.
  - (* every object is bound to the new team *)
    intros [Hleader Hkept]%Forall_cons.
    assert (roster = leader :: others) as Hrows.
    { rewrite Hroster. apply filter_all. constructor.
      - unfold member_of_team. apply Z.eqb_eq. congruence.
      - by eapply teams_of_rows. }
    destruct (split_leader leader others Hll Hol) as [Hfind Hfilter].
    rewrite Hrows in Hview, Hteam_view.
    rewrite (order_by_leader_first _ _ Hll Hol), Hfind, Hfilter
      in Hview, Hteam_view.
    exists leader, others. split_and!; try done.
    + rewrite Hrows. simpl. rewrite Hll. simpl.
      rewrite filter_none; [done|].
      eapply Forall_impl; [exact Hol|]. by intros m ->.
    + eexists _, wl. split; [exact Hlist|].
      destruct t; [|done..]. by rewrite bool_decide_eq_false_2 in Hview.
    + by eexists _, wt.
  - (* the leader object names another team *)
    intros k -> Hk Hother.
    assert (members.team_id leader = k) as Hlk.
    { rewrite Hlt. unfold bound_team, cic_teamId. by rewrite Hk. }
    assert (roster = List.filter (member_of_team id) others) as Hrows.
    { rewrite Hroster. simpl. unfold member_of_team at 1.
      rewrite Hlk. by rewrite (proj2 (Z.eqb_neq k id) Hother). }
    assert (Forall (λ m, members.is_leader m = 0) roster) as Hzero.
    { rewrite Hrows. by apply Forall_List_filter. }
    destruct (leaderless roster Hzero) as (Hsorted & Hfind & Hfilter).
    rewrite Hsorted, Hfind, Hfilter in Hview, Hteam_view.
    split_and!; try done.
    + exists leader. split_and!; try done.
      unfold members_of. rewrite Hmembers.
      apply list_elem_of_In, filter_In. split.
      * apply in_app_iff. right. by left.
      * unfold member_of_team. rewrite Hlk. apply Z.eqb_refl.
    + by eexists _, wl.
    + by eexists _, wt.
Qed.

Lemma create_then_list_leader_witness :
  let w := example.world_of example.alpha_db in
  let list_req := example.get (Some "Bearer valid") 0 EmptyBody in
  let req := example.create "Beta" [example.member "M1"; example.member "M2"] [] in
  let leader := member_input.T "Leader" "Civil Engineering" "2023" "0800" "line"
                               "m@example.org" "link" "23/1" (Some 1) in
  let team := team_input.T "Beta" "X University" (Some "t@example.org") None None in
  let d := data.T (Some team) (Some leader)
                  [example.member "M1"; example.member "M2"] [] []
                  (fcec_input.T "Abstract" "video") in
  let moved := Request (Some "Bearer valid") 0 (Multipart (Data d)) [] []
                       (Some (jwt.Claims None (Some 1))) in
  Forall (λ t, ∃ b leader others,
                 (create_of t req w).1 = Return (Response 201 b)
                 ∧ members_of 3 (db (create_of t req w).2) = leader :: others
                 ∧ members.is_leader leader = 1
                 ∧ Forall (λ m, members.is_leader m = 0) others)
         [CIC; SBC; FCEC]
  ∧ (post_teams_cic_new moved w).1
    = Return (Response 201 (Message "Team and members created successfully"))
  ∧ map key (members_of 1 (db (post_teams_cic_new moved w).2)) = [(1, "Leader", 1)]
  ∧ map key (members_of 3 (db (post_teams_cic_new moved w).2))
    = [(3, "M1", 0); (3, "M2", 0)]
  ∧ Forall (λ m, members.is_leader m = 0)
           (members_of 3 (db (post_teams_cic_new moved w).2)).
Proof.
  intros w list_req req leader team d moved.
  assert (∀ t, complete t req w (example.registration "Beta"
                                   [example.member "M1"; example.member "M2"])
                 (team_input.T "Beta" "X University" (Some "t@example.org")
                               (Some "uploads/fcec/p.png") (Some 1))
                 (example.member "Leader")) as Hcomplete.
  { intros t. repeat split; try constructor.
    destruct t; repeat split; try done; eauto; set_solver. }
  assert (consistent (db w)) as Hconsistent by constructor.
  assert (∀ t, t = SBC →
               List.filter (λ e, events.event_id e =? 3) (db_events (db w)) ≠ [])
    as Hevent by (intros t _; by vm_compute).
  split.
  { repeat constructor.
    all: match goal with
         | |- ∃ b leader others, (create_of ?t _ _).1 = _ ∧ _ =>
             destruct (create_then_list_leader t req list_req w _ _ _
                         (Hcomplete t) Hconsistent (Hevent t))
               as (b & row & Hrun & _ & _ & _ & Hbound & _);
             destruct Hbound as (l & others & Hroster & Hleader & _ & Hothers & _);
               [by repeat constructor|];
             by exists b, l, others
         end. }
  destruct (create_then_list_leader CIC moved list_req w d team leader)
    as (b & row & Hrun & _ & _ & _ & _ & Hmoved).
  { repeat split; try constructor; try done; eauto. set_solver. }
  { constructor. }
  { done. }
  destruct (Hmoved 1 eq_refl eq_refl ltac:(done)) as (_ & Hzero & _).
  split; [reflexivity|]. split; [reflexivity|]. split; [reflexivity|].
  exact Hzero.
Defined.

(** ** The CIC member loop *)

(** [s.trim()] removes every leading white space code point: the count of
    bytes bounds the count of code points, so none is left. *)
Lemma without_prefix_shorter (p s r : string) :
  p ≠ "" → without_prefix p s = Some r →
  (String.length r < String.length s)%nat.
Proof.
  intros Hp. destruct p as [|a p]; [done|]. clear Hp.
  revert a s. induction p as [|a' p IH]; intros a [|b s]; simpl; try done.
  - case_bool_decide as Hab; [|done]. intros [= ->]. lia.
  - case_bool_decide as Hab; [|done]. intros Hrest%IH. lia.
Qed.

Lemma without_blank_shorter (blanks : list string) (s r : string) :
  Forall (λ p, p ≠ "") blanks → without_blank blanks s = Some r →
  (String.length r < String.length s)%nat.
Proof.
  unfold without_blank. induction 1 as [|p blanks Hp _ IH]; simpl; [done|].
  destruct (without_prefix p s) as [r'|] eqn:E; simpl; [|done].
  intros [= <-]. by eapply without_prefix_shorter.
Qed.

Lemma without_blanks_left (blanks : list string) :
  Forall (λ p, p ≠ "") blanks →
  ∀ n s, (String.length s ≤ n)%nat →
         without_blank blanks (without_blanks blanks n s) = None.
Proof.
  intros Hblanks n. induction n as [|n IH]; intros s Hs; simpl.
  - destruct (without_blank blanks s) as [r|] eqn:E; [|done].
    apply without_blank_shorter in E; [lia|done].
  - destruct (without_blank blanks s) as [r|] eqn:E; [|done].
    apply IH. apply without_blank_shorter in E; [lia|done].
Qed.

Lemma trimStart_left (s : string) :
  without_blank (map utf8 white_space) (trimStart s) = None.
Proof.
  apply without_blanks_left; [|done]. by repeat constructor.
Qed.

Lemma length_rev_app (s1 s2 : string) :
  String.length (String.rev_app s1 s2)
  = (String.length s1 + String.length s2)%nat.
Proof.
  revert s2. induction s1 as [|a s1 IH]; intros s2; simpl; [done|].
  rewrite IH. simpl. lia.
Qed.

Lemma trimEnd_left (s : string) :
  ∃ r, trimEnd s = String.rev r
       ∧ without_blank (map (String.rev ∘ utf8) white_space) r = None.
Proof.
  eexists. split; [reflexivity|].
  apply without_blanks_left; [by repeat constructor|].
  unfold String.rev. rewrite length_rev_app. simpl. lia.
Qed.

(** Every white space code point alone, among them the no-break space
    U+00A0 and the ideographic space U+3000, is a blank name. *)
Lemma trim_white_space :
  Forall (λ c, trim (utf8 c) = "") white_space.
Proof. by repeat constructor. Qed.

(** C8, as stated, fails: with one leader and two members of which the
    second is blank, the CIC create answers 201 and stores three member
    rows, the blank member's row among them; the blank member is not
    skipped. *)
Lemma cic_blank_second_member_is_stored :
  let req := example.create "Beta" [example.member "M1"; example.member " "] [] in
  let w := example.world_of example.alpha_db in
  let w' := (post_teams_cic_new req w).2 in
  (post_teams_cic_new req w).1
  = Return (Response 201 (Message "Team and members created successfully"))
  ∧ map key (members_of 3 (db w')) = [(3, "Leader", 1); (3, "M1", 0); (3, " ", 0)]
  ∧ ¬ Forall (λ m, trim (members.full_name m) ≠ "") (members_of 3 (db w')).
Proof.
  split; [reflexivity|]. split; [reflexivity|].
  intros H. vm_compute in H.
  apply Forall_cons in H as [_ H]. apply Forall_cons in H as [_ H].
  apply Forall_cons in H as [H _]. by apply H.
Qed.

(** C8, amended. After the CIC create answered 201, the member rows it
    added are the leader's, with is_leader = 1 and alone in having it,
    followed by one row with is_leader = 0 for each member of the payload
    except a member at index 2 whose name is blank, that is, empty once
    [trim] has removed the white space around it: one leader and two
    members give exactly three rows whatever the names, one leader and
    three members give three rows when the third name is blank and four
    otherwise. A row is stored under the team its object is bound to. *)
Theorem cic_create_skips_blank_third_member
    (req : request) (w w' : world) (b : json) :
  post_teams_cic_new req w = (Return (Response 201 b), w') →
  let id := next_team_id (db w) in
  let shown (r : members.row) := (members.full_name r, members.is_leader r) in
  ∃ d leaderData rows,
    body req = Multipart (Data d)
    ∧ data.leader d = Some leaderData
    ∧ db_members (db w') = db_members (db w) ++ rows
    ∧ map key rows
      = (cic_teamId id leaderData, member_input.full_name leaderData, 1)
        :: map (λ m, (cic_teamId id m, member_input.full_name m, 0))
               (kept_from cic_skips 0 (data.members d))
    ∧ length (List.filter (λ m, members.is_leader m =? 1) rows) = 1%nat
    ∧ (∀ m1 m2, data.members d = [m1; m2] →
         map shown rows
         = [ (member_input.full_name leaderData, 1);
             (member_input.full_name m1, 0);
             (member_input.full_name m2, 0) ])
    ∧ (∀ m1 m2 m3, data.members d = [m1; m2; m3] →
         trim (member_input.full_name m3) = "" →
         map shown rows
         = [ (member_input.full_name leaderData, 1);
             (member_input.full_name m1, 0);
             (member_input.full_name m2, 0) ])
    ∧ (∀ m1 m2 m3, data.members d = [m1; m2; m3] →
         trim (member_input.full_name m3) ≠ "" →
         length rows = 4%nat).
Proof.
  intros Hcreate id shown.
  apply cic_created in Hcreate
    as (d & teamData & leaderData & team & Hbody & _ & Hleader & _ & _ & _ & _ & _
        & _ & rows & Hmembers & Hkeys).
  fold id in Hkeys. cbn [bound_team] in Hkeys.
  assert (map shown rows = map (λ k, (k.1.2, k.2)) (map key rows)) as Hshown
    by by rewrite map_map.
  exists d, leaderData, rows. split_and!; try done.
  - destruct rows as [|leader others]; [done|].
    injection Hkeys as _ _ Hll Hothers.
    apply keys_of_rows in Hothers as (_ & Hol & _).
    simpl. rewrite Hll. simpl. rewrite filter_none; [done|].
    eapply Forall_impl; [exact Hol|]. by intros m ->.
  - intros m1 m2 Hm. by rewrite Hshown, Hkeys, Hm.
  - intros m1 m2 m3 Hm Hblank. rewrite Hshown, Hkeys, Hm.
    unfold kept, skips_of. cbn [kept_from]. unfold cic_skips.
    by rewrite (bool_decide_eq_true_2 _ Hblank).
  - intros m1 m2 m3 Hm Hname.
    rewrite <- (length_map key), Hkeys, Hm.
    unfold kept, skips_of. cbn [kept_from]. unfold cic_skips.
    by rewrite (bool_decide_eq_false_2 _ Hname).
Qed.

Lemma cic_create_skips_blank_third_member_witness :
  let blank := utf8 0xA0 +:+ " " +:+ utf8 0x3000 in
  let req := example.create "Beta"
               [example.member "M1"; example.member "M2"; example.member blank] [] in
  let w := example.world_of example.alpha_db in
  let w' := (post_teams_cic_new req w).2 in
  (post_teams_cic_new req w).1
  = Return (Response 201 (Message "Team and members created successfully"))
  ∧ trim blank = ""
  ∧ map key (db_members (db w')) = [(3, "Leader", 1); (3, "M1", 0); (3, "M2", 0)].
Proof.
  intros blank req w w'.
  split; [reflexivity|]. split; [reflexivity|].
  destruct (cic_create_skips_blank_third_member req w w'
              (Message "Team and members created successfully") eq_refl)
    as (d & leaderData & rows & Hbody & Hleader & Hmembers & Hkeys & _).
  injection Hbody as <-. injection Hleader as <-.
  rewrite Hmembers. exact Hkeys.
Defined.


(** ** Duplicate team names *)

(** C2, at the track the claim does not hold for. The SBC create never looks
    for a team of the same name: on a store where "Alpha" is registered for
    SBC (event 3) it answers 201, inserts a second "Alpha" with a leader, a
    member, an advisor and a bridge row, and the uploaded file stays on disk;
    the CIC create on the same store answers 400 TEAM_NAME_EXISTS, removes
    the file and inserts nothing. *)
Theorem sbc_create_accepts_duplicate_name :
  let proof := File "payment_proof" "proof.png" "image/png"
                    "payment_proof-1700000000000-42.png"
                    "uploads/sbc/payment_proof-1700000000000-42.png" in
  let req := example.create "Alpha" [example.member "M1"]
                            [("payment_proof", [proof])] in
  let w := World example.alpha_db [] {[ path proof ]} 1700000000000 in
  let sbc := post_teams_sbc_new req w in
  let cic := post_teams_cic_new req w in
  (select_team_named "Alpha" 3 w).1 = Return [2]
  ∧ sbc.1 = Return (Response 201
                      (SbcCreated "Team created successfully" 3 1 [2] 1 1))
  ∧ map teams.team_name
        (List.filter (λ t, teams.event_id t =? 3) (db_teams (db sbc.2)))
    = ["Alpha"; "Alpha"]
  ∧ (length (db_members (db sbc.2)), length (db_dosbim (db sbc.2)),
     length (db_sbc (db sbc.2))) = (2%nat, 1%nat, 1%nat)
  ∧ elements (disk sbc.2) = [path proof]
  ∧ cic.1 = Return (Response 400 (MessageError "Team name already exists"
                                               "TEAM_NAME_EXISTS"))
  ∧ db cic.2 = db w
  ∧ elements (disk cic.2) = [].
Proof. vm_compute. done. Qed.

(** ** Duplicate team names on the routes that look for them *)

Lemma with_disk_twice (f g : gset string → gset string) (w : world) :
  with_disk g (with_disk f w) = with_disk (λ d, g (f d)) w.
Proof. reflexivity. Qed.

Lemma with_disk_ext (f g : gset string → gset string) (w : world) :
  f (disk w) = g (disk w) → with_disk f w = with_disk g w.
Proof. unfold with_disk. by intros ->. Qed.

Lemma unlink_files (fs : list file) :
  ∀ i w,
    NoDup (path <$> fs) →
    Forall (λ p, p ∈ disk w) (path <$> fs) →
    for_each (λ _ f, unlinkSync (path f)) i fs w
    = (Return tt, with_disk (λ d, d ∖ list_to_set (path <$> fs)) w).
Proof.
  induction fs as [|f fs IH]; intros i w Hnodup Hdisk.
  { unfold for_each, ret. f_equal. destruct w. unfold with_disk. cbn.
    f_equal. set_solver. }
  rewrite fmap_cons in Hnodup, Hdisk.
  apply NoDup_cons in Hnodup as [Hf Hnodup].
  apply Forall_cons in Hdisk as [Hp Hdisk].
  cbn [for_each]. unfold bind, unlinkSync at 1.
  rewrite bool_decide_eq_true_2 by done.
  rewrite IH; [|done|].
  - f_equal. rewrite with_disk_twice. apply with_disk_ext.
    rewrite fmap_cons, list_to_set_cons. set_solver.
  - apply Forall_forall. intros p Hin. cbn.
    rewrite Forall_forall in Hdisk. specialize (Hdisk p Hin). set_solver.
Qed.

Lemma paths_of_cons (name : string) (fs : list file)
    (entries : list (string * list file)) :
  paths_of ((name, fs) :: entries) = (path <$> fs) ++ paths_of entries.
Proof. reflexivity. Qed.

Lemma unlink_uploads (entries : list (string * list file)) :
  ∀ i w,
    NoDup (paths_of entries) →
    Forall (λ p, p ∈ disk w) (paths_of entries) →
    for_each (λ _ fileArray,
                for_each (λ _ f, unlinkSync (path f)) 0%nat (fileArray.2))
             i entries w
    = (Return tt, with_disk (λ d, d ∖ list_to_set (paths_of entries)) w).
Proof.
  induction entries as [|[name fs] entries IH]; intros i w Hnodup Hdisk.
  { unfold for_each, ret. f_equal. destruct w. unfold with_disk. cbn.
    f_equal. set_solver. }
  rewrite paths_of_cons in Hnodup, Hdisk.
  apply NoDup_app in Hnodup as (Hfs & Hdisjoint & Hnodup).
  apply Forall_app in Hdisk as [Hfs_disk Hdisk].
  cbn [for_each]. unfold bind. cbn [snd].
  rewrite unlink_files by done.
  rewrite IH; [|done|].
  - f_equal. rewrite with_disk_twice. apply with_disk_ext.
    rewrite paths_of_cons, list_to_set_app_L. set_solver.
  - apply Forall_forall. intros p Hin. cbn.
    rewrite Forall_forall in Hdisk. specialize (Hdisk p Hin).
    apply elem_of_difference. split; [done|].
    rewrite elem_of_list_to_set. intros Hp. by apply (Hdisjoint p).
Qed.

Lemma remove_uploads_sync (req : request) (w : world) :
  NoDup (paths_of (files req)) →
  Forall (λ p, p ∈ disk w) (paths_of (files req)) →
  remove_uploads unlinkSync req w
  = (Return tt, with_disk (λ d, d ∖ list_to_set (paths_of (files req))) w).
Proof. apply unlink_uploads. Qed.

(** The CIC create on a team name its event already has. *)
Lemma cic_conflict (req : request) (w : world) (d : data.t)
    (teamData : team_input.t) (leaderData : member_input.t) (c : jwt.claims) :
  body req = Multipart (Data d) →
  user req = Some c →
  data.team d = Some teamData →
  data.leader d = Some leaderData →
  List.filter (λ t, bool_decide (teams.team_name t = team_input.team_name teamData)
                    && (teams.event_id t =? 4)) (db_teams (db w)) ≠ [] →
  NoDup (paths_of (files req)) →
  Forall (λ p, p ∈ disk w) (paths_of (files req)) →
  post_teams_cic_new req w
  = (Return (Response 400 (MessageError "Team name already exists"
                                        "TEAM_NAME_EXISTS")),
     with_disk (λ d, d ∖ list_to_set (paths_of (files req)))
               (logged (SELECT Teams) w)).
Proof.
  intros Hbody Huser Hteam Hleader Hexists Hnodup Hdisk.
  unfold post_teams_cic_new, try_catch. rewrite Hbody.
  unfold bind at 1, req_user_id. rewrite Huser. cbn [ret].
  rewrite Hteam, Hleader.
  unfold bind at 1, select_team_named, bind at 1, select. cbn [ret].
  rewrite bool_decide_eq_true_2; [|by intros H%fmap_nil_inv].
  unfold bind. by rewrite remove_uploads_sync.
Qed.

(** The FCEC create on a team name its event already has. *)
Lemma fcec_conflict (req : request) (w : world) (d : data.t)
    (teamData : team_input.t) :
  body req = Multipart (Data d) →
  data.team d = Some teamData →
  List.filter (λ t, bool_decide (teams.team_name t = team_input.team_name teamData)
                    && (teams.event_id t =? 1)) (db_teams (db w)) ≠ [] →
  NoDup (paths_of (files req)) →
  Forall (λ p, p ∈ disk w) (paths_of (files req)) →
  post_teams_fcec_new req w
  = (Return (Response 400 (MessageError "Team name already exists"
                                        "TEAM_NAME_EXISTS")),
     with_disk (λ d, d ∖ list_to_set (paths_of (files req)))
               (logged (SELECT Teams) w)).
Proof.
  intros Hbody Hteam Hexists Hnodup Hdisk.
  unfold post_teams_fcec_new, try_catch.
  unfold bind at 1, parse_data. rewrite Hbody. cbn [ret].
  unfold bind at 1, defined. rewrite Hteam. cbn [ret].
  unfold bind at 1, select_team_named, bind at 1, select. cbn [ret].
  rewrite bool_decide_eq_true_2; [|by intros H%fmap_nil_inv].
  unfold bind. by rewrite remove_uploads_sync.
Qed.

(** What multer leaves when it accepts every part: the stored files in
    [req.files], and their paths added to the directory. *)
Lemma store_parts_accepted (cfg : upload_config) (ps : list part) :
  ∀ seen d fs d',
    store_parts cfg ps seen d = (Some fs, d') →
    paths_of fs = paths_of seen ++ (path ∘ stored cfg <$> ps)
    ∧ d' = list_to_set (path ∘ stored cfg <$> ps) ∪ d.
Proof.
  induction ps as [|p ps IH]; intros seen d fs d'; cbn [store_parts].
  { intros [= <- <-]. rewrite app_nil_r. split; [done|]. set_solver. }
  destruct (accepted cfg seen p); [|done].
  intros [Hpaths ->]%IH. split.
  - rewrite Hpaths. unfold paths_of. rewrite fmap_app, bind_app.
    rewrite <- app_assoc. f_equal.
  - rewrite fmap_cons, list_to_set_cons. set_solver.
Qed.

(** X21. On the CIC and FCEC routes, a create whose team name the event
    already has, run behind multer on parts that multer accepts and stores
    under fresh, distinct paths, answers 400 TEAM_NAME_EXISTS and leaves the
    store and the upload directory as the request found them. *)
Theorem duplicate_name_rolls_back (extname : string → string) (t : track)
    (req : request) (w : world) (d : data.t) (teamData : team_input.t) :
  let cfg := match t with
             | CIC => cic_upload extname
             | SBC => sbc_upload extname
             | FCEC => fcec_upload extname
             end in
  let paths := path ∘ stored cfg <$> parts req in
  t ≠ SBC →
  body req = Multipart (Data d) →
  data.team d = Some teamData →
  (t = CIC → is_Some (user req) ∧ is_Some (data.leader d)) →
  List.filter (λ r, bool_decide (teams.team_name r = team_input.team_name teamData)
                    && (teams.event_id r =? event_of t)) (db_teams (db w)) ≠ [] →
  is_Some (store_parts cfg (parts req) [] (disk w)).1 →
  NoDup paths →
  Forall (λ p, p ∉ disk w) paths →
  let served := dispatch [upload cfg] (create_of t) req w in
  answer served
  = Some (Response 400 (MessageError "Team name already exists" "TEAM_NAME_EXISTS"))
  ∧ handler_ran served = true
  ∧ db (after served) = db w
  ∧ disk (after served) = disk w
  ∧ size (disk (after served)) = size (disk w).
Proof.
  intros cfg paths Ht Hbody Hteam Hcic Hexists Haccepted Hnodup Hfresh served.
  assert (∃ fs, store_parts cfg (parts req) [] (disk w)
                = (Some fs, list_to_set paths ∪ disk w)
                ∧ paths_of fs = paths) as (fs & Hstore & Hpaths).
  { destruct (store_parts cfg (parts req) [] (disk w)) as [[fs|] d'] eqn:E;
      [|by destruct Haccepted].
    apply store_parts_accepted in E as [Hp ->]. by exists fs. }
  assert (served
          = Served (Some (Response 400 (MessageError "Team name already exists"
                                                     "TEAM_NAME_EXISTS")))
                   (with_disk (λ d, d ∖ list_to_set paths)
                      (logged (SELECT Teams)
                         (with_disk (λ _, list_to_set paths ∪ disk w) w)))
                   true) as ->.
  { subst served. unfold dispatch, upload. rewrite Hstore. cbv beta iota.
    set (w1 := with_disk (λ _, list_to_set paths ∪ disk w) w).
    assert (NoDup (paths_of fs)) as Hnodup' by by rewrite Hpaths.
    assert (Forall (λ p, p ∈ disk w1) (paths_of fs)) as Hdisk'.
    { rewrite Hpaths. apply Forall_forall. intros p Hp. cbn. set_solver. }
    destruct t; [|done|]; cbn [create_of].
    - destruct (Hcic eq_refl) as [[c Hc] [leaderData Hl]].
      rewrite (cic_conflict (set_files fs req) w1 d teamData leaderData c
                 Hbody Hc Hteam Hl Hexists Hnodup' Hdisk').
      change (files (set_files fs req)) with fs. by rewrite Hpaths.
    - rewrite (fcec_conflict (set_files fs req) w1 d teamData
                 Hbody Hteam Hexists Hnodup' Hdisk').
      change (files (set_files fs req)) with fs. by rewrite Hpaths. }
  cbn.
  assert ((list_to_set paths ∪ disk w) ∖ list_to_set paths = disk w) as ->.
  { rewrite Forall_forall in Hfresh. apply set_eq. intros p.
    rewrite elem_of_difference, elem_of_union, elem_of_list_to_set.
    specialize (Hfresh p). naive_solver. }
  done.
Qed.

Example duplicate_name_rolls_back_cic :
  let req := Request (Some "Bearer valid") 0
               (Multipart (Data (example.registration "Alpha" [example.member "M1"])))
               [Part "payment_proof" "proof.png" "image/png" 1700000000000 42;
                Part "leader_ktm" "ktm.pdf" "application/pdf" 1700000000001 7]
               [] (Some (jwt.Claims None (Some 1))) in
  let w := World example.alpha_db [] {[ "uploads/cic/old.png" ]} 1700000000000 in
  let served := dispatch [upload (cic_upload (λ _, ".png"))] post_teams_cic_new req w in
  answer served
  = Some (Response 400 (MessageError "Team name already exists" "TEAM_NAME_EXISTS"))
  ∧ handler_ran served = true
  ∧ db (after served) = db w
  ∧ disk (after served) = disk w
  ∧ size (disk (after served)) = size (disk w).
Proof.
  apply (duplicate_name_rolls_back (λ _, ".png") CIC _ _
           (example.registration "Alpha" [example.member "M1"])
           (team_input.T "Alpha" "X University" (Some "t@example.org")
                         (Some "uploads/fcec/p.png") (Some 1))).
  - done.
  - reflexivity.
  - reflexivity.
  - intros _. split; eexists; reflexivity.
  - by vm_compute.
  - vm_compute. eexists. reflexivity.
  - vm_compute. apply (bool_decide_unpack _). by vm_compute.
  - vm_compute. apply (bool_decide_unpack _). by vm_compute.
Defined.

(** ** Verify and reject: the rest of the store *)

(** X22. Neither verify nor reject changes another column of the teams
    table (the id, the name, the institution, the payment proof, the event,
    the user, the e-mail and the voucher of every team row stay, and no team
    row is added or removed), a row of another table (members, dosbim, sbc,
    fcec, events, users), or the upload directory, whatever the request and
    whatever the answer. *)
Lemma verify_reject_frame (req : request) (w : world) :
  let unflagged (t : teams.row) :=
    (teams.team_id t, teams.team_name t, teams.institution_name t,
     teams.payment_proof t, teams.event_id t, teams.user_id t, teams.email t,
     teams.voucher t) in
  let framed (w' : world) :=
    map unflagged (db_teams (db w')) = map unflagged (db_teams (db w))
    ∧ db_members (db w') = db_members (db w)
    ∧ db_dosbim (db w') = db_dosbim (db w)
    ∧ db_sbc (db w') = db_sbc (db w)
    ∧ db_fcec (db w') = db_fcec (db w)
    ∧ db_events (db w') = db_events (db w)
    ∧ db_users (db w') = db_users (db w)
    ∧ disk w' = disk w in
  framed (put_teams_verify req w).2 ∧ framed (put_teams_reject req w).2.
Proof.
  cbv zeta. split.
  - unfold put_teams_verify, try_catch, bind, select. simpl.
    case_bool_decide; simpl; [done|].
    split_and!; try done.
    rewrite map_map. apply map_ext. intros t. by destruct (_ =? _).
  - unfold put_teams_reject, try_catch, bind.
    destruct (body req); simpl; try done.
    split_and!; try done.
    rewrite map_map. apply map_ext. intros t. by destruct (_ =? _).
Qed.

(** * Properties of the other routes *)

(** ** Get by id *)

Lemma by_id_missing (t : track) (req : request) (w : world) :
  team_of_event (params_id req) (event_of t) (db w) = [] →
  by_id_of t req w
  = (Return (Reply 404 (inl (Message "No team found for this id and event"))),
     logged (SELECT Teams) w).
Proof.
  unfold team_of_event. intros Hteam.
  destruct t; cbn [by_id_of event_of] in *;
    unfold get_teams_cic_id, get_teams_sbc_id, get_teams_fcec_id, try_catch,
      select_team_of_event, bind, select; cbn [db logged];
    by rewrite Hteam.
Qed.

Lemma by_id_memberless (req : request) (w : world) :
  team_of_event (params_id req) 4 (db w) ≠ [] →
  members_of (params_id req) (db w) = [] →
  get_teams_cic_id req w
  = (Return (Reply 404 (inl (Message "No members found for this team"))),
     logged (SELECT Members) (logged (SELECT Teams) w)).
Proof.
  unfold team_of_event. intros Hteam Hroster.
  unfold get_teams_cic_id, try_catch, select_team_of_event, bind at 1, select.
  cbn [db logged]. rewrite bool_decide_eq_false_2 by done.
  unfold bind. rewrite select_members_of_eq. cbn [db logged].
  by rewrite Hroster.
Qed.

Lemma by_id_found (t : track) (req : request) (w : world) :
  let id := params_id req in
  let roster := order_by_is_leader_desc (members_of id (db w)) in
  team_of_event id (event_of t) (db w) ≠ [] →
  (t = CIC → roster ≠ []) →
  ∃ w',
    by_id_of t req w
    = (Return (Reply 200 (inr (Detail (team_of_event id (event_of t) (db w))
                                      (find_leader roster)
                                      (filter_members roster)
                                      (detail_extra_of t id (db w))))),
       w')
    ∧ db w' = db w ∧ disk w' = disk w.
Proof.
  cbv zeta. unfold team_of_event. intros Hteam Hroster.
  destruct t; cbn [by_id_of event_of detail_extra_of] in *;
    unfold get_teams_cic_id, get_teams_sbc_id, get_teams_fcec_id, try_catch,
      select_team_of_event, bind at 1, select at 1; cbn [db logged];
    rewrite bool_decide_eq_false_2 by done;
    unfold bind; rewrite select_members_of_eq; unfold select; cbn [db logged].
  - rewrite bool_decide_eq_false_2 by auto. by eexists.
  - by eexists.
  - by eexists.
Qed.

Lemma order_by_nil (l : list members.row) :
  order_by_is_leader_desc l = [] → l = [].
Proof.
  destruct l as [|m l]; [done|].
  unfold order_by_is_leader_desc. simpl.
  by destruct (foldr insert_by_is_leader [] l) as [|x l']; simpl;
    [|destruct (_ <=? _)].
Qed.

(** X1. A get by id reads only: whatever the request, the store and the
    upload directory are as before. It answers 404 "No team found for this
    id and event" unless a team row has the id and the track's event, so a
    team of another track is not shown; for CIC a team without member rows
    is answered 404 "No members found for this team", while SBC and FCEC
    answer 200 with no leader; otherwise the answer is 200 with the team
    rows, the first member row with is_leader = 1 as leader, the rows with
    is_leader = 0 as members, and the track's own rows of that team id. *)
Theorem get_by_id_checks_the_event (t : track) (req : request) (w : world) :
  let id := params_id req in
  let team := team_of_event id (event_of t) (db w) in
  let roster := order_by_is_leader_desc (members_of id (db w)) in
  let run := by_id_of t req w in
  db run.2 = db w
  ∧ disk run.2 = disk w
  ∧ (team = [] →
     run.1 = Return (Reply 404 (inl (Message "No team found for this id and event"))))
  ∧ (team ≠ [] → t = CIC → roster = [] →
     run.1 = Return (Reply 404 (inl (Message "No members found for this team"))))
  ∧ (team ≠ [] → (t = CIC → roster ≠ []) →
     run.1 = Return (Reply 200 (inr (Detail team (find_leader roster)
                                           (filter_members roster)
                                           (detail_extra_of t id (db w)))))).
Proof.
  intros id team roster run. subst run.
  destruct (decide (team = [])) as [Hteam|Hteam].
  { rewrite (by_id_missing t req w Hteam). split_and!; done. }
  destruct (decide (roster = [])) as [Hroster|Hroster].
  - destruct t.
    + cbn [by_id_of]. rewrite (by_id_memberless req w Hteam (order_by_nil _ Hroster)).
      split_and!; try done. intros _ H. by destruct (H eq_refl).
    + destruct (by_id_found SBC req w Hteam) as (w' & -> & Hdb & Hdisk); [done|].
      split_and!; done.
    + destruct (by_id_found FCEC req w Hteam) as (w' & -> & Hdb & Hdisk); [done|].
      split_and!; done.
  - destruct (by_id_found t req w Hteam) as (w' & -> & Hdb & Hdisk); [done|].
    split_and!; done.
Qed.

Lemma get_by_id_checks_the_event_witness :
  let w := example.world_of example.alpha_db in
  (by_id_of SBC (example.get None 1 EmptyBody) w).1
  = Return (Reply 404 (inl (Message "No team found for this id and event")))
  ∧ (by_id_of CIC (example.get None 1 EmptyBody) w).1
    = Return (Reply 404 (inl (Message "No members found for this team")))
  ∧ (by_id_of SBC (example.get None 2 EmptyBody) w).1
    = Return (Reply 200 (inr (Detail [example.team_row 2 "Alpha" 3] None []
                                     (SbcDetail [] [])))).
Proof.
  split; [|split].
  - apply (get_by_id_checks_the_event SBC (example.get None 1 EmptyBody)
             (example.world_of example.alpha_db)).
    reflexivity.
  - apply (get_by_id_checks_the_event CIC (example.get None 1 EmptyBody)
             (example.world_of example.alpha_db)); done.
  - apply (get_by_id_checks_the_event SBC (example.get None 2 EmptyBody)
             (example.world_of example.alpha_db)); done.
Defined.

(** ** Delete: what it leaves *)

(** X2. A track's delete removes from the teams and members tables, and from
    the track's own tables, the rows of the route's team id and no other
    row; it does not look at the team's event, so the tables of another
    track keep their rows of that team; the events and users tables and
    the upload directory (the team's files included) are as before. It
    answers 200 whether or not a team had the id. *)
Theorem delete_leaves_the_rest (t : track) (req : request) (w : world) :
  let id := params_id req in
  let run := delete_of t req w in
  let d := db w in
  let d' := db run.2 in
  let own (tbl : table) := bool_decide (tbl ∈ track_tables t) in
  (∃ message, run.1 = Return (Response 200 (Message message)))
  ∧ db_teams d' = others teams.team_id id (db_teams d)
  ∧ db_members d' = others members.team_id id (db_members d)
  ∧ db_dosbim d'
    = (if own Dosbim then others dosbim.team_id id (db_dosbim d) else db_dosbim d)
  ∧ db_sbc d' = (if own Sbc then others sbc.team_id id (db_sbc d) else db_sbc d)
  ∧ db_fcec d'
    = (if own Fcec then others fcec.team_id id (db_fcec d) else db_fcec d)
  ∧ db_events d' = db_events d
  ∧ db_users d' = db_users d
  ∧ disk run.2 = disk w.
Proof.
  cbv zeta. destruct t; cbn; split_and!; eauto.
Qed.

Lemma delete_removes_team (t : track) (req : request) (w : world) :
  db_teams (db (delete_of t req w).2)
  = others teams.team_id (params_id req) (db_teams (db w)).
Proof. by destruct t. Qed.

Lemma others_not_found (teamId eventId : Z) (l : list teams.row) :
  List.filter (λ t, (teams.team_id t =? teamId) && (teams.event_id t =? eventId))
              (others teams.team_id teamId l) = [].
Proof.
  unfold others. induction l as [|x l IH]; simpl; [done|].
  destruct (teams.team_id x =? teamId) eqn:Hx; simpl; [done|].
  by rewrite Hx.
Qed.

(** X3. Delete, then get by id: after any track's delete of a team id, the
    get by id of every track answers 404 "No team found for this id and
    event" for that id. *)
Theorem deleted_team_is_not_found (t t' : track) (req req' : request) (w : world) :
  params_id req' = params_id req →
  (by_id_of t' req' (delete_of t req w).2).1
  = Return (Reply 404 (inl (Message "No team found for this id and event"))).
Proof.
  intros Hid. rewrite by_id_missing; [done|].
  unfold team_of_event. rewrite delete_removes_team, Hid.
  apply others_not_found.
Qed.

Lemma deleted_team_is_not_found_witness :
  let w := example.world_of example.alpha_db in
  (by_id_of SBC (example.get None 2 EmptyBody) w).1
  = Return (Reply 200 (inr (Detail [example.team_row 2 "Alpha" 3] None []
                                   (SbcDetail [] []))))
  ∧ (by_id_of SBC (example.get None 2 EmptyBody)
       (delete_of CIC (example.get None 2 EmptyBody) w).2).1
    = Return (Reply 404 (inl (Message "No team found for this id and event"))).
Proof.
  split; [reflexivity|].
  apply (deleted_team_is_not_found CIC SBC (example.get None 2 EmptyBody)
           (example.get None 2 EmptyBody) (example.world_of example.alpha_db)).
  reflexivity.
Defined.

(** ** Create, then get by id *)

Lemma team_of_event_created (d : database) (team : teams.row) (event : Z) :
  Forall (λ r, teams.team_id r < teams.team_id team) (db_teams d) →
  List.filter (λ r, (teams.team_id r =? teams.team_id team)
                    && (teams.event_id r =? event))
              (db_teams d ++ [team])
  = if teams.event_id team =? event then [team] else [].
Proof.
  intros Hold. rewrite List.filter_app. simpl. rewrite Z.eqb_refl. simpl.
  rewrite filter_none; [by destruct (_ =? _)|].
  eapply Forall_impl; [exact Hold|]. intros r Hr. simpl in Hr.
  apply andb_false_intro1, Z.eqb_neq. lia.
Qed.

(** X4. Create, then get by id. A create that is carried through, on a
    store whose team and member rows carry team ids below the counter and
    with every member object of the payload bound to the new team (on the
    CIC route: none has a [teamId] key naming another team), answers 201;
    the track's get by id of the new id then answers 200 with the one new
    team row (named as the payload names it), as leader the row of the
    payload's leader and as members the rows of the payload's kept members;
    the get by id of the two other tracks answers 404 for that id. *)
Theorem created_team_is_found
    (t : track) (req get_req : request) (w : world) (d : data.t)
    (teamData : team_input.t) (leaderData : member_input.t) :
  let id := next_team_id (db w) in
  let run := create_of t req w in
  complete t req w d teamData leaderData →
  consistent (db w) →
  Forall (λ r, teams.team_id r < id) (db_teams (db w)) →
  Forall (λ m, bound_team t id m = id) (leaderData :: kept t (data.members d)) →
  params_id get_req = id →
  ∃ b team leader others,
    run.1 = Return (Response 201 b)
    ∧ teams.team_id team = id
    ∧ teams.team_name team = team_input.team_name teamData
    ∧ teams.event_id team = event_of t
    ∧ members.is_leader leader = 1
    ∧ members.full_name leader = member_input.full_name leaderData
    ∧ Forall (λ m, members.is_leader m = 0) others
    ∧ map members.full_name others
      = map member_input.full_name (kept t (data.members d))
    ∧ (by_id_of t get_req run.2).1
      = Return (Reply 200 (inr (Detail [team] (Some leader) others
                                       (detail_extra_of t id (db run.2)))))
    ∧ ∀ t', t' ≠ t →
        (by_id_of t' get_req run.2).1
        = Return (Reply 404 (inl (Message "No team found for this id and event"))).
Proof.
  intros id run Hcomplete Hconsistent Hteams_old [Hleader Hkept]%Forall_cons Hget.
  destruct (complete_created _ _ _ _ _ _ Hcomplete)
    as (b & team & rows & Hrun & Hteams & Hid & Hname & Hev & _ & _
        & Hmembers & Hkeys).
  fold id in Hid, Hkeys. fold run in Hrun, Hteams, Hmembers.
  destruct rows as [|leader others]; [done|].
  injection Hkeys as Hlt Hln Hll Hothers.
  apply keys_of_rows in Hothers as (Hot & Hol & Hon).
  assert (members_of id (db run.2) = leader :: others) as Hroster.
  { unfold members_of. rewrite Hmembers, members_of_new by done.
    apply filter_all. constructor.
    - unfold member_of_team. apply Z.eqb_eq. congruence.
    - by eapply teams_of_rows. }
  exists b, team, leader, others.
  destruct (split_leader leader others Hll Hol) as [Hfind Hfilter].
  assert (∀ event,
            team_of_event (params_id get_req) event (db run.2)
            = if teams.event_id team =? event then [team] else []) as Hfound.
  { intros event. unfold team_of_event. rewrite Hget, Hteams, <- Hid.
    apply team_of_event_created. by rewrite Hid. }
  split_and!; try done.
  - destruct (by_id_found t get_req run.2) as (w'' & -> & _).
    + by rewrite Hfound, Hev, Z.eqb_refl.
    + intros _. rewrite Hget, Hroster.
      by rewrite order_by_leader_first.
    + rewrite Hfound, Hev, Z.eqb_refl, Hget, Hroster.
      rewrite order_by_leader_first by done.
      by rewrite Hfind, Hfilter.
  - intros t' Ht'. rewrite by_id_missing; [done|].
    rewrite Hfound, Hev.
    destruct t, t'; try done.
Qed.

Lemma created_team_is_found_witness :
  let req := example.create "Beta" [example.member "M1"; example.member "M2"] [] in
  let get_req := example.get (Some "Bearer valid") 3 EmptyBody in
  let w := example.world_of example.alpha_db in
  Forall (λ t,
            let w' := (create_of t req w).2 in
            ∃ b team leader others,
              (create_of t req w).1 = Return (Response 201 b)
              ∧ teams.team_name team = "Beta"
              ∧ members.full_name leader = "Leader"
              ∧ map members.full_name others = ["M1"; "M2"]
              ∧ (by_id_of t get_req w').1
                = Return (Reply 200 (inr (Detail [team] (Some leader) others
                                                 (detail_extra_of t 3 (db w')))))
              ∧ ∀ t', t' ≠ t →
                  (by_id_of t' get_req w').1
                  = Return (Reply 404 (inl (Message
                                              "No team found for this id and event"))))
         [CIC; SBC; FCEC].
Proof.
  intros req get_req w.
  assert (∀ t, complete t req w (example.registration "Beta"
                                   [example.member "M1"; example.member "M2"])
                 (team_input.T "Beta" "X University" (Some "t@example.org")
                               (Some "uploads/fcec/p.png") (Some 1))
                 (example.member "Leader")) as Hcomplete.
  { intros t. repeat split; try constructor.
    destruct t; repeat split; try done; eauto; set_solver. }
  repeat constructor.
  all: cbv beta zeta.
  all: match goal with
       | |- ∃ b team leader others, (create_of ?t _ _).1 = _ ∧ _ =>
           destruct (created_team_is_found t req get_req w _ _ _ (Hcomplete t))
             as (b & team & leader & others & Hrun & _ & Hname & _ & _ & Hleader
                 & _ & Hothers & Hfound & Hmissing);
             [constructor|by repeat constructor|by repeat constructor|done|];
             by exists b, team, leader, others
       end.
Defined.

(** ** Update *)

Lemma for_each_update_members (us : list member_update.t) :
  ∀ i w,
    for_each (λ _ u, update_members u) i us w
    = (Return tt, foldl (λ w u, (update_members u w).2) w us).
Proof.
  induction us as [|u us IH]; intros i w; [done|].
  cbn [for_each foldl]. unfold bind. cbn. apply IH.
Qed.

(** The update routes are one sequence of statements. *)
Lemma update_routes_same (h : update_body.t → handler) :
  h ∈ update_routes → h = put_teams_update.
Proof.
  intros [->|[->|[]%elem_of_nil]%elem_of_cons]%elem_of_cons; reflexivity.
Qed.

(** What an update has run when it answers, by the parts its body has. *)
Lemma update_run (body : update_body.t) (req : request) (w : world) :
  put_teams_update body req w
  = match update_body.team body with
    | None =>
        (Return (Response 500
                   (MessageError "An error occurred"
                      "Cannot read properties of undefined: team_name")), w)
    | Some team =>
        let w1 := (update_teams team w).2 in
        match update_body.leader body with
        | None =>
            (Return (Response 500
                       (MessageError "An error occurred"
                          "Cannot read properties of undefined: member_id")), w1)
        | Some leader =>
            let w2 := (update_members leader w1).2 in
            match update_body.members body with
            | None =>
                (Return (Response 500
                           (MessageError "An error occurred"
                              "Cannot read properties of undefined: map")), w2)
            | Some members =>
                (Return (Response 200
                           (Message "Team and members updated successfully")),
                 foldl (λ w u, (update_members u w).2) w2 members)
            end
        end
    end.
Proof.
  unfold put_teams_update, try_catch.
  destruct body as [[team|] [leader|] [members|]]; cbn; try done.
  unfold bind. cbn. by rewrite for_each_update_members.
Qed.

Lemma update_members_foldl (us : list member_update.t) :
  ∀ w,
    let w' := foldl (λ w u, (update_members u w).2) w us in
    db_teams (db w') = db_teams (db w)
    ∧ db_dosbim (db w') = db_dosbim (db w)
    ∧ db_sbc (db w') = db_sbc (db w)
    ∧ db_fcec (db w') = db_fcec (db w)
    ∧ db_events (db w') = db_events (db w)
    ∧ db_users (db w') = db_users (db w)
    ∧ disk w' = disk w
    ∧ queries w' = queries w ++ replicate (length us) (UPDATE Members)
    ∧ db_members (db w')
      = foldl (λ l u, map (λ m, if members.member_id m =? member_update.member_id u
                                then set_member_fields u m else m) l)
              (db_members (db w)) us.
Proof.
  induction us as [|u us IH]; intros w; cbn [foldl length replicate].
  { rewrite app_nil_r. done. }
  destruct (IH (update_members u w).2) as (H1 & H2 & H3 & H4 & H5 & H6 & H7 & H8 & H9).
  cbv zeta. rewrite H1, H2, H3, H4, H5, H6, H7, H8, H9. cbn.
  rewrite <- app_assoc. done.
Qed.

Lemma member_step_keeps (u : member_update.t) (m : members.row) :
  let m' := if members.member_id m =? member_update.member_id u
            then set_member_fields u m else m in
  members.member_id m' = members.member_id m
  ∧ members.team_id m' = members.team_id m
  ∧ members.is_leader m' = members.is_leader m
  ∧ members.nim m' = members.nim m.
Proof. cbv zeta. by destruct (_ =? _). Qed.

Lemma member_steps_keep (us : list member_update.t) :
  ∀ l,
    map (λ m, (members.member_id m, members.team_id m, members.is_leader m,
               members.nim m))
        (foldl (λ l u, map (λ m, if members.member_id m =? member_update.member_id u
                                 then set_member_fields u m else m) l) l us)
    = map (λ m, (members.member_id m, members.team_id m, members.is_leader m,
                 members.nim m)) l.
Proof.
  induction us as [|u us IH]; intros l; cbn [foldl]; [done|].
  rewrite IH, map_map. apply map_ext. intros m.
  by destruct (_ =? _).
Qed.

(** X5. An update never changes the id, the event, the voucher or the
    verification state of a team row, nor the id, the team, the leader flag
    or the nim of a member row; it adds and removes no row, and leaves the
    other tables and the upload directory alone. This holds for both update
    routes, whatever the body, also when the route answers 500. *)
Theorem update_keeps_roles_and_flags :
  let fixed_of_team (t : teams.row) :=
    (teams.team_id t, teams.event_id t, teams.voucher t,
     teams.isVerified t, teams.isRejected t, teams.rejectMessage t) in
  let fixed_of_member (m : members.row) :=
    (members.member_id m, members.team_id m, members.is_leader m,
     members.nim m) in
  Forall (λ h : update_body.t → handler,
            ∀ (body : update_body.t) (req : request) (w : world),
              let w' := (h body req w).2 in
              map fixed_of_team (db_teams (db w'))
              = map fixed_of_team (db_teams (db w))
              ∧ map fixed_of_member (db_members (db w'))
                = map fixed_of_member (db_members (db w))
              ∧ db_dosbim (db w') = db_dosbim (db w)
              ∧ db_sbc (db w') = db_sbc (db w)
              ∧ db_fcec (db w') = db_fcec (db w)
              ∧ db_events (db w') = db_events (db w)
              ∧ db_users (db w') = db_users (db w)
              ∧ disk w' = disk w)
         update_routes.
Proof.
  intros fixed_of_team fixed_of_member.
  apply Forall_forall. intros h Hh body req w w'.
  apply update_routes_same in Hh as ->. subst w'.
  rewrite update_run.
  assert (∀ team l,
            map fixed_of_team
                (map (λ t, if teams.team_id t =? team_update.team_id team
                           then set_team_fields team t else t) l)
            = map fixed_of_team l) as Hteam.
  { intros team l. rewrite map_map. apply map_ext. intros t.
    by destruct (_ =? _). }
  assert (∀ u l,
            map fixed_of_member
                (map (λ m, if members.member_id m =? member_update.member_id u
                           then set_member_fields u m else m) l)
            = map fixed_of_member l) as Hmember.
  { intros u l. rewrite map_map. apply map_ext. intros m.
    by destruct (_ =? _). }
  destruct (update_body.team body) as [team|]; [|done].
  destruct (update_body.leader body) as [leader|].
  2:{ cbn. rewrite Hteam. done. }
  destruct (update_body.members body) as [members|].
  2:{ cbn. rewrite Hteam, Hmember. done. }
  cbv zeta.
  destruct (update_members_foldl members
              (update_members leader (update_teams team w).2).2)
    as (H1 & H2 & H3 & H4 & H5 & H6 & H7 & _ & H9).
  cbn [snd]. rewrite H1, H2, H3, H4, H5, H6, H7, H9.
  subst fixed_of_member. cbv beta. rewrite member_steps_keep.
  cbn. rewrite Hteam, (Hmember leader). done.
Qed.

Lemma set_member_fields_twice (u u' : member_update.t) (m : members.row) :
  set_member_fields u
    (if members.member_id m =? member_update.member_id u'
     then set_member_fields u' m else m)
  = set_member_fields u m.
Proof. by destruct (_ =? _). Qed.

Lemma member_steps_last (us : list member_update.t) (l : list members.row) :
  foldl (λ l u, map (λ m, if members.member_id m =? member_update.member_id u
                          then set_member_fields u m else m) l) l us
  = map (λ m, match last_naming us m with
              | Some u => set_member_fields u m
              | None => m
              end) l.
Proof.
  induction us as [|u us IH] using rev_ind.
  { cbn. by rewrite map_id. }
  rewrite foldl_app. cbn [foldl]. rewrite IH, map_map.
  apply map_ext. intros m. unfold last_naming.
  rewrite rev_unit. cbn [List.find].
  destruct (List.find _ (rev us)) as [u'|]; cbn.
  - destruct (members.member_id m =? member_update.member_id u) eqn:Hu; [|done].
    pose proof (set_member_fields_twice u u m) as H. rewrite Hu in H.
    by destruct u, u', m.
  - by destruct (members.member_id m =? member_update.member_id u).
Qed.

(** X6. An update whose body has its three parts (the entries of [members]
    naming distinct rows) answers 200 after one UPDATE of the teams table,
    one of the members table for the leader and one for each member, and no
    SELECT: every team row whose id is the body's team id gets the body's
    name, institution, payment proof, user and e-mail, and every member row
    whose id an entry of the body names gets the fields of the last such
    entry, whatever team the row belongs to; the other rows are as before.
    When no row has these ids the answer is still 200. *)
Theorem update_writes_the_named_rows
    (h : update_body.t → handler) (body : update_body.t) (req : request)
    (w : world) (team : team_update.t) (leader : member_update.t)
    (members : list member_update.t) :
  h ∈ update_routes →
  update_body.team body = Some team →
  update_body.leader body = Some leader →
  update_body.members body = Some members →
  NoDup (member_update.member_id <$> members) →
  let run := h body req w in
  run.1 = Return (Response 200 (Message "Team and members updated successfully"))
  ∧ db_teams (db run.2)
    = map (λ t, if teams.team_id t =? team_update.team_id team
                then set_team_fields team t else t)
          (db_teams (db w))
  ∧ db_members (db run.2)
    = map (λ m, match last_naming (leader :: members) m with
                | Some u => set_member_fields u m
                | None => m
                end)
          (db_members (db w))
  ∧ queries run.2
    = queries w ++ UPDATE Teams :: UPDATE Members
                   :: replicate (length members) (UPDATE Members).
Proof.
  intros Hh Hteam Hleader Hmembers _ run. subst run.
  apply update_routes_same in Hh as ->.
  rewrite update_run, Hteam, Hleader, Hmembers. cbv zeta. cbn [fst snd].
  destruct (update_members_foldl members
              (update_members leader (update_teams team w).2).2)
    as (H1 & _ & _ & _ & _ & _ & _ & H8 & H9).
  rewrite H1, H8, H9. split_and!; [done|done| |].
  - pose proof (member_steps_last (leader :: members) (db_members (db w))) as H.
    cbn [foldl] in H. exact H.
  - cbn. by rewrite <- !app_assoc.
Qed.

Lemma update_writes_the_named_rows_witness :
  let row (id team : Z) (name : string) (leader : Z) :=
    members.Row id team name None "2023" "0800" "line" "m@example.org"
                None None None "link" leader None in
  let entry (id : Z) (name : string) :=
    member_update.T id name None "2024" "0811" "line2" "n@example.org"
                    None None None "link2" in
  let d := Database [example.team_row 1 "Alpha" 4; example.team_row 2 "Alpha" 3]
             [row 1 1 "Ani" 1; row 2 1 "Budi" 0; row 3 2 "Citra" 1]
             [] [] [] [] [] 3 4 1 1 1 0 in
  let body :=
    update_body.T (Some (team_update.T 1 "Gamma" "Y University" None (Some 1) None))
                  (Some (entry 1 "Ani R.")) (Some [entry 3 "Dewi"]) in
  let run := put_teams_cic_update body (example.get None 0 EmptyBody)
                                  (example.world_of d) in
  run.1 = Return (Response 200 (Message "Team and members updated successfully"))
  ∧ map teams.team_name (db_teams (db run.2)) = ["Gamma"; "Alpha"]
  ∧ map (λ m, (members.team_id m, members.full_name m, members.is_leader m))
        (db_members (db run.2))
    = [(1, "Ani R.", 1); (1, "Budi", 0); (2, "Dewi", 1)]
  ∧ queries run.2 = [UPDATE Teams; UPDATE Members; UPDATE Members].
Proof.
  intros row entry d body run.
  destruct (update_writes_the_named_rows put_teams_cic_update body
              (example.get None 0 EmptyBody) (example.world_of d)
              (team_update.T 1 "Gamma" "Y University" None (Some 1) None)
              (entry 1 "Ani R.") [entry 3 "Dewi"])
    as (Hanswer & Hteams & Hmembers & Hqueries).
  - apply elem_of_cons. right. apply elem_of_cons. by left.
  - reflexivity.
  - reflexivity.
  - reflexivity.
  - apply NoDup_singleton.
  - fold run in Hanswer, Hteams, Hmembers, Hqueries.
    split; [exact Hanswer|]. split; [by rewrite Hteams|].
    split; [by rewrite Hmembers|]. exact Hqueries.
Defined.

(** X7. An update is not undone when it fails: the statements already issued
    stay. A body without [team] is answered 500 with nothing changed; a body
    with [team] and without [leader] is answered 500 after the team row was
    rewritten; a body with [team] and [leader] and without [members] is
    answered 500 after the team row and the leader's row were rewritten. *)
Theorem update_is_not_atomic :
  Forall (λ h : update_body.t → handler,
            ∀ (body : update_body.t) (req : request) (w : world),
              let run := h body req w in
              let failed :=
                ∃ e, run.1 = Return (Response 500
                                       (MessageError "An error occurred" e)) in
              (update_body.team body = None → failed ∧ run.2 = w)
              ∧ (∀ team,
                   update_body.team body = Some team →
                   update_body.leader body = None →
                   failed
                   ∧ db_teams (db run.2)
                     = map (λ t, if teams.team_id t =? team_update.team_id team
                                 then set_team_fields team t else t)
                           (db_teams (db w))
                   ∧ db_members (db run.2) = db_members (db w))
              ∧ (∀ team leader,
                   update_body.team body = Some team →
                   update_body.leader body = Some leader →
                   update_body.members body = None →
                   failed
                   ∧ db_teams (db run.2)
                     = map (λ t, if teams.team_id t =? team_update.team_id team
                                 then set_team_fields team t else t)
                           (db_teams (db w))
                   ∧ db_members (db run.2)
                     = map (λ m, if members.member_id m
                                    =? member_update.member_id leader
                                 then set_member_fields leader m else m)
                           (db_members (db w))))
         update_routes.
Proof.
  apply Forall_forall. intros h Hh body req w run failed.
  apply update_routes_same in Hh as ->. subst failed run.
  rewrite update_run. split_and!.
  - intros ->. split; [by eexists|done].
  - intros team -> ->. split_and!; [by eexists|done..].
  - intros team leader -> -> ->. split_and!; [by eexists|done..].
Qed.

Lemma update_is_not_atomic_witness :
  let body :=
    update_body.T (Some (team_update.T 1 "Gamma" "Y University" None (Some 1) None))
                  None None in
  let run := put_teams_update body (example.get None 0 EmptyBody)
                              (example.world_of example.alpha_db) in
  (∃ e, run.1 = Return (Response 500 (MessageError "An error occurred" e)))
  ∧ map teams.team_name (db_teams (db run.2)) = ["Gamma"; "Alpha"].
Proof.
  intros body run.
  pose proof update_is_not_atomic as H.
  apply Forall_inv in H.
  destruct (H body (example.get None 0 EmptyBody)
              (example.world_of example.alpha_db))
    as (_ & Hleader & _).
  destruct (Hleader (team_update.T 1 "Gamma" "Y University" None (Some 1) None)
              eq_refl eq_refl) as (Hfailed & Hteams & _).
  split; [exact Hfailed|]. fold run in Hteams. by rewrite Hteams.
Defined.

(** ** Create: what a failed request leaves *)

Lemma unlink_all (fs : list file) :
  ∀ i w,
    for_each (λ _ f, unlink (path f)) i fs w
    = (Return tt, with_disk (λ d, d ∖ list_to_set (path <$> fs)) w).
Proof.
  induction fs as [|f fs IH]; intros i w.
  { unfold for_each, ret. f_equal. destruct w. unfold with_disk. cbn.
    f_equal. set_solver. }
  cbn [for_each]. unfold bind, unlink at 1. rewrite IH.
  f_equal. rewrite with_disk_twice. apply with_disk_ext.
  rewrite fmap_cons, list_to_set_cons. set_solver.
Qed.

Lemma unlink_all_uploads (entries : list (string * list file)) :
  ∀ i w,
    for_each (λ _ fileArray,
                for_each (λ _ f, unlink (path f)) 0%nat (fileArray.2))
             i entries w
    = (Return tt, with_disk (λ d, d ∖ list_to_set (paths_of entries)) w).
Proof.
  induction entries as [|[name fs] entries IH]; intros i w.
  { unfold for_each, ret. f_equal. destruct w. unfold with_disk. cbn.
    f_equal. set_solver. }
  cbn [for_each]. unfold bind. cbn [snd]. rewrite unlink_all, IH.
  f_equal. rewrite with_disk_twice. apply with_disk_ext.
  rewrite paths_of_cons, list_to_set_app_L. set_solver.
Qed.

Lemma remove_uploads_unlink (req : request) (w : world) :
  remove_uploads unlink req w
  = (Return tt, with_disk (λ d, d ∖ list_to_set (paths_of (files req))) w).
Proof. apply unlink_all_uploads. Qed.

Lemma kept_from_all (members : list member_input.t) :
  ∀ i, kept_from (λ _ _, false) i members = members.
Proof. induction members as [|m l IH]; intros i; cbn; [done|]. by rewrite IH. Qed.

(** X8. The SBC create is not undone when it fails late. A request whose
    payload has its team and leader but an empty advisor list, sent with a
    token that carries a user id, is answered 500; by then the team row,
    the leader's row and one row per member are inserted and stay, no
    advisor or bridge row exists for the team, and the files uploaded with
    the request are removed from the upload directory. *)
Theorem sbc_create_is_not_atomic
    (req : request) (w : world) (d : data.t) (c : jwt.claims) (uid : Z)
    (team : team_input.t) (leader : member_input.t) :
  body req = Multipart (Data d) →
  user req = Some c →
  jwt.user_id c = Some uid →
  data.team d = Some team →
  data.leader d = Some leader →
  data.dosbim d = [] →
  Forall (λ e, e.2 ≠ []) (files req) →
  let run := post_teams_sbc_new req w in
  let id := next_team_id (db w) in
  (∃ e, run.1 = Return (Response 500 (MessageError "An error occurred" e)))
  ∧ (∃ row,
       db_teams (db run.2) = db_teams (db w) ++ [row]
       ∧ teams.team_id row = id
       ∧ teams.team_name row = team_input.team_name team
       ∧ teams.event_id row = 3)
  ∧ (∃ rows,
       db_members (db run.2) = db_members (db w) ++ rows
       ∧ map key rows
         = (id, member_input.full_name leader, 1)
           :: map (λ m, (id, member_input.full_name m, 0)) (data.members d))
  ∧ db_dosbim (db run.2) = db_dosbim (db w)
  ∧ db_sbc (db run.2) = db_sbc (db w)
  ∧ disk run.2 = disk w ∖ list_to_set (paths_of (files req)).
Proof.
  intros Hbody Huser Huid Hteam Hleader Hdosbim Hfiles run id.
  assert (∃ e row rows w3,
            run = (Return (Response 500 (MessageError "An error occurred" e)),
                   with_disk (λ d, d ∖ list_to_set (paths_of (files req))) w3)
            ∧ db_teams (db w3) = db_teams (db w) ++ [row]
            ∧ teams.team_id row = id
            ∧ teams.team_name row = team_input.team_name team
            ∧ teams.event_id row = 3
            ∧ db_members (db w3) = db_members (db w) ++ rows
            ∧ map key rows
              = (id, member_input.full_name leader, 1)
                :: map (λ m, (id, member_input.full_name m, 0)) (data.members d)
            ∧ db_dosbim (db w3) = db_dosbim (db w)
            ∧ db_sbc (db w3) = db_sbc (db w)
            ∧ disk w3 = disk w)
    as (e & row & rows & w3 & -> & Ht & Hid & Hname & Hev & Hm & Hk & Hd & Hs & Hdisk).
  2:{ cbn [fst snd]. split_and!; [by eexists|by eexists|by eexists|done|done|].
      cbn. by rewrite Hdisk. }
  subst run id. unfold post_teams_sbc_new, try_catch.
  assert (parse_data req w = (Return d, w)) as E by (unfold parse_data; by rewrite Hbody).
  rewrite (bind_run _ _ _ _ _ E). clear E.
  assert (req_user_id req w = (Return (Some uid), w)) as E
    by (unfold req_user_id; by rewrite Huser, Huid).
  rewrite (bind_run _ _ _ _ _ E). clear E.
  destruct (path_of_runs "payment_proof" req w Hfiles) as [payment_proof E].
  rewrite (bind_run _ _ _ _ _ E). clear E.
  destruct (path_of_runs "voucher" req w Hfiles) as [voucher E].
  rewrite (bind_run _ _ _ _ _ E). clear E.
  rewrite Hteam.
  erewrite bind_run by reflexivity.
  erewrite bind_run by reflexivity.
  erewrite bind_run by reflexivity.
  match goal with
  | |- context [bind (path_of "leader_ktm" req) _ ?w0] => set (w1 := w0)
  end.
  destruct (path_of_runs "leader_ktm" req w1 Hfiles) as [ktm E].
  rewrite (bind_run _ _ _ _ _ E). clear E.
  destruct (path_of_runs "leader_active_student_letter" req w1 Hfiles) as [asl E].
  rewrite (bind_run _ _ _ _ _ E). clear E.
  destruct (path_of_runs "leader_photo" req w1 Hfiles) as [photo E].
  rewrite (bind_run _ _ _ _ _ E). clear E.
  rewrite Hleader.
  erewrite bind_run by reflexivity.
  erewrite bind_run by reflexivity.
  match goal with
  | |- context [bind (map_m _ _ _) _ ?w0] => set (w2 := w0)
  end.
  destruct (sbc_members_run req (next_team_id (db w)) (data.members d) Hfiles 0%nat w2)
    as (ids & w3 & E & Hd3 & Hs3).
  pose proof (map_m_grows _ (λ _ _, false) (λ _, _)
                (sbc_insert_member_grows req (next_team_id (db w)))
                _ _ _ _ _ E) as (Ht & _ & Hdisk & rows & Hm & Hk).
  rewrite (bind_run _ _ _ _ _ E). clear E.
  destruct (path_of_runs "dosbim_photo" req w3 Hfiles) as [dosbimPhoto E].
  rewrite (bind_run _ _ _ _ _ E). clear E.
  rewrite Hdosbim. cbn [head replacement].
  erewrite bind_throws by reflexivity.
  rewrite (bind_run _ _ _ _ _ (remove_uploads_unlink req w3)).
  cbn [error_500 ret].
  eexists _, _, _, w3. split; [reflexivity|].
  rewrite Ht, Hm, Hd3, Hs3, Hdisk. subst w2 w1. cbn.
  split_and!; try done.
  - by rewrite <- app_assoc.
  - cbn. f_equal. by rewrite kept_from_all in Hk.
Qed.

Lemma sbc_create_is_not_atomic_witness :
  let proof := File "payment_proof" "proof.png" "image/png"
                    "payment_proof-1700000000000-42.png"
                    "uploads/sbc/payment_proof-1700000000000-42.png" in
  let team := team_input.T "Beta" "X University" None None None in
  let d := data.T (Some team) (Some (example.member "Leader"))
                  [example.member "M1"] [] [sbc_input.T "Bridge"]
                  (fcec_input.T "Abstract" "video") in
  let req := Request (Some "Bearer valid") 0 (Multipart (Data d)) []
                     [("payment_proof", [proof])]
                     (Some (jwt.Claims None (Some 1))) in
  let w := World example.alpha_db [] {[ path proof ]} 1700000000000 in
  let run := post_teams_sbc_new req w in
  (∃ e, run.1 = Return (Response 500 (MessageError "An error occurred" e)))
  ∧ (∃ row,
       db_teams (db run.2) = db_teams (db w) ++ [row]
       ∧ teams.team_id row = 3
       ∧ teams.team_name row = "Beta"
       ∧ teams.event_id row = 3)
  ∧ (∃ rows,
       db_members (db run.2) = db_members (db w) ++ rows
       ∧ map key rows = [(3, "Leader", 1); (3, "M1", 0)])
  ∧ db_dosbim (db run.2) = []
  ∧ db_sbc (db run.2) = []
  ∧ disk run.2 = {[ path proof ]} ∖ list_to_set [path proof].
Proof.
  intros proof team d req w run.
  apply (sbc_create_is_not_atomic req w d (jwt.Claims None (Some 1)) 1 team
           (example.member "Leader")); try reflexivity.
  repeat constructor. done.
Defined.

(** ** What a computation leaves alone *)

Section keeps.
Context {X : Type} (observe : world → X).
Hypothesis observe_logged : ∀ s w, observe (logged s w) = observe w.

Lemma keeps_ret {A} (a : A) : keeps observe (ret a).
Proof. by intros w. Qed.

Lemma keeps_throw {A} (e : string) : keeps observe (@throw A e).
Proof. by intros w. Qed.

Lemma keeps_bind {A B} (m : js A) (k : A → js B) :
  keeps observe m → (∀ a, keeps observe (k a)) → keeps observe (bind m k).
Proof.
  intros Hm Hk w. unfold bind. specialize (Hm w).
  destruct (m w) as [[a|e] w1]; cbn in *; [|done].
  by rewrite Hk.
Qed.

Lemma keeps_try_catch {A} (m : js A) (h : string → js A) :
  keeps observe m → (∀ e, keeps observe (h e)) → keeps observe (try_catch m h).
Proof.
  intros Hm Hh w. unfold try_catch. specialize (Hm w).
  destruct (m w) as [[a|e] w1]; cbn in *; [done|].
  by rewrite Hh.
Qed.

Lemma keeps_select {R} (t : table) (rows : database → list R) (p : R → bool) :
  keeps observe (select t rows p).
Proof. intros w. apply observe_logged. Qed.

Lemma keeps_select_members_of (teamId : Z) :
  keeps observe (select_members_of teamId).
Proof. intros w. apply observe_logged. Qed.

Lemma keeps_map_m {A B} (f : nat → A → js B) (l : list A) :
  (∀ i x, keeps observe (f i x)) → ∀ i, keeps observe (map_m f i l).
Proof.
  intros Hf. induction l as [|x l IH]; intros i; cbn [map_m].
  - apply keeps_ret.
  - apply keeps_bind; [apply Hf|]. intros y.
    apply keeps_bind; [apply IH|]. intros ys. apply keeps_ret.
Qed.

Lemma keeps_for_each {A} (f : nat → A → js unit) (l : list A) :
  (∀ i x, keeps observe (f i x)) → ∀ i, keeps observe (for_each f i l).
Proof.
  intros Hf. induction l as [|x l IH]; intros i; cbn [for_each].
  - apply keeps_ret.
  - apply keeps_bind; [apply Hf|]. intros _. apply IH.
Qed.

Lemma keeps_path_of (name : string) (req : request) :
  keeps observe (path_of name req).
Proof. intros w. unfold path_of. by destruct (entry _ _) as [[|f fs]|]. Qed.

Lemma keeps_replacement {A} (name : string) (v : option A) :
  keeps observe (replacement name v).
Proof. intros w. by destruct v. Qed.

Lemma keeps_defined {A} (what : string) (v : option A) :
  keeps observe (defined what v).
Proof. intros w. by destruct v. Qed.

Lemma keeps_req_user_id (req : request) : keeps observe (req_user_id req).
Proof. intros w. unfold req_user_id. by destruct (user req). Qed.

Lemma keeps_parse_data (req : request) : keeps observe (parse_data req).
Proof. intros w. unfold parse_data. by destruct (body req) as [| | |[| |]]. Qed.

Lemma keeps_first_event_name (event : list events.row) :
  keeps observe (first_event_name event).
Proof. intros w. by destruct event. Qed.
End keeps.

Lemma persistent_logged (s : statement) (w : world) :
  persistent (logged s w) = persistent w.
Proof. reflexivity. Qed.

Lemma db_logged (s : statement) (w : world) : db (logged s w) = db w.
Proof. reflexivity. Qed.

Create HintDb keeps.
#[local] Hint Resolve persistent_logged db_logged : keeps.

Ltac keeps_step :=
  first
    [ apply keeps_ret
    | apply keeps_throw
    | apply keeps_select; auto with keeps
    | apply keeps_select_members_of; auto with keeps
    | apply keeps_path_of
    | apply keeps_replacement
    | apply keeps_defined
    | apply keeps_req_user_id
    | apply keeps_parse_data
    | apply keeps_first_event_name
    | apply keeps_bind; [|intros ?]
    | apply keeps_try_catch; [|intros ?]
    | apply keeps_map_m; intros ? ?
    | apply keeps_for_each; intros ? ?
    | match goal with
      | |- keeps _ (if ?b then _ else _) => destruct b
      | |- keeps _ (match ?x with _ => _ end) => destruct x
      end ].

Ltac keeps_all := repeat keeps_step.

(** X9. The routes that read leave the store and the upload directory as
    they found them, whatever the request and whatever they answer: the
    lists of the three tracks and of all teams, the three gets by id, the
    two participant queries, the events of a user, and the login. *)
Theorem reading_routes_change_nothing (req : request) :
  keeps persistent (get_teams req)
  ∧ (∀ t, keeps persistent (list_of t req))
  ∧ (∀ t, keeps persistent (by_id_of t req))
  ∧ (∀ semester, keeps persistent (get_sbc_participant semester req))
  ∧ (∀ semester, keeps persistent (get_fcec_participant semester req))
  ∧ (∀ users_user_id, keeps persistent (get_user_events users_user_id req))
  ∧ (∀ jwt_sign bcrypt_compare,
       keeps persistent (post_user_login jwt_sign bcrypt_compare req)).
Proof.
  split_and!.
  - unfold get_teams. keeps_all.
  - intros []; cbn [list_of];
      unfold get_teams_cic, get_teams_sbc, get_teams_fcec, error_500; keeps_all.
  - intros []; cbn [by_id_of];
      unfold get_teams_cic_id, get_teams_sbc_id, get_teams_fcec_id,
        select_team_of_event, reply_500; keeps_all.
  - intros semester. unfold get_sbc_participant. keeps_all.
  - intros semester. unfold get_fcec_participant. keeps_all.
  - intros users_user_id. unfold get_user_events. keeps_all.
  - intros jwt_sign bcrypt_compare. unfold post_user_login, find_user.
    keeps_all. by intros w.
Qed.

(** ** Create: the user id of the token *)

Lemma keeps_db_unlinkSync (p : string) : keeps db (unlinkSync p).
Proof. intros w. unfold unlinkSync. by case_bool_decide. Qed.

Lemma keeps_db_unlink (p : string) : keeps db (unlink p).
Proof. by intros w. Qed.

Lemma keeps_db_remove_uploads (rm : string → js unit) (req : request) :
  (∀ p, keeps db (rm p)) → keeps db (remove_uploads rm req).
Proof.
  intros Hrm. unfold remove_uploads.
  apply keeps_for_each. intros i fileArray.
  apply keeps_for_each. intros j f. apply Hrm.
Qed.

(** The status of what a handler answers, when it answers. *)
Lemma try_catch_answers (m : js response) (h : string → js response)
    (P : response → Prop) (w : world) :
  (∀ r w', m w = (Return r, w') → P r) →
  (∀ e w1, ∃ r w', h e w1 = (Return r, w') ∧ P r) →
  ∃ r, (try_catch m h w).1 = Return r ∧ P r.
Proof.
  intros Hm Hh. unfold try_catch.
  destruct (m w) as [[r|e] w1] eqn:E.
  - exists r. split; [done|]. by apply (Hm r w1).
  - destruct (Hh e w1) as (r & w' & -> & Hr). by exists r.
Qed.

(** X10. The CIC and SBC creates take the user of the team from the
    [user_id] claim of the token. With a token whose claims have no
    [user_id] (the login signs [{ id }] only) neither of them creates
    anything: the answer is 400 or 500 and the store is as before. *)
Theorem create_needs_the_user_id_claim
    (t : track) (req : request) (w : world) (c : jwt.claims) :
  t ≠ FCEC →
  user req = Some c →
  jwt.user_id c = None →
  let run := create_of t req w in
  (∃ r, run.1 = Return r ∧ (status r = 400 ∨ status r = 500))
  ∧ db run.2 = db w.
Proof.
  intros Ht Huser Hclaim run. subst run.
  assert (req_user_id req = ret None) as Hid.
  { unfold req_user_id. by rewrite Huser, Hclaim. }
  destruct t; [| |done]; cbn [create_of].
  - unfold post_teams_cic_new. rewrite Hid. split.
    + apply try_catch_answers; [|intros e w1; eexists _, _; split; [reflexivity|by right]].
      intros r w'.
      destruct (body req) as [| | |[|message|d]];
        try (intros [= <- _]; by left).
      change (bind (ret None) ?k) with (k None). cbv beta.
      destruct (data.team d) as [teamData|], (data.leader d) as [leaderData|];
        try (intros [= <- _]; by left).
      intros (existing & w1 & _ & H)%bind_Return.
      case_bool_decide.
      * apply bind_Return in H as (_ & w2 & _ & [= <- _]). by left.
      * apply bind_Return in H as (payment_proof & w2 & _ & H).
        apply bind_Return in H as (voucher & w3 & _ & H).
        apply bind_Return in H as (user_id & w4 & H & _). done.
    + apply (keeps_try_catch db); [|intros e; apply keeps_ret].
      destruct (body req) as [| | |[|message|d]];
        [apply keeps_ret..| |]; change (bind (ret None) ?k) with (k None); cbv beta;
        [apply keeps_ret|].
      destruct (data.team d) as [teamData|], (data.leader d) as [leaderData|];
        try apply keeps_ret.
      unfold select_team_named.
      apply keeps_bind; [keeps_all|]. intros existing.
      case_bool_decide.
      * apply keeps_bind; [|intros _; apply keeps_ret].
        apply keeps_db_remove_uploads, keeps_db_unlinkSync.
      * cbn [replacement]. keeps_all.
  - unfold post_teams_sbc_new. rewrite Hid. split.
    + apply try_catch_answers.
      * intros r w'.
        intros (d & w1 & _ & H)%bind_Return.
        change (bind (ret None) ?k) with (k None) in H. cbv beta in H.
        apply bind_Return in H as (payment_proof & w2 & _ & H).
        apply bind_Return in H as (voucher & w3 & _ & H).
        apply bind_Return in H as (team & w4 & _ & H).
        apply bind_Return in H as (user_id & w5 & H & _). done.
      * intros e w1. rewrite (bind_run _ _ _ _ _ (remove_uploads_unlink req w1)).
        eexists _, _. split; [reflexivity|by right].
    + apply (keeps_try_catch db).
      * apply keeps_bind; [keeps_all|]. intros d.
        change (bind (ret None) ?k) with (k None). cbv beta.
        cbn [replacement]. keeps_all.
      * intros e. apply keeps_bind; [|intros _; apply keeps_ret].
        apply keeps_db_remove_uploads, keeps_db_unlink.
Qed.

Lemma create_needs_the_user_id_claim_witness :
  let req := Request (Some "Bearer valid") 0
               (Multipart (Data (example.registration "Beta" [example.member "M1"])))
               [] [] (Some (jwt.Claims (Some 7) None)) in
  let w := example.world_of example.alpha_db in
  let run := create_of CIC req w in
  (∃ r, run.1 = Return r ∧ (status r = 400 ∨ status r = 500))
  ∧ db run.2 = db w.
Proof.
  intros req w run.
  apply (create_needs_the_user_id_claim CIC req w (jwt.Claims (Some 7) None));
    done.
Defined.

(** ** Login *)

(** X11. The login answers 200 exactly when the body has a non-empty name
    and password and the first user row whose username or e-mail is the
    name has a hash that bcrypt matches with the password: the answer then
    carries that user without the password and a token signed over
    [{ id }] with 'your-secret-key' for sixty days. A missing or empty
    field is answered 400 before any query; an unknown name 404; a
    password that does not match the first such row 401. *)
Theorem login_checks_the_password
    (jwt_sign : jwt.claims → string → Z → Z → string)
    (bcrypt_compare : string → string → bool) (req : request) (w : world) :
  let run := post_user_login jwt_sign bcrypt_compare req w in
  let fields := match body req with
                | JsonLogin username password => (username, password)
                | _ => (None, None)
                end in
  let name := default "" fields.1 in
  let password := default "" fields.2 in
  (falsy fields.1 || falsy fields.2 = true →
   run = (Return (Response 400
                    (Message "Username/email and password are required")), w))
  ∧ (falsy fields.1 || falsy fields.2 = false →
     match head (users_named name (db w)) with
     | None =>
         run.1 = Return (Response 404
                           (Message "No user found with the provided username/email"))
     | Some u =>
         if bcrypt_compare password (users.password u) then
           run.1 = Return (Response 200
                             (LoggedIn "User logged in successfully"
                                (users.without_password u)
                                (jwt_sign (jwt.Claims (Some (users.id u)) None)
                                          "your-secret-key" sixty_days (clock w))))
         else
           run.1 = Return (Response 401 (Message "Password is incorrect"))
     end).
Proof.
  intros run fields name password. subst run name password fields.
  unfold post_user_login, try_catch.
  destruct (body req) as [| |username password|]; cbn [fst snd falsy orb];
    try (split; [done|intros [=]]).
  split.
  - by intros ->.
  - intros ->. unfold bind, find_user, bind, select, users_named. cbn.
    destruct (head _) as [u|]; [|done].
    by destruct (bcrypt_compare _ _).
Qed.

Lemma login_checks_the_password_witness :
  let same (password hash : string) := bool_decide (password = hash) in
  let w := example.world_of example.alpha_db in
  let login name password :=
    (post_user_login symbolic.sign same
       (example.get None 0 (JsonLogin name password)) w).1 in
  login (Some "ani@example.org") (Some "hash")
  = Return (Response 200
              (LoggedIn "User logged in successfully"
                 (users.Public 7 "ani" "ani@example.org")
                 (symbolic.sign (jwt.Claims (Some 7) None) "your-secret-key"
                                sixty_days (clock w))))
  ∧ login (Some "ani") (Some "guess")
    = Return (Response 401 (Message "Password is incorrect"))
  ∧ login (Some "budi") (Some "hash")
    = Return (Response 404 (Message "No user found with the provided username/email"))
  ∧ login (Some "ani") (Some "")
    = Return (Response 400 (Message "Username/email and password are required")).
Proof.
  intros same w login.
  pose proof (login_checks_the_password symbolic.sign same) as H.
  split; [|split; [|split]].
  - apply (H (example.get None 0 (JsonLogin (Some "ani@example.org") (Some "hash"))) w).
    reflexivity.
  - apply (H (example.get None 0 (JsonLogin (Some "ani") (Some "guess"))) w).
    reflexivity.
  - apply (H (example.get None 0 (JsonLogin (Some "budi") (Some "hash"))) w).
    reflexivity.
  - destruct (H (example.get None 0 (JsonLogin (Some "ani") (Some ""))) w) as [H400 _].
    subst login. cbv beta. by rewrite H400.
Defined.

(** ** The lists *)

Lemma list_of_none (t : track) (req : request) (w : world) :
  List.filter (λ r, teams.event_id r =? event_of t) (db_teams (db w)) = [] →
  (list_of t req w).1
  = Return (Response 404 (Message ("No teams found for " +:+ track_name t))).
Proof.
  intros Hnone.
  destruct t; cbn [list_of event_of track_name] in *;
    unfold get_teams_cic, get_teams_sbc, get_teams_fcec, try_catch, bind, select;
    cbn [db logged]; by rewrite Hnone.
Qed.

Lemma sbc_list_without_event (req : request) (w : world) :
  List.filter (λ r, teams.event_id r =? 3) (db_teams (db w)) ≠ [] →
  List.filter (λ e, events.event_id e =? 3) (db_events (db w)) = [] →
  (get_teams_sbc req w).1
  = Return (Response 500
              (MessageError "An error occurred"
                 "Cannot read properties of undefined (reading 'event_name')")).
Proof.
  intros Hteams Hevent.
  unfold get_teams_sbc, try_catch, bind at 1, select at 1. cbn [db logged].
  rewrite Hevent. unfold bind at 1, select at 1. cbn [db logged].
  destruct (List.filter _ (db_teams (db w))) as [|team teams]; [done|].
  rewrite bool_decide_eq_false_2 by done.
  unfold bind at 1. cbn [map_m]. unfold bind at 1, bind at 1.
  rewrite select_members_of_eq. unfold bind at 1, select at 1.
  unfold bind at 1, select at 1. unfold bind at 1. done.
Qed.

(** X12. A track's list answers 404 "No teams found for <track>" when no
    team row has the track's event. The SBC list reads the name of event 3
    from the events table for every team: when SBC teams exist and the
    events table has no row for event 3 it answers 500. Otherwise a list
    answers 200 with one view per team row of the event, in the order of
    the table. [GET /teams] answers 404 "Tidak ada tim ditemukan" when the
    teams table is empty, and otherwise 200 with a view of every team row,
    whatever its event. *)
Theorem list_of_a_track (t : track) (req : request) (w : world) :
  let teams := List.filter (λ r, teams.event_id r =? event_of t) (db_teams (db w)) in
  let event := List.filter (λ e, events.event_id e =? 3) (db_events (db w)) in
  let run := list_of t req w in
  (teams = [] →
   run.1 = Return (Response 404 (Message ("No teams found for " +:+ track_name t))))
  ∧ (teams ≠ [] → t = SBC → event = [] →
     ∃ e, run.1 = Return (Response 500 (MessageError "An error occurred" e)))
  ∧ (teams ≠ [] → (t = SBC → event ≠ []) →
     run.1 = Return (Response 200 (Views (map (view_of t (db w)) teams))))
  ∧ (db_teams (db w) = [] →
     (get_teams req w).1
     = Return (Response 404 (Message "Tidak ada tim ditemukan")))
  ∧ (db_teams (db w) ≠ [] →
     (get_teams req w).1
     = Return (Response 200 (Views (map (team_view (db w)) (db_teams (db w)))))).
Proof.
  intros teams event run. subst run. split_and!.
  - apply list_of_none.
  - intros Hteams -> Hevent. eexists. by apply sbc_list_without_event.
  - intros Hteams Hevent.
    by destruct (list_views t req w Hteams Hevent) as (w' & -> & _).
  - intros Hnone. unfold get_teams, try_catch, bind, select. cbn [db logged].
    by rewrite Hnone.
  - intros Hsome. by destruct (get_teams_views req w Hsome) as (w' & -> & _).
Qed.

Lemma list_of_a_track_witness :
  let w := example.world_of example.alpha_db in
  let no_event :=
    example.world_of (Database [example.team_row 2 "Alpha" 3] [] [] [] [] [] []
                               3 1 1 1 1 0) in
  let req := example.get None 0 EmptyBody in
  (list_of FCEC req w).1
  = Return (Response 404 (Message "No teams found for FCEC"))
  ∧ (∃ e, (list_of SBC req no_event).1
          = Return (Response 500 (MessageError "An error occurred" e)))
  ∧ (list_of CIC req w).1
    = Return (Response 200 (Views [Bare "Alpha" "X University" None])).
Proof.
  intros w no_event req. split; [|split].
  - apply (list_of_a_track FCEC req w). reflexivity.
  - apply (list_of_a_track SBC req no_event); done.
  - apply (list_of_a_track CIC req w); done.
Defined.

(** ** Create: the files of a refused request *)

Lemma upload_accepted (cfg : upload_config) (req : request) (w : world) :
  is_Some (store_parts cfg (parts req) [] (disk w)).1 →
  ∃ fs,
    upload cfg req w
    = (Next (set_files fs req),
       with_disk (λ _, list_to_set (path ∘ stored cfg <$> parts req) ∪ disk w) w)
    ∧ paths_of fs = path ∘ stored cfg <$> parts req.
Proof.
  intros Haccepted. unfold upload.
  destruct (store_parts cfg (parts req) [] (disk w)) as [[fs|] d'] eqn:E;
    [|by destruct Haccepted].
  apply store_parts_accepted in E as [Hp ->]. by exists fs.
Qed.

(** X13. The CIC create answers 400 without looking at the store when the
    [data] field is missing, is not JSON, or has no team or no leader; on
    these three answers it does not remove the files multer stored for the
    request, which stay in the upload directory. *)
Theorem cic_refusals_keep_the_files
    (extname : string → string) (req : request) (w : world) :
  let cfg := cic_upload extname in
  let served := dispatch [upload cfg] post_teams_cic_new req w in
  is_Some (store_parts cfg (parts req) [] (disk w)).1 →
  match body req with
  | Multipart (Data d) =>
      is_Some (user req) ∧ (data.team d = None ∨ data.leader d = None)
  | Multipart (DataInvalid _) => is_Some (user req)
  | _ => True
  end →
  (∃ message error,
     answer served = Some (Response 400 (MessageError message error)))
  ∧ handler_ran served = true
  ∧ db (after served) = db w
  ∧ queries (after served) = queries w
  ∧ disk (after served)
    = list_to_set (path ∘ stored cfg <$> parts req) ∪ disk w.
Proof.
  intros cfg served Haccepted Hbody. subst served.
  destruct (upload_accepted cfg req w Haccepted) as (fs & Hupload & _).
  unfold dispatch. rewrite Hupload.
  unfold post_teams_cic_new, try_catch, req_user_id.
  change (body (set_files fs req)) with (body req).
  change (user (set_files fs req)) with (user req).
  destruct (body req) as [| | |[|message|d]]; cbn; try by eauto 10.
  - destruct Hbody as [c ->]. cbn. by eauto 10.
  - destruct Hbody as [[c ->] Hmissing]. cbn.
    destruct Hmissing as [->| ->]; [|destruct (data.team d)]; cbn; by eauto 10.
Qed.

Lemma cic_refusals_keep_the_files_witness :
  let req := Request (Some "Bearer valid") 0 (Multipart DataMissing)
               [Part "payment_proof" "proof.png" "image/png" 1700000000000 42]
               [] (Some (jwt.Claims None (Some 1))) in
  let w := example.world_of example.alpha_db in
  let served := dispatch [upload (cic_upload (λ _, ".png"))]
                         post_teams_cic_new req w in
  (∃ message error,
     answer served = Some (Response 400 (MessageError message error)))
  ∧ handler_ran served = true
  ∧ db (after served) = db w
  ∧ queries (after served) = queries w
  ∧ disk (after served)
    = list_to_set ["uploads/cic/payment_proof-1700000000000-42.png"] ∪ disk w.
Proof.
  intros req w served.
  apply (cic_refusals_keep_the_files (λ _, ".png") req w); [|done].
  vm_compute. by eexists.
Defined.

(** ** The upload endpoint *)

(** X14. [POST /upload] behind multer: a request with one file part in the
    field [file], of any type and name, is answered 200 with the file path
    [/uploads/<timestamp>-<client file name>], and the file is in the
    upload directory under [uploads/<timestamp>-<client file name>], the
    answered path without its first slash; the store is not touched. A
    request without a file part reaches the handler, which throws: the
    route sends no answer of its own, and the directory is as before. *)
Theorem upload_answers_the_stored_path (req : request) (w : world) :
  let run := pipeline [upload server_upload] post_upload req w in
  (∀ p,
     parts req = [p] → part_fieldname p = "file" →
     let name := pretty (part_now p) +:+ "-" +:+ part_originalname p in
     run.1 = Handled (Return (Reply 200
                                (inr (Uploaded "File uploaded successfully"
                                               ("/uploads/" +:+ name)))))
     ∧ disk run.2 = {[ "uploads/" +:+ name ]} ∪ disk w
     ∧ db run.2 = db w)
  ∧ (parts req = [] →
     (∃ e, run.1 = Handled (Throw e))
     ∧ disk run.2 = disk w
     ∧ db run.2 = db w).
Proof.
  intros run. subst run. split.
  - intros [field original mime now random] Hparts Hfield name.
    cbn in Hfield, name. subst field.
    unfold pipeline, upload. rewrite Hparts.
    cbn [store_parts accepted server_upload fileFilter fields andb part_fieldname].
    rewrite !bool_decide_eq_true_2 by done. cbn.
    split_and!; done.
  - intros Hparts. unfold pipeline, upload. rewrite Hparts. cbn.
    split_and!; [by eexists|done..].
Qed.

Lemma upload_answers_the_stored_path_witness :
  let req := Request (Some "Bearer valid") 0 EmptyBody
               [Part "file" "notes.txt" "text/plain" 1700000000000 42]
               [] (Some (jwt.Claims None (Some 1))) in
  let w := example.world_of example.alpha_db in
  let run := pipeline [upload server_upload] post_upload req w in
  run.1 = Handled (Return (Reply 200
                             (inr (Uploaded "File uploaded successfully"
                                            "/uploads/1700000000000-notes.txt"))))
  ∧ disk run.2 = {[ "uploads/1700000000000-notes.txt" ]} ∪ disk w
  ∧ db run.2 = db w.
Proof.
  intros req w run.
  destruct (upload_answers_the_stored_path req w) as [H _].
  apply (H (Part "file" "notes.txt" "text/plain" 1700000000000 42)); reflexivity.
Defined.

(** ** The events of a user *)

Lemma user_events_of_team (d : database) (t : teams.row) :
  map (object_of_row ∘ user_events_row)
      (match List.filter (λ e, teams.event_id t =? events.event_id e) (db_events d) with
       | [] => [Some (t, None)]
       | es => (λ e, Some (t, Some e)) <$> es
       end)
  = events_of_team d t.
Proof.
  unfold events_of_team.
  destruct (List.filter _ (db_events d)) as [|e es]; [done|].
  change (map ?f ((λ e, Some (t, Some e)) <$> e :: es))
    with (f <$> ((λ e, Some (t, Some e)) <$> e :: es)).
  rewrite <- list_fmap_compose. done.
Qed.

Lemma user_events_of_teams (d : database) (l : list teams.row) :
  map (object_of_row ∘ user_events_row)
      (l ≫= λ t,
         match List.filter (λ e, teams.event_id t =? events.event_id e)
                           (db_events d) with
         | [] => [Some (t, None)]
         | es => (λ e, Some (t, Some e)) <$> es
         end)
  = l ≫= events_of_team d.
Proof.
  induction l as [|t l IH]; [done|].
  cbn [mbind list_bind]. rewrite map_app, IH. f_equal.
  apply user_events_of_team.
Qed.

Lemma events_of_team_shown (d : database) (t : teams.row) :
  events_of_team d t ≠ []
  ∧ Forall (λ event, forallb is_null (event.*2) = false) (events_of_team d t).
Proof.
  unfold events_of_team.
  destruct (List.filter _ (db_events d)) as [|e es].
  - split; [done|]. by repeat constructor.
  - split; [done|]. apply Forall_fmap, Forall_forall. by intros e' _.
Qed.

Lemma forallb_false_head {A} (p : A → bool) (l : list A) :
  l ≠ [] → Forall (λ x, p x = false) l → forallb p l = false.
Proof. intros Hl Hp. destruct Hp as [|x l Hx _]; [done|]. cbn. by rewrite Hx. Qed.

(** X15. [GET /user/:user_id/events] answers 404 "No events found for this
    user" when no user row has the id, and also when the user has no team:
    the left join then gives a row of nulls, which the route takes for no
    event. When one user row has the id and the user has teams, the answer
    is 200 with, for each team of the user in table order, one row per
    event row of the team's event, or one row with a null event name when
    the events table has none. *)
Theorem user_events_of_a_user
    (users_user_id : users.row → Z) (req : request) (w : world) :
  let id := params_id req in
  let known := List.filter (λ u, users_user_id u =? id) (db_users (db w)) in
  let teams := teams_of_user id (db w) in
  let run := get_user_events users_user_id req w in
  let not_found :=
    run.1 = Return (Reply 404 (inl (StatusMessage "error"
                                      "No events found for this user"))) in
  (known = [] → not_found)
  ∧ (teams = [] → not_found)
  ∧ (∀ u, known = [u] → teams ≠ [] →
       run.1 = Return (Reply 200
                         (inr (Listing "success" "data"
                                       (teams ≫= events_of_team (db w)))))).
Proof.
  intros id known teams run not_found. subst not_found run.
  unfold get_user_events, try_catch, bind, select. cbn [db logged fst].
  rewrite (filter_all (λ _, true)) by by apply Forall_forall.
  unfold user_events_join. fold id. fold known.
  assert (∀ u, u ∈ known →
            List.filter (λ t, bool_decide (teams.user_id t = Some (users_user_id u)))
                        (db_teams (db w)) = teams) as Hteams.
  { intros u Hu. subst known. apply list_elem_of_In, filter_In in Hu as [_ Hu].
    apply Z.eqb_eq in Hu. by rewrite Hu. }
  split_and!.
  - intros ->. done.
  - intros Hnone.
    assert (map (object_of_row ∘ user_events_row)
                (known ≫= λ u,
                   match List.filter
                           (λ t, bool_decide (teams.user_id t
                                              = Some (users_user_id u)))
                           (db_teams (db w)) with
                   | [] => [None]
                   | t :: ts =>
                       (t :: ts) ≫= λ t,
                         match List.filter
                                 (λ e, teams.event_id t =? events.event_id e)
                                 (db_events (db w)) with
                         | [] => [Some (t, None)]
                         | e :: es => (λ e, Some (t, Some e)) <$> e :: es
                         end
                   end)
            = map (λ _, object_of_row (user_events_row None)) known) as ->.
    { induction known as [|u known IH]; [done|].
      cbn [mbind list_bind]. rewrite map_app.
      rewrite (Hteams u) by by left. rewrite Hnone. cbn [map app].
      f_equal. apply IH. intros u' Hu'. apply Hteams. by right. }
    destruct known as [|u known']; [done|].
    replace (forallb _ _) with true; [by rewrite orb_true_r|].
    symmetry. apply forallb_forall. intros event Hin.
    apply in_map_iff in Hin as (u' & <- & _). done.
  - intros u Hknown Hsome. rewrite Hknown. cbn [mbind list_bind app].
    rewrite (Hteams u) by (rewrite Hknown; by left).
    rewrite app_nil_r.
    destruct teams as [|t ts] eqn:Et; [done|]. lazy iota.
    rewrite !map_app, user_events_of_team, user_events_of_teams.
    cbn [mbind list_bind].
    destruct (events_of_team_shown (db w) t) as [Hne Hshown].
    destruct (events_of_team (db w) t) as [|event events] eqn:Ee; [done|].
    cbn [app]. rewrite bool_decide_eq_false_2 by done.
    apply Forall_cons in Hshown as [Hevent _].
    cbn [forallb orb]. by rewrite Hevent.
Qed.

Lemma user_events_of_a_user_witness :
  let d := Database [example.team_row 1 "Alpha" 4; example.team_row 2 "Alpha" 3]
             [] [] [] [] [events.Row 3 "SBC"]
             [users.Row 1 "ani" "ani@example.org" "hash";
              users.Row 2 "budi" "budi@example.org" "hash"]
             3 1 1 1 1 2 in
  let events id :=
    (get_user_events users.id (example.get None id EmptyBody)
                     (example.world_of d)).1 in
  let not_found :=
    Return (Reply 404 (inl (StatusMessage "error"
                              "No events found for this user"))) in
  events 9 = not_found
  ∧ events 2 = not_found
  ∧ events 1
    = Return (Reply 200
                (inr (Listing "success" "data"
                        [ [ ("team_id", Num 1); ("event_id", Num 4);
                            ("team_name", Str "Alpha");
                            ("teams_isVerified", Flag false);
                            ("teams_isRejected", Flag false);
                            ("event_name", Null) ];
                          [ ("team_id", Num 2); ("event_id", Num 3);
                            ("team_name", Str "Alpha");
                            ("teams_isVerified", Flag false);
                            ("teams_isRejected", Flag false);
                            ("event_name", Str "SBC") ] ]))).
Proof.
  intros d events not_found.
  pose proof (user_events_of_a_user users.id) as H.
  split; [|split].
  - apply (H (example.get None 9 EmptyBody) (example.world_of d)). reflexivity.
  - apply (H (example.get None 2 EmptyBody) (example.world_of d)). reflexivity.
  - apply (H (example.get None 1 EmptyBody) (example.world_of d))
      with (u := users.Row 1 "ani" "ani@example.org" "hash"); done.
Defined.

(** ** The participants *)

Lemma elem_of_List_filter {A} (p : A → bool) (l : list A) (x : A) :
  x ∈ List.filter p l ↔ x ∈ l ∧ p x = true.
Proof. rewrite !list_elem_of_In. apply filter_In. Qed.

Lemma sbc_join_spec (d : database) m t s a :
  (m, t, s, a) ∈ sbc_join d
  ↔ m ∈ db_members d ∧ t ∈ db_teams d ∧ s ∈ db_sbc d ∧ a ∈ db_dosbim d
    ∧ members.team_id m = teams.team_id t
    ∧ sbc.team_id s = teams.team_id t
    ∧ dosbim.team_id a = teams.team_id t
    ∧ teams.event_id t = 3.
Proof.
  unfold sbc_join. split.
  - intros (m' & Hin & Hm)%list_elem_of_bind.
    apply list_elem_of_bind in Hin as (t' & Hin & [Ht Hmt]%elem_of_List_filter).
    apply list_elem_of_bind in Hin as (s' & Hin & [Hs Hts]%elem_of_List_filter).
    apply list_elem_of_bind in Hin as (a' & Hin & [Ha Hta]%elem_of_List_filter).
    destruct (teams.event_id t' =? 3) eqn:He; [|by apply elem_of_nil in Hin].
    apply list_elem_of_singleton in Hin as [= -> -> -> ->].
    apply Z.eqb_eq in Hmt, Hts, Hta, He. split_and!; congruence.
  - intros (Hm & Ht & Hs & Ha & Hmt & Hst & Hat & He).
    apply list_elem_of_bind. exists m. split; [|done].
    apply list_elem_of_bind. exists t. split.
    2:{ apply elem_of_List_filter. split; [done|]. by apply Z.eqb_eq. }
    apply list_elem_of_bind. exists s. split.
    2:{ apply elem_of_List_filter. split; [done|]. by apply Z.eqb_eq. }
    apply list_elem_of_bind. exists a. split.
    2:{ apply elem_of_List_filter. split; [done|]. by apply Z.eqb_eq. }
    rewrite He. cbn. by left.
Qed.

(** X16. [GET /sbc-participant] lists a member once for every bridge row
    and every advisor row of the member's team, for the teams of event 3: a
    member of a team that has no bridge row or no advisor row is not
    listed, and when nothing is listed the answer is 404 "No participants
    found". In a participant the file references of the member (ktm,
    enrollment letter, photo) and of the team (payment proof, voucher) are
    under [download] and not beside the other data, the advisor's columns
    are under [dosbim], and [email] is the team's e-mail: the member's own
    e-mail, selected under the same column name, is not in the answer. The
    participant is given key by key (each key once), with the [semester]
    column that [members.*] returns among the member's data: the position
    of a key among the others follows the column order of the tables, which
    the sources do not give. *)
Theorem sbc_participants
    (semester : members.row → value) (req : request) (w : world) :
  let d := db w in
  let run := get_sbc_participant semester req w in
  (sbc_join d = [] →
   run.1 = Return (Reply 404 (inl (StatusMessage "error" "No participants found"))))
  ∧ (sbc_join d ≠ [] →
     run.1 = Return (Reply 200
                       (inr (Listing "success" "participants"
                                     (map (sbc_participant semester)
                                          (sbc_join d))))))
  ∧ (∀ m t s a,
       (m, t, s, a) ∈ sbc_join d
       ↔ m ∈ db_members d ∧ t ∈ db_teams d ∧ s ∈ db_sbc d ∧ a ∈ db_dosbim d
         ∧ members.team_id m = teams.team_id t
         ∧ sbc.team_id s = teams.team_id t
         ∧ dosbim.team_id a = teams.team_id t
         ∧ teams.event_id t = 3)
  ∧ (∀ m t s a, NoDup (sbc_participant semester (m, t, s, a)).*1)
  ∧ (∀ m t s a k,
       entry k (sbc_participant semester (m, t, s, a))
       = entry k
         [ ("member_id", Num (members.member_id m));
           ("team_id", Num (teams.team_id t));
           ("full_name", Str (members.full_name m));
           ("department", nullable Str (members.department m));
           ("batch", Str (members.batch m));
           ("phone_number", Str (members.phone_number m));
           ("line_id", Str (members.line_id m));
           ("email", nullable Str (teams.email t));
           ("twibbon_and_poster_link", Str (members.twibbon_and_poster_link m));
           ("is_leader", Num (members.is_leader m));
           ("nim", nullable Str (members.nim m));
           ("semester", semester m);
           ("team_name", Str (teams.team_name t));
           ("institution_name", Str (teams.institution_name t));
           ("event_id", Num (teams.event_id t));
           ("user_id", nullable Num (teams.user_id t));
           ("isVerified", Flag (teams.isVerified t));
           ("isRejected", Flag (teams.isRejected t));
           ("rejectMessage", nullable Str (teams.rejectMessage t));
           ("bridge_name", Str (sbc.bridge_name s));
           ("dosbim",
            Obj [ ("advisor_id", Num (dosbim.advisor_id a));
                  ("team_id", Num (dosbim.team_id a));
                  ("full_name", Str (dosbim.full_name a));
                  ("nip", Str (dosbim.nip a));
                  ("email", Str (dosbim.email a));
                  ("phone_number", Str (dosbim.phone_number a));
                  ("photo", nullable Str (dosbim.photo a)) ]);
           ("download",
            Obj [ ("ktm", nullable Str (members.ktm m));
                  ("active_student_letter",
                   nullable Str (members.active_student_letter m));
                  ("photo", nullable Str (members.photo m));
                  ("payment_proof", nullable Str (teams.payment_proof t));
                  ("voucher", nullable Str (teams.voucher t)) ]) ]).
Proof.
  intros d run. subst run d. split_and!.
  - intros Hnone. unfold get_sbc_participant, try_catch, bind, select.
    cbn [db logged]. by rewrite Hnone.
  - intros Hsome. unfold get_sbc_participant, try_catch, bind, select.
    cbn [db logged fst].
    rewrite (filter_all (λ _, true)) by by apply Forall_forall.
    rewrite bool_decide_eq_false_2.
    + by rewrite map_map.
    + intros H. by apply map_eq_nil in H.
  - apply sbc_join_spec.
  - intros m t s a. apply (bool_decide_unpack _). by vm_compute.
  - reflexivity.
Qed.

Lemma fcec_join_spec (d : database) t m f :
  (t, m, f) ∈ fcec_join d
  ↔ t ∈ db_teams d ∧ m ∈ db_members d ∧ f ∈ db_fcec d
    ∧ members.team_id m = teams.team_id t
    ∧ fcec.team_id f = teams.team_id t
    ∧ teams.event_id t = 1.
Proof.
  unfold fcec_join. split.
  - intros (t' & Hin & Ht)%list_elem_of_bind.
    apply list_elem_of_bind in Hin as (m' & Hin & [Hm Htm]%elem_of_List_filter).
    apply list_elem_of_bind in Hin as (f' & Hin & [Hf Htf]%elem_of_List_filter).
    destruct (teams.event_id t' =? 1) eqn:He; [|by apply elem_of_nil in Hin].
    apply list_elem_of_singleton in Hin as [= -> -> ->].
    apply Z.eqb_eq in Htm, Htf, He. split_and!; congruence.
  - intros (Ht & Hm & Hf & Hmt & Hft & He).
    apply list_elem_of_bind. exists t. split; [|done].
    apply list_elem_of_bind. exists m. split.
    2:{ apply elem_of_List_filter. split; [done|]. by apply Z.eqb_eq. }
    apply list_elem_of_bind. exists f. split.
    2:{ apply elem_of_List_filter. split; [done|]. by apply Z.eqb_eq. }
    rewrite He. cbn. by left.
Qed.

(** X17. [GET /fcec-participant] lists, for the teams of event 1, a member
    once for every abstract row of the member's team, and answers 404 "No
    members found" when nothing is listed. A participant has two groups:
    [download] holds the voucher, the member's enrollment letter, ktm and
    photo, and the abstract file and originality statement; [data] holds
    the other selected columns, the member's e-mail as [email] and the
    team's as [team_email], and ends with the team name and id. The
    payment proof, a file reference too, is under [data]. *)
Theorem fcec_participants
    (semester : members.row → value) (req : request) (w : world) :
  let d := db w in
  let run := get_fcec_participant semester req w in
  (fcec_join d = [] →
   run.1 = Return (Reply 404 (inl (StatusMessage "error" "No members found"))))
  ∧ (fcec_join d ≠ [] →
     run.1 = Return (Reply 200
                       (inr (Listing "success" "members"
                                     (map (fcec_participant semester)
                                          (fcec_join d))))))
  ∧ (∀ t m f,
       (t, m, f) ∈ fcec_join d
       ↔ t ∈ db_teams d ∧ m ∈ db_members d ∧ f ∈ db_fcec d
         ∧ members.team_id m = teams.team_id t
         ∧ fcec.team_id f = teams.team_id t
         ∧ teams.event_id t = 1)
  ∧ (∀ t m f,
       fcec_participant semester (t, m, f)
       = [ ("data",
            Obj [ ("full_name", Str (members.full_name m));
                  ("abstract_title", Str (fcec.abstract_title f));
                  ("institution_name", Str (teams.institution_name t));
                  ("department", nullable Str (members.department m));
                  ("batch", Str (members.batch m));
                  ("nim", nullable Str (members.nim m));
                  ("semester", semester m);
                  ("phone_number", Str (members.phone_number m));
                  ("line_id", Str (members.line_id m));
                  ("email", Str (members.email m));
                  ("team_email", nullable Str (teams.email t));
                  ("is_leader", Num (members.is_leader m));
                  ("twibbon_and_poster_link",
                   Str (members.twibbon_and_poster_link m));
                  ("abstract_video_link", Str (fcec.abstract_video_link f));
                  ("isVerified", Flag (teams.isVerified t));
                  ("isRejected", Flag (teams.isRejected t));
                  ("rejectMessage", nullable Str (teams.rejectMessage t));
                  ("payment_proof", nullable Str (teams.payment_proof t));
                  ("team_name", Str (teams.team_name t));
                  ("team_id", Num (teams.team_id t)) ]);
           ("download",
            Obj [ ("voucher", nullable Str (teams.voucher t));
                  ("active_student_letter",
                   nullable Str (members.active_student_letter m));
                  ("ktm", nullable Str (members.ktm m));
                  ("photo", nullable Str (members.photo m));
                  ("abstract_file", nullable Str (fcec.abstract_file f));
                  ("originality_statement",
                   nullable Str (fcec.originality_statement f)) ]) ]).
Proof.
  intros d run. subst run d. split_and!.
  - intros Hnone. unfold get_fcec_participant, try_catch, bind, select.
    cbn [db logged]. by rewrite Hnone.
  - intros Hsome. unfold get_fcec_participant, try_catch, bind, select.
    cbn [db logged fst].
    rewrite (filter_all (λ _, true)) by by apply Forall_forall.
    rewrite bool_decide_eq_false_2.
    + by rewrite map_map.
    + intros H. by apply map_eq_nil in H.
  - apply fcec_join_spec.
  - reflexivity.
Qed.

(** ** The verifier: which word of the header is the token *)

Lemma split_nonempty (sep : ascii) (s : string) : split sep s ≠ [].
Proof.
  destruct s as [|c s]; cbn; [done|].
  case_bool_decide; [done|]. by destruct (split sep s).
Qed.

Lemma split_first_word (word rest : string) :
  no_space word = true →
  split " " (word +:+ String " " rest) = word :: split " " rest.
Proof.
  induction word as [|c word IH]; intros Hword.
  { change ("" +:+ String " " rest) with (String " " rest). cbn.
    by rewrite bool_decide_eq_true_2. }
  cbn in Hword. apply andb_prop in Hword as [Hc Hword].
  apply negb_true_iff, bool_decide_eq_false in Hc.
  change (String c word +:+ String " " rest)
    with (String c (word +:+ String " " rest)).
  cbn [split]. rewrite (IH Hword). by rewrite bool_decide_eq_false_2.
Qed.

Lemma append_nonempty (a b : string) : String " " a +:+ b ≠ "".
Proof. done. Qed.

Lemma bearer_second_word (scheme rest : string) :
  no_space scheme = true →
  bearer (Some (scheme +:+ String " " rest)) = head (split " " rest).
Proof.
  intros Hscheme. unfold bearer, falsy.
  rewrite bool_decide_eq_false_2.
  - rewrite split_first_word by done. cbn. by destruct (split " " rest).
  - by destruct scheme.
Qed.

Lemma verdict_of_token jwt_verify env (req : request) (w : world) (token : string) :
  bearer (headers_authorization req) = Some token →
  match authenticateToken jwt_verify env req w with
  | (Send r, _) => inl r
  | (Next req', _) => inr (user req')
  end
  = if bool_decide (token = "") then
      inl (Response 401 (Message "Authentication token is required"))
    else
      match jwt_verify token (JWT_SECRET env) (clock w) with
      | inr decoded => inr (Some decoded)
      | inl err =>
          if bool_decide (jwt.name err = "TokenExpiredError")
          then inl (Response 401 (Message "Token has expired"))
          else inl (Response 403 (Message "Invalid token"))
      end.
Proof.
  intros Htoken. unfold authenticateToken. rewrite Htoken. cbn [falsy default].
  case_bool_decide; [done|].
  destruct (jwt_verify _ _ _) as [err|decoded]; [|done].
  by case_bool_decide.
Qed.

(** X18. The verifier takes the second word of the Authorization header
    for the token and does not look at the first: any scheme word in place
    of [Bearer] gives the same verdict (the same refusal, or the same
    claims in [req.user]), and so does a header with more words after the
    token. A header that is the token alone, a header with two blanks
    after the scheme, and an empty header are answered 401 "Authentication
    token is required". *)
Theorem authenticateToken_reads_the_second_word
    (jwt_verify : string → string → Z → jwt.error + jwt.claims)
    (env : option string) (req : request) (w : world)
    (scheme token rest : string) :
  no_space scheme = true →
  compact token →
  let with_header h :=
    Request (Some h) (params_id req) (body req) (parts req) (files req)
            (user req) in
  let verdict h :=
    match authenticateToken jwt_verify env (with_header h) w with
    | (Send r, _) => inl r
    | (Next req', _) => inr (user req')
    end in
  let required :=
    inl (Response 401 (Message "Authentication token is required")) in
  verdict (scheme +:+ " " +:+ token) = verdict ("Bearer " +:+ token)
  ∧ verdict (scheme +:+ " " +:+ token +:+ " " +:+ rest)
    = verdict ("Bearer " +:+ token)
  ∧ verdict token = required
  ∧ verdict (scheme +:+ "  " +:+ token) = required
  ∧ verdict "" = required.
Proof.
  intros Hscheme [Hne Htoken] with_header verdict required.
  assert (∀ h, bearer (Some h) = Some token →
               verdict h = verdict ("Bearer " +:+ token)) as Hsame.
  { intros h Hh. subst verdict. cbv beta.
    rewrite (verdict_of_token _ _ (with_header h) w token Hh).
    rewrite (verdict_of_token _ _ (with_header ("Bearer " +:+ token)) w token); [done|].
    apply bearer_of_compact. by split. }
  assert (∀ h, bearer (Some h) = Some "" ∨ bearer (Some h) = None →
               verdict h = required) as Hnone.
  { intros h Hh. subst verdict. cbv beta. unfold authenticateToken.
    cbn [headers_authorization with_header]. by destruct Hh as [-> | ->]. }
  split_and!.
  - apply Hsame. change (" " +:+ token) with (String " " token).
    rewrite bearer_second_word by done. by rewrite split_no_space.
  - apply Hsame. change (" " +:+ token +:+ " " +:+ rest)
      with (String " " (token +:+ String " " rest)).
    rewrite bearer_second_word by done. by rewrite split_first_word.
  - apply Hnone. right. unfold bearer, falsy.
    rewrite bool_decide_eq_false_2 by done. by rewrite split_no_space.
  - apply Hnone. left. change ("  " +:+ token) with (String " " (String " " token)).
    rewrite bearer_second_word by done. cbn. by rewrite bool_decide_eq_true_2.
  - apply Hnone. by left.
Qed.

Lemma authenticateToken_reads_the_second_word_witness :
  let verdict h :=
    match authenticateToken symbolic.named None
                            (example.get (Some h) 0 EmptyBody)
                            (example.world_of example.alpha_db) with
    | (Send r, _) => inl r
    | (Next req', _) => inr (user req')
    end in
  let required :=
    inl (Response 401 (Message "Authentication token is required")) in
  verdict "Basic valid" = verdict "Bearer valid"
  ∧ verdict "Basic valid and more" = verdict "Bearer valid"
  ∧ verdict "valid" = required
  ∧ verdict "Basic  valid" = required
  ∧ verdict "" = required.
Proof.
  intros verdict required.
  apply (authenticateToken_reads_the_second_word symbolic.named None
           (example.get None 0 EmptyBody) (example.world_of example.alpha_db)
           "Basic" "valid" "and more"); done.
Defined.

(** ** The FCEC create without a leader *)

(** X19. The FCEC create does not test that the payload has a leader: when
    it has none, the team row is inserted before the leader's INSERT
    fails; the answer is 500, the files uploaded with the request are
    removed, and the team row stays, without a member row and without an
    abstract row. (The CIC create tests the leader first and answers 400
    with nothing inserted.) *)
Theorem fcec_create_is_not_atomic
    (req : request) (w : world) (d : data.t) (team : team_input.t)
    (payment_proof : string) (uid : Z) (email : string) :
  body req = Multipart (Data d) →
  data.team d = Some team →
  data.leader d = None →
  team_input.payment_proof team = Some payment_proof →
  team_input.user_id team = Some uid →
  team_input.email team = Some email →
  List.filter (λ r, bool_decide (teams.team_name r = team_input.team_name team)
                    && (teams.event_id r =? 1)) (db_teams (db w)) = [] →
  Forall (λ e, e.2 ≠ []) (files req) →
  NoDup (paths_of (files req)) →
  Forall (λ p, p ∈ disk w) (paths_of (files req)) →
  let run := post_teams_fcec_new req w in
  (∃ e, run.1 = Return (Response 500 (MessageError "An error occurred" e)))
  ∧ (∃ row,
       db_teams (db run.2) = db_teams (db w) ++ [row]
       ∧ teams.team_id row = next_team_id (db w)
       ∧ teams.team_name row = team_input.team_name team
       ∧ teams.event_id row = 1)
  ∧ db_members (db run.2) = db_members (db w)
  ∧ db_fcec (db run.2) = db_fcec (db w)
  ∧ disk run.2 = disk w ∖ list_to_set (paths_of (files req)).
Proof.
  intros Hbody Hteam Hleader Hproof Huid Hemail Hfree Hfiles Hnodup Hdisk run.
  assert (∃ e row w1,
            run = (Return (Response 500 (MessageError "An error occurred" e)),
                   with_disk (λ d, d ∖ list_to_set (paths_of (files req))) w1)
            ∧ db_teams (db w1) = db_teams (db w) ++ [row]
            ∧ teams.team_id row = next_team_id (db w)
            ∧ teams.team_name row = team_input.team_name team
            ∧ teams.event_id row = 1
            ∧ db_members (db w1) = db_members (db w)
            ∧ db_fcec (db w1) = db_fcec (db w)
            ∧ disk w1 = disk w)
    as (e & row & w1 & -> & Ht & Hid & Hname & Hev & Hm & Hf & Hd).
  2:{ cbn [fst snd]. split_and!; [by eexists|by eexists|done|done|].
      cbn. by rewrite Hd. }
  subst run. unfold post_teams_fcec_new, try_catch.
  assert (parse_data req w = (Return d, w)) as E by (unfold parse_data; by rewrite Hbody).
  rewrite (bind_run _ _ _ _ _ E). clear E.
  rewrite Hteam. erewrite bind_run by reflexivity.
  assert (select_team_named (team_input.team_name team) 1 w
          = (Return [], logged (SELECT Teams) w)) as E.
  { unfold select_team_named, bind, select. by rewrite Hfree. }
  rewrite (bind_run _ _ _ _ _ E). clear E.
  rewrite bool_decide_eq_false_2 by by intros H.
  set (w0 := logged (SELECT Teams) w).
  destruct (path_of_runs "abstract_file" req w0 Hfiles) as [abstractFile E].
  rewrite (bind_run _ _ _ _ _ E). clear E.
  destruct (path_of_runs "originality_statement" req w0 Hfiles) as [statement E].
  rewrite (bind_run _ _ _ _ _ E). clear E.
  rewrite Hproof, Huid, Hemail.
  erewrite bind_run by reflexivity.
  erewrite bind_run by reflexivity.
  erewrite bind_run by reflexivity.
  erewrite bind_run by reflexivity.
  match goal with
  | |- context [bind (path_of "leader_ktm" req) _ ?w'] => set (w1 := w')
  end.
  destruct (path_of_runs "leader_ktm" req w1 Hfiles) as [ktm E].
  rewrite (bind_run _ _ _ _ _ E). clear E.
  destruct (path_of_runs "leader_active_student_letter" req w1 Hfiles) as [asl E].
  rewrite (bind_run _ _ _ _ _ E). clear E.
  destruct (path_of_runs "leader_photo" req w1 Hfiles) as [photo E].
  rewrite (bind_run _ _ _ _ _ E). clear E.
  rewrite Hleader. cbn [replacement].
  erewrite bind_throws by reflexivity.
  rewrite (bind_run _ _ _ _ _ (remove_uploads_sync req w1 Hnodup Hdisk)).
  cbn [error_500 ret].
  eexists _, _, w1. split; [reflexivity|]. subst w1 w0. cbn.
  split_and!; done.
Qed.

Lemma fcec_create_is_not_atomic_witness :
  let proof := File "abstract_file" "abstract.pdf" "application/pdf"
                    "abstract_file-1700000000000-42.pdf"
                    "uploads/fcec/abstract_file-1700000000000-42.pdf" in
  let team := team_input.T "Beta" "X University" (Some "t@example.org")
                           (Some "uploads/fcec/p.png") (Some 1) in
  let d := data.T (Some team) None [example.member "M1"] [] []
                  (fcec_input.T "Abstract" "video") in
  let req := Request (Some "Bearer valid") 0 (Multipart (Data d)) []
                     [("abstract_file", [proof])]
                     (Some (jwt.Claims None (Some 1))) in
  let w := World example.alpha_db [] {[ path proof ]} 1700000000000 in
  let run := post_teams_fcec_new req w in
  (∃ e, run.1 = Return (Response 500 (MessageError "An error occurred" e)))
  ∧ (∃ row,
       db_teams (db run.2) = db_teams (db w) ++ [row]
       ∧ teams.team_id row = 3
       ∧ teams.team_name row = "Beta"
       ∧ teams.event_id row = 1)
  ∧ db_members (db run.2) = []
  ∧ db_fcec (db run.2) = []
  ∧ disk run.2 = {[ path proof ]} ∖ list_to_set [path proof].
Proof.
  intros proof team d req w run.
  apply (fcec_create_is_not_atomic req w d team "uploads/fcec/p.png" 1
           "t@example.org"); try reflexivity.
  - by repeat constructor.
  - apply NoDup_singleton.
  - repeat constructor; set_solver.
Defined.

(** ** The participants: an example of each *)

Lemma sbc_participants_witness :
  let d := Database [example.team_row 2 "Alpha" 3; example.team_row 5 "Delta" 3]
             [member_row_nim 2 (example.member "Leader") None None None 1 1;
              member_row_nim 5 (example.member "Other") None None None 1 2]
             [dosbim.Row 1 2 "Advisor" "197" "a@example.org" "0811" None]
             [sbc.Row 1 2 "Bridge"; sbc.Row 2 5 "Span"] [] [] [] 6 3 2 3 1 0 in
  let run := get_sbc_participant (λ _, Num 5) (example.get None 0 EmptyBody)
                                 (example.world_of d) in
  ∃ participant,
    run.1 = Return (Reply 200 (inr (Listing "success" "participants"
                                            [participant])))
    ∧ entry "full_name" participant = Some (Str "Leader")
    ∧ entry "email" participant = Some Null
    ∧ entry "semester" participant = Some (Num 5)
    ∧ entry "ktm" participant = None.
Proof.
  intros d run.
  destruct (sbc_participants (λ _, Num 5) (example.get None 0 EmptyBody)
              (example.world_of d))
    as (_ & Hlisted & _ & _).
  eexists. split; [apply Hlisted; by vm_compute|]. by vm_compute.
Defined.

Lemma fcec_participants_witness :
  let d := Database [example.team_row 3 "Gamma" 1]
             [member_row_department 3 (example.member "Leader") None None None 1 1]
             [] []
             [fcec.Row 1 3 None "Abstract" (Some "uploads/fcec/a.pdf") "video"]
             [] [] 4 2 1 1 2 0 in
  let run := get_fcec_participant (λ _, Null) (example.get None 0 EmptyBody)
                                  (example.world_of d) in
  ∃ participant data,
    run.1 = Return (Reply 200 (inr (Listing "success" "members" [participant])))
    ∧ entry "data" participant = Some (Obj data)
    ∧ entry "email" data = Some (Str "m@example.org")
    ∧ entry "team_email" data = Some Null
    ∧ entry "abstract_file" data = None.
Proof.
  intros d run.
  destruct (fcec_participants (λ _, Null) (example.get None 0 EmptyBody)
              (example.world_of d))
    as (_ & Hlisted & _ & _).
  eexists _, _. split; [apply Hlisted; by vm_compute|]. by vm_compute.
Defined.

(** ** Update, then get by id *)

Lemma filter_map_same {A} (p : A → bool) (f : A → A) (l : list A) :
  (∀ x, p (f x) = p x) →
  List.filter p (map f l) = map f (List.filter p l).
Proof.
  intros Hf. induction l as [|x l IH]; cbn; [done|].
  rewrite Hf. destruct (p x); cbn; by rewrite IH.
Qed.

Lemma insert_by_is_leader_map (f : members.row → members.row)
    (m : members.row) (l : list members.row) :
  (∀ m, members.is_leader (f m) = members.is_leader m) →
  insert_by_is_leader (f m) (map f l) = map f (insert_by_is_leader m l).
Proof.
  intros Hf. induction l as [|x l IH]; cbn; [done|].
  rewrite !Hf. destruct (_ <=? _); cbn; [done|]. by rewrite IH.
Qed.

Lemma order_by_map (f : members.row → members.row) (l : list members.row) :
  (∀ m, members.is_leader (f m) = members.is_leader m) →
  order_by_is_leader_desc (map f l) = map f (order_by_is_leader_desc l).
Proof.
  intros Hf. unfold order_by_is_leader_desc.
  induction l as [|x l IH]; cbn; [done|].
  by rewrite IH, insert_by_is_leader_map.
Qed.

Lemma find_leader_map (f : members.row → members.row) (l : list members.row) :
  (∀ m, members.is_leader (f m) = members.is_leader m) →
  find_leader (map f l) = f <$> find_leader l.
Proof.
  intros Hf. unfold find_leader.
  induction l as [|x l IH]; cbn; [done|].
  rewrite Hf. by destruct (_ =? _).
Qed.

Lemma by_id_shown (t : track) (req : request) (w : world) (shown : detail) :
  (by_id_of t req w).1 = Return (Reply 200 (inr shown)) →
  let id := params_id req in
  let roster := order_by_is_leader_desc (members_of id (db w)) in
  team_of_event id (event_of t) (db w) ≠ []
  ∧ (t = CIC → roster ≠ [])
  ∧ shown = Detail (team_of_event id (event_of t) (db w))
                   (find_leader roster) (filter_members roster)
                   (detail_extra_of t id (db w)).
Proof.
  intros Hshown id roster.
  destruct (decide (team_of_event id (event_of t) (db w) = [])) as [Hteam|Hteam].
  { by rewrite (by_id_missing t req w Hteam) in Hshown. }
  assert (t = CIC → roster ≠ []) as Hroster.
  { intros -> Hr. cbn [by_id_of] in Hshown.
    by rewrite (by_id_memberless req w Hteam (order_by_nil _ Hr)) in Hshown. }
  destruct (by_id_found t req w Hteam Hroster) as (w' & Hrun & _).
  rewrite Hrun in Hshown. by injection Hshown as <-.
Qed.

(** X20. Update, then get by id. When a get by id answers 200 for a team
    and an update whose body has its three parts (the entries of [members]
    naming distinct rows) is run, the same get by id afterwards answers 200
    with the rows it showed before, rewritten by the update: the team rows
    with the body's team id carry the body's values, the leader and the
    members named by an entry carry the entry's values, the same row is the
    leader, and the track's own rows are as before. *)
Theorem updated_team_is_shown
    (t : track) (h : update_body.t → handler) (body : update_body.t)
    (req get_req : request) (w : world) (team : team_update.t)
    (leader : member_update.t) (members : list member_update.t)
    (shown : detail) :
  h ∈ update_routes →
  update_body.team body = Some team →
  update_body.leader body = Some leader →
  update_body.members body = Some members →
  NoDup (member_update.member_id <$> members) →
  (by_id_of t get_req w).1 = Return (Reply 200 (inr shown)) →
  let rewritten_team (r : teams.row) :=
    if teams.team_id r =? team_update.team_id team
    then set_team_fields team r else r in
  let rewritten (m : members.row) :=
    match last_naming (leader :: members) m with
    | Some u => set_member_fields u m
    | None => m
    end in
  (by_id_of t get_req (h body req w).2).1
  = Return (Reply 200
              (inr (Detail (map rewritten_team (detail_team shown))
                           (rewritten <$> detail_leader shown)
                           (map rewritten (detail_members shown))
                           (detail_more shown)))).
Proof.
  intros Hh Hteam Hleader Hmembers _ Hshown rewritten_team rewritten.
  apply by_id_shown in Hshown as (Hfound & Hroster & ->).
  apply update_routes_same in Hh as ->.
  rewrite update_run, Hteam, Hleader, Hmembers. cbv zeta. cbn [snd].
  set (w' := foldl _ _ members).
  destruct (update_members_foldl members
              (update_members leader (update_teams team w).2).2)
    as (H1 & H2 & H3 & H4 & _ & _ & _ & _ & H9).
  fold w' in H1, H2, H3, H4, H9.
  assert (db_teams (db w') = map rewritten_team (db_teams (db w))) as Hteams.
  { by rewrite H1. }
  assert (db_members (db w') = map rewritten (db_members (db w))) as Hrows.
  { rewrite H9.
    pose proof (member_steps_last (leader :: members) (db_members (db w))) as H.
    cbn [foldl] in H. exact H. }
  assert (∀ m, members.is_leader (rewritten m) = members.is_leader m) as Hl.
  { intros m. subst rewritten. cbv beta. by destruct (last_naming _ m). }
  assert (team_of_event (params_id get_req) (event_of t) (db w')
          = map rewritten_team
                (team_of_event (params_id get_req) (event_of t) (db w))) as Hteam'.
  { unfold team_of_event. rewrite Hteams. apply filter_map_same.
    intros r. subst rewritten_team. cbv beta.
    by destruct (teams.team_id r =? team_update.team_id team). }
  assert (order_by_is_leader_desc (members_of (params_id get_req) (db w'))
          = map rewritten
                (order_by_is_leader_desc (members_of (params_id get_req) (db w))))
    as Hroster'.
  { unfold members_of. rewrite Hrows, filter_map_same; [by apply order_by_map|].
    intros m. unfold member_of_team. subst rewritten. cbv beta.
    by destruct (last_naming _ m). }
  destruct (by_id_found t get_req w') as (w'' & -> & _).
  - rewrite Hteam'. by destruct (team_of_event _ _ (db w)).
  - intros Ht. rewrite Hroster'. specialize (Hroster Ht).
    by destruct (order_by_is_leader_desc _).
  - cbn [fst detail_team detail_leader detail_members detail_more].
    rewrite Hteam', Hroster', find_leader_map by done.
    unfold filter_members. rewrite filter_map_same by (intros m; by rewrite Hl).
    assert (detail_extra_of t (params_id get_req) (db w')
            = detail_extra_of t (params_id get_req) (db w)) as ->; [|done].
    destruct t; cbn [detail_extra_of]; by rewrite ?H2, ?H3, ?H4.
Qed.

Lemma updated_team_is_shown_witness :
  let row (id team : Z) (name : string) (leader : Z) :=
    members.Row id team name None "2023" "0800" "line" "m@example.org"
                None None None "link" leader None in
  let entry (id : Z) (name : string) :=
    member_update.T id name None "2024" "0811" "line2" "n@example.org"
                    None None None "link2" in
  let d := Database [example.team_row 1 "Alpha" 4; example.team_row 2 "Alpha" 3]
             [row 1 1 "Ani" 1; row 2 1 "Budi" 0; row 3 2 "Citra" 1]
             [] [] [] [] [] 3 4 1 1 1 0 in
  let body :=
    update_body.T (Some (team_update.T 1 "Gamma" "Y University" None (Some 1) None))
                  (Some (entry 1 "Ani R.")) (Some [entry 2 "Budi S."]) in
  let shown w :=
    match (by_id_of CIC (example.get None 1 EmptyBody) w).1 with
    | Return (Reply 200 (inr s)) =>
        Some (map teams.team_name (detail_team s),
              members.full_name <$> detail_leader s,
              map members.full_name (detail_members s))
    | _ => None
    end in
  shown (example.world_of d) = Some (["Alpha"], Some "Ani", ["Budi"])
  ∧ shown (put_teams_update body (example.get None 0 EmptyBody)
                            (example.world_of d)).2
    = Some (["Gamma"], Some "Ani R.", ["Budi S."]).
Proof.
  intros row entry d body shown. split; [reflexivity|].
  subst shown. cbv beta.
  erewrite (updated_team_is_shown CIC put_teams_update body
              (example.get None 0 EmptyBody) (example.get None 1 EmptyBody)
              (example.world_of d)
              (team_update.T 1 "Gamma" "Y University" None (Some 1) None)
              (entry 1 "Ani R.") [entry 2 "Budi S."]
              (Detail [example.team_row 1 "Alpha" 4] (Some (row 1 1 "Ani" 1))
                      [row 2 1 "Budi" 0] NoDetail));
    [reflexivity|by left|reflexivity..|apply NoDup_singleton|reflexivity].
Defined.
